(** * QARepeater: a shallow embedding of [examples/06-qa-repeater/qarepeater.py]

    The repeater downloads the most recent QA sessions of an assignment,
    re-submits the values of each one as a new session and tabulates old
    against new results.  This file embeds the Python module in Rocq and
    proves (or refutes) the properties that the design document states
    about it.

    Layout: the Python run-time values the module manipulates ([Py]), the
    API objects, the module-level functions, the process and the remote
    service, the [QARepeater] methods, the vocabulary of the statements,
    a small service to run the program against, and then the theorems.

    Conventions of the embedding:
    - a Python [dict] with string keys is an association list in
      insertion order;
    - a function that can raise returns an [outcome]; a function that
      talks to the service or reads the clock is a function of the
      [World] (monad [M]); the [while] loop of [get_api_objects] takes the
      number of pages it may fetch;
    - the JSON objects of the API are records with the keys that the
      module reads, and the values of the cached properties of a client
      are given ([QARepeater.cached]);
    - [time.monotonic()] counts milliseconds, in [Z]. *)

From Stdlib Require Import ZArith List String Ascii Bool Lia.
From Stdlib Require Import PrimFloat FloatOps SpecFloat.
From Stdlib Require DecimalString.
Import ListNotations.

Local Open Scope string_scope.
Local Open Scope Z_scope.

(* ================================================================= *)
(** ** Python values, strings and dictionaries *)

Module Py.

(** What [response.json()] and [json.loads] produce. *)
#[warnings="-register-all"]
Inductive pyval : Type :=
| PNone
| PBool (b : bool)
| PInt (n : Z)
| PFloat (f : float)
| PStr (s : string)
| PList (l : list pyval)
| PDict (kv : list (string * pyval)).

(** [x is None] *)
Definition is_none (v : pyval) : bool :=
  match v with PNone => true | _ => false end.

(** Truth value of an object in a condition ([if x:]). *)
Definition truthy (v : pyval) : bool :=
  match v with
  | PNone => false
  | PBool b => b
  | PInt n => negb (n =? 0)
  | PFloat f => negb (PrimFloat.eqb f PrimFloat.zero)
  | PStr s => negb (String.eqb s "")
  | PList l => match l with [] => false | _ => true end
  | PDict kv => match kv with [] => false | _ => true end
  end.

(** [int == float]: Python compares the exact mathematical values. *)
Definition float_eq_int (f : float) (z : Z) : bool :=
  match Prim2SF f with
  | S754_zero _ => z =? 0
  | S754_finite s m e =>
      let zm := if s then Z.neg m else Z.pos m in
      if 0 <=? e then z =? zm * 2 ^ e else z * 2 ^ (- e) =? zm
  | _ => false
  end.

Definition Z_of_bool (b : bool) : Z := if b then 1 else 0.

Fixpoint assoc {V : Type} (k : string) (kv : list (string * V)) : option V :=
  match kv with
  | [] => None
  | (k', v) :: rest => if String.eqb k' k then Some v else assoc k rest
  end.

(** [a == b] on JSON-shaped values: [bool] is a subtype of [int], numbers
    compare by value, sequences element-wise, mappings key-wise. *)
Fixpoint py_eq (a b : pyval) {struct a} : bool :=
  match a, b with
  | PNone, PNone => true
  | PBool x, PBool y => Bool.eqb x y
  | PBool x, PInt y => Z_of_bool x =? y
  | PInt x, PBool y => x =? Z_of_bool y
  | PBool x, PFloat y => float_eq_int y (Z_of_bool x)
  | PFloat x, PBool y => float_eq_int x (Z_of_bool y)
  | PInt x, PInt y => x =? y
  | PInt x, PFloat y => float_eq_int y x
  | PFloat x, PInt y => float_eq_int x y
  | PFloat x, PFloat y => PrimFloat.eqb x y
  | PStr x, PStr y => String.eqb x y
  | PList xs, PList ys =>
      (fix all2 (xs ys : list pyval) {struct xs} : bool :=
         match xs, ys with
         | [], [] => true
         | x :: xs', y :: ys' => py_eq x y && all2 xs' ys'
         | _, _ => false
         end) xs ys
  | PDict xs, PDict ys =>
      Nat.eqb (List.length xs) (List.length ys) &&
      (fix all1 (xs : list (string * pyval)) {struct xs} : bool :=
         match xs with
         | [] => true
         | (k, x) :: xs' =>
             match assoc k ys with
             | Some y => py_eq x y
             | None => false
             end && all1 xs'
         end) xs
  | _, _ => false
  end.

(** [str(b)] for a [bool]. *)
Definition str_of_bool (b : bool) : string := if b then "True" else "False".

(** [str(n)] for an [int]. *)
Definition str_of_int (n : Z) : string :=
  DecimalString.NilZero.string_of_int (Z.to_int n).

(** *** [str] methods *)

Fixpoint lstrip (c : ascii) (s : string) : string :=
  match s with
  | EmptyString => EmptyString
  | String a s' => if Ascii.eqb a c then lstrip c s' else s
  end.

Fixpoint rstrip (c : ascii) (s : string) : string :=
  match s with
  | EmptyString => EmptyString
  | String a s' =>
      match rstrip c s' with
      | EmptyString => if Ascii.eqb a c then EmptyString else String a EmptyString
      | r => String a r
      end
  end.

(** [s.strip(c)] for a one-character set. *)
Definition strip (c : ascii) (s : string) : string := rstrip c (lstrip c s).

(** [s.endswith(suffix)] *)
Fixpoint endswith (s suffix : string) : bool :=
  if String.eqb s suffix then true
  else match s with
       | EmptyString => false
       | String _ s' => endswith s' suffix
       end.

(** [s.split(c)], which is also [s.rsplit(c)] when no limit is given. *)
Fixpoint split (c : ascii) (s : string) : list string :=
  match s with
  | EmptyString => [EmptyString]
  | String a s' =>
      if Ascii.eqb a c then EmptyString :: split c s'
      else match split c s' with
           | h :: t => String a h :: t
           | [] => [String a EmptyString]
           end
  end.

(** *** [dict] with string keys

    Python dictionaries keep insertion order, and assigning to a key that
    is present keeps its position; both are visible in the order of the
    rows of the comparison table. *)

Definition dict (V : Type) : Type := list (string * V).

Definition dict_get {V : Type} (d : dict V) (k : string) : option V := assoc k d.

(** [d[k] = v] *)
Fixpoint dict_set {V : Type} (d : dict V) (k : string) (v : V) : dict V :=
  match d with
  | [] => [(k, v)]
  | (k', v') :: rest =>
      if String.eqb k' k then (k', v) :: rest else (k', v') :: dict_set rest k v
  end.

Definition dict_keys {V : Type} (d : dict V) : list string := map fst d.

(** [{key(x): val(x) for x in xs}] *)
Definition dict_comp {A V : Type} (key : A -> string) (val : A -> V) (xs : list A) : dict V :=
  fold_left (fun d x => dict_set d (key x) (val x)) xs [].

(** [x in xs] for a list of strings. *)
Definition str_in (x : string) (xs : list string) : bool :=
  existsb (String.eqb x) xs.

(** *** [bytes]: [base64.b64decode] and [bytes.decode]

    Byte strings are strings of 8-bit characters, and a [str] is held as
    its UTF-8 encoding, so that decoding is validation. *)

Definition b64_value (c : ascii) : option N :=
  let n := N_of_ascii c in
  (if (65 <=? n) && (n <=? 90) then Some (n - 65)
   else if (97 <=? n) && (n <=? 122) then Some (n - 71)
   else if (48 <=? n) && (n <=? 57) then Some (n + 4)
   else if n =? 43 then Some 62
   else if n =? 47 then Some 63
   else None)%N.

Definition emit (b : N) (r : option string) : option string :=
  option_map (String (ascii_of_N (b mod 256))) r.

(** The decoding loop of [binascii.a2b_base64] in its default, non-strict
    mode, which is what [base64.b64decode(s)] runs: characters outside
    the alphabet are skipped, a complete pad sequence ends the input, and
    a dangling quad is an error ([None] stands for [binascii.Error]). *)
Fixpoint a2b_base64 (data : string) (quad_pos : nat) (leftchar : N) (pads : nat)
  : option string :=
  match data with
  | EmptyString => if Nat.eqb quad_pos 0 then Some EmptyString else None
  | String ch rest =>
      if Ascii.eqb ch "="%char then
        if Nat.leb 2 quad_pos then
          if Nat.leb 4 (quad_pos + S pads) then Some EmptyString
          else a2b_base64 rest quad_pos leftchar (S pads)
        else a2b_base64 rest quad_pos leftchar pads
      else
        match b64_value ch with
        | None => a2b_base64 rest quad_pos leftchar pads
        | Some this_ch =>
            match quad_pos with
            | 0%nat => a2b_base64 rest 1 this_ch 0
            | 1%nat =>
                emit (N.lor (N.shiftl leftchar 2) (N.shiftr this_ch 4))
                     (a2b_base64 rest 2 (N.land this_ch 15) 0)
            | 2%nat =>
                emit (N.lor (N.shiftl leftchar 4) (N.shiftr this_ch 2))
                     (a2b_base64 rest 3 (N.land this_ch 3) 0)
            | _ =>
                emit (N.lor (N.shiftl leftchar 6) this_ch)
                     (a2b_base64 rest 0 0%N 0)
            end
        end
  end.

Definition b64decode (s : string) : option string := a2b_base64 s 0 0%N 0.

(** Well-formed UTF-8: [need] continuation bytes are still expected, the
    next of them within [lo..hi]. *)
Fixpoint utf8_valid (s : string) (need : nat) (lo hi : N) : bool :=
  match s with
  | EmptyString => Nat.eqb need 0
  | String c rest =>
      let b := N_of_ascii c in
      match need with
      | S k => ((lo <=? b) && (b <=? hi))%N && utf8_valid rest k 128%N 191%N
      | O =>
          (if b <=? 127 then utf8_valid rest 0 128 191
           else if (194 <=? b) && (b <=? 223) then utf8_valid rest 1 128 191
           else if b =? 224 then utf8_valid rest 2 160 191
           else if b =? 237 then utf8_valid rest 2 128 159
           else if (225 <=? b) && (b <=? 239) then utf8_valid rest 2 128 191
           else if b =? 240 then utf8_valid rest 3 144 191
           else if b =? 244 then utf8_valid rest 3 128 143
           else if (241 <=? b) && (b <=? 243) then utf8_valid rest 3 128 191
           else false)%N
      end
  end.

(** [b.decode()]: [None] stands for [UnicodeDecodeError]. *)
Definition bytes_decode (b : string) : option string :=
  if utf8_valid b 0 128%N 191%N then Some b else None.

End Py.

Import Py.

(** The functions of Python's library whose results the module only
    passes along. *)
Class PyRuntime : Type := {
  (** [json.loads(s)]; [None] when [s] is not a JSON document. *)
  json_loads : string -> option pyval;
  (** [str(v)], as an f-string formats a value. *)
  py_str : pyval -> string;
  (** [urllib.parse.urlunparse(urllib.parse.urlparse(u))] *)
  urlnorm : string -> string
}.

(* ================================================================= *)
(** ** Exceptions and results *)

Inductive exn : Type :=
| KeyError (key : string)
| TypeError
| AttributeError
| ValueError (msg : string)
| JSONDecodeError
| BinasciiError
| UnicodeDecodeError
| RequestException (what : string).

(** What running a piece of the program gives: a value, an exception, or
    nothing within the given number of loop iterations. *)
Inductive outcome (A : Type) : Type :=
| Returns (a : A)
| Raises (e : exn)
| OutOfFuel.

Arguments Returns {A} a.
Arguments Raises {A} e.
Arguments OutOfFuel {A}.

Definition obind {A B : Type} (o : outcome A) (k : A -> outcome B) : outcome B :=
  match o with
  | Returns a => k a
  | Raises e => Raises e
  | OutOfFuel => OutOfFuel
  end.

Notation "'let?' x := e 'in' k" := (obind e (fun x => k))
  (at level 10, x pattern, e at level 100, k at level 200).

(** [d[k]] *)
Definition getitem {V : Type} (d : dict V) (k : string) : outcome V :=
  match dict_get d k with
  | Some v => Returns v
  | None => Raises (KeyError k)
  end.

(** [for x in xs: acc = body(acc, x)], stopping at the first exception. *)
Fixpoint ofold {A B : Type} (body : B -> A -> outcome B) (xs : list A) (acc : B)
  : outcome B :=
  match xs with
  | [] => Returns acc
  | x :: xs' => let? acc' := body acc x in ofold body xs' acc'
  end.

(* ================================================================= *)
(** ** API objects

    The JSON objects of the RadMachine API that the module reads, with
    the keys it reads.  The fields that hold a result are kept as Python
    values: which of them is meaningful depends on the type of the test. *)

Record Test : Type := {
  t_url : string;
  t_slug : string;
  t_name : string;
  t_type : string;
  t_statistic : pyval
}.

Record UnitTestInfo : Type := {
  uti_url : string;
  uti_test : string
}.

Record TestInstance : Type := {
  ti_unit_test_info : string;
  ti_skipped : pyval;
  ti_value : pyval;
  ti_string_value : pyval;
  ti_date_value : pyval;
  ti_datetime_value : pyval;
  ti_json_value : pyval;
  ti_unit_lookup_value : pyval
}.

Record QASession : Type := {
  s_url : string;
  s_work_completed : pyval;
  s_test_instances : list TestInstance
}.

Record Attachment : Type := {
  att_download : string;
  att_label : string
}.

(** One entry of the ["tests"] mapping of a submission: [{"skipped": True}],
    [{"value": v}] or [{"value": v, "filename": f, "encoding": e}]. *)
Inductive entry : Type :=
| Skipped
| Value (value : pyval)
| Upload (value filename encoding : string).

(** The body of the POST that creates a session. *)
Record PostData : Type := {
  pd_unit_test_collection : string;
  pd_work_started : string;
  pd_comment : string;
  pd_tests : dict entry
}.

(** A page of a list endpoint, or a single object (no ["results"] key). *)
Inductive payload (A : Type) : Type :=
| Single (obj : A)
| Page (results : list A) (next : option string).

Arguments Single {A} obj.
Arguments Page {A} results next.

(** What the module looks at in the response to the POST. *)
Record Response : Type := {
  status_code : Z;
  (** [response.json()]; [None] when the body is not JSON *)
  json_body : option pyval
}.

Inductive request : Type :=
| GET (auth url : string)
| POST (auth url : string) (data : PostData).

(* ================================================================= *)
(** ** Module-level constants and functions *)

Definition CALCULATED_TEST_TYPES : list string := ["composite"; "scomposite"; "rlookup"].

(** [API_SLEEP_TIME_S = 0.4]; the clock counts milliseconds. *)
Definition API_SLEEP_TIME_S : Z := 400.

(** [requests.status_codes.codes.CREATED] *)
Definition CREATED : Z := 201.

Definition object_id_from_url (url : string) : string :=
  last (split "/" (strip "/" url)) EmptyString.

Section Decoding.
Context {rt : PyRuntime}.

Definition get_testinstance_value (test : Test) (test_instance : TestInstance)
  : outcome pyval :=
  if truthy (ti_skipped test_instance) then Returns PNone
  else if String.eqb (t_type test) "simple" && truthy (t_statistic test) then
    match ti_json_value test_instance with
    | PStr s => match json_loads s with
                | Some v => Returns v
                | None => Raises JSONDecodeError
                end
    | _ => Raises TypeError
    end
  else if str_in (t_type test) ["boolean"; "composite"; "constant"; "simple"; "wraparound"] then
    Returns (ti_value test_instance)
  else if str_in (t_type test) ["string"; "scomposite"; "multchoice"; "upload"] then
    Returns (ti_string_value test_instance)
  else if String.eqb (t_type test) "date" then
    Returns (ti_date_value test_instance)
  else if String.eqb (t_type test) "datetime" then
    Returns (ti_datetime_value test_instance)
  else if String.eqb (t_type test) "ulookup" then
    match ti_unit_lookup_value test_instance with
    | PStr url => Returns (PStr (object_id_from_url url))
    | _ => Raises AttributeError
    end
  else if String.eqb (t_type test) "rlookup" then
    match ti_unit_lookup_value test_instance with
    | PStr url => Returns (PStr (object_id_from_url url))
    | _ => Raises AttributeError
    end
  else Returns (ti_json_value test_instance).

End Decoding.

(* ================================================================= *)
(** ** The process and the remote service

    Everything outside the program is a state [E] with the transitions
    below: each [serve_*] is [session.get(url)] or [session.post(url)]
    followed by the reading of the response that the caller makes of it,
    and may raise what the transport or [response.json()] raises. *)

Class Remote (E : Type) : Type := {
  serve_index : request -> E -> outcome (payload pyval) * E;
  serve_sessions : request -> E -> outcome (payload QASession) * E;
  serve_attachment : request -> E -> outcome (payload Attachment) * E;
  (** [session.get(link, stream=True).raw.read()] *)
  serve_download : request -> E -> outcome string * E;
  serve_post : request -> E -> outcome Response * E;
  (** [session.get(url).json()] of a session *)
  serve_session : request -> E -> outcome QASession * E;
  (** how long the request takes, in milliseconds *)
  elapsed : request -> E -> Z;
  (** [datetime.datetime.now().isoformat()] *)
  now_isoformat : E -> string
}.

(** The state of the Python process: the monotonic clock, the module
    global [_next_allowed_api_call_time], the outside world, and the
    requests dispatched so far with the time of their dispatch. *)
Record World (E : Type) : Type := {
  clock : Z;
  _next_allowed_api_call_time : Z;
  remote_state : E;
  log : list (Z * request)
}.

Arguments clock {E} w.
Arguments _next_allowed_api_call_time {E} w.
Arguments remote_state {E} w.
Arguments log {E} w.

Section Process.
Context {E : Type} {remote : Remote E}.

Definition M (A : Type) : Type := World E -> outcome A * World E.

Definition ret {A : Type} (a : A) : M A := fun w => (Returns a, w).

Definition raise {A : Type} (e : exn) : M A := fun w => (Raises e, w).

Definition bind {A B : Type} (m : M A) (k : A -> M B) : M B :=
  fun w =>
    match m w with
    | (Returns a, w') => k a w'
    | (Raises e, w') => (Raises e, w')
    | (OutOfFuel, w') => (OutOfFuel, w')
    end.

Definition lift {A : Type} (o : outcome A) : M A := fun w => (o, w).

(** [time.monotonic()] *)
Definition monotonic : M Z := fun w => (Returns (clock w), w).

(** [time.sleep(d)] returns once [d] has passed. *)
Definition sleep (d : Z) : M unit :=
  fun w =>
    if d <? 0 then (Raises (ValueError "sleep length must be non-negative"), w)
    else (Returns tt,
          {| clock := clock w + d;
             _next_allowed_api_call_time := _next_allowed_api_call_time w;
             remote_state := remote_state w;
             log := log w |}).

Definition get_next_allowed : M Z :=
  fun w => (Returns (_next_allowed_api_call_time w), w).

Definition set_next_allowed (t : Z) : M unit :=
  fun w => (Returns tt,
            {| clock := clock w;
               _next_allowed_api_call_time := t;
               remote_state := remote_state w;
               log := log w |}).

(** Dispatch a request now; the clock moves on by the time it takes. *)
Definition send {A : Type} (serve : request -> E -> outcome A * E) (rq : request) : M A :=
  fun w =>
    let (r, e') := serve rq (remote_state w) in
    (r, {| clock := clock w + Z.max 0 (elapsed rq (remote_state w));
           _next_allowed_api_call_time := _next_allowed_api_call_time w;
           remote_state := e';
           log := (log w ++ [(clock w, rq)])%list |}).

Definition wall_clock_now : M string :=
  fun w => (Returns (now_isoformat (remote_state w)), w).

End Process.

Arguments M : clear implicits.

Notation "x <- m ;; k" := (bind m (fun x => k))
  (at level 61, m at next level, right associativity).
Notation "m ;;; k" := (bind m (fun _ => k))
  (at level 61, right associativity).

Section Fetching.
Context {E : Type} {remote : Remote E}.

(** [for x in xs: acc = body(acc, x)] with effects. *)
Fixpoint mfold {A B : Type} (body : B -> A -> M E B) (xs : list A) (acc : B)   : M E B :=
  match xs with
  | [] => ret acc
  | x :: xs' => acc' <- body acc x ;; mfold body xs' acc'
  end.

(** The [while next_page:] loop of [get_api_objects]; [fuel] bounds the
    number of pages.  [session] is the [RadAuthorization] header that the
    [requests.Session] sends. *)
Fixpoint get_api_objects_loop {A : Type} (serve : request -> E -> outcome (payload A) * E)
    (session : string) (all_pages : bool) (fuel : nat)
    (next_page : option string) (results : list A) : M E (A + list A) :=
  match next_page with
  | None => ret (inr results)
  | Some url =>
      if String.eqb url "" then ret (inr results)
      else
        match fuel with
        | O => lift OutOfFuel
        | S fuel' =>
            now <- monotonic ;;
            deadline <- get_next_allowed ;;
            (if now <? deadline then sleep (deadline - now) else ret tt) ;;;
            set_next_allowed (now + API_SLEEP_TIME_S) ;;;
            payload <- send serve (GET session url) ;;
            match payload with
            | Single obj => ret (inl obj)
            | Page page next =>
                let results := (results ++ page)%list in
                let continue :=
                  all_pages && match next with
                               | Some u => negb (String.eqb u "")
                               | None => false
                               end in
                if negb continue then ret (inr results)
                else sleep 1000 ;;; get_api_objects_loop serve session all_pages fuel' next results
            end
        end
  end.

Definition get_api_objects {A : Type} (serve : request -> E -> outcome (payload A) * E)
    (session : string) (url : string) (all_pages : bool) (fuel : nat) : M E (A + list A) :=
  get_api_objects_loop serve session all_pages fuel (Some url) [].

End Fetching.

(* ================================================================= *)
(** ** class QARepeater *)

Module QARepeater.

(** What [__init__] stores.  [session] is the value of the
    [RadAuthorization] header of [self.session]. *)
Record t : Type := {
  session : string;
  root : string;
  assignment_id : Z
}.

(** The values of the cached properties: each is fetched on first use and
    is the same object from then on, so the methods below read them from
    here.  [assignment_url] is [self.assignment['url']], [tests] is
    [self.tests], and [all_unit_utis] is the list that [unit_test_infos]
    downloads for the unit before filtering it. *)
Record cached : Type := {
  assignment_url : string;
  tests : list Test;
  all_unit_utis : list UnitTestInfo
}.

Definition INVALID_URL : string :=
  "Invalid API URL. You must provide a URL like https://radmachine.radformation.com/customer/api/".

Definition UNABLE_TO_CONTACT : string :=
  "Unable to contact RadMachine. Check your URL and API key are correct.".

Definition table : Type := list (list pyval).

(** [test["type"] in CALCULATED_TEST_TYPES] *)
Definition is_calculated (test : Test) : bool :=
  str_in (t_type test) CALCULATED_TEST_TYPES.

(** [f"{response}"]: [requests.Response.__repr__]. *)
Definition response_repr (response : Response) : string :=
  "<Response [" ++ str_of_int (status_code response) ++ "]>".

(** The attributes that [__init__] assigns before it validates them. *)
Definition attrs (api_key api_url : string) (assignment_id : Z) : t :=
  {| session := "Token " ++ api_key;
     root := strip "/" api_url ++ "/";
     assignment_id := assignment_id |}.

(** [{t["slug"]: t for t in self.tests}] *)
Definition slug_to_test (cache : cached) : dict Test :=
  dict_comp t_slug (fun t => t) (tests cache).

Section Methods.
Context {rt : PyRuntime} {E : Type} {remote : Remote E}.

Definition get_api_objects {A : Type} (self : t)
    (serve : request -> E -> outcome (payload A) * E)
    (path : string) (all_pages : bool) (fuel : nat) : M E (A + list A) :=
  let full_url := urlnorm (root self ++ strip "/" path) in
  get_api_objects serve (session self) full_url all_pages fuel.

Definition __init__ (api_key api_url : string) (assignment_id : Z) (fuel : nat) : M E t :=
  let self := attrs api_key api_url assignment_id in
  if negb (endswith (root self) "/api/") then raise (ValueError INVALID_URL)
  else
    fun w =>
      match get_api_objects self serve_index "" true fuel w with
      | (Returns (inl (PDict kv)), w') =>
          match assoc "qa" kv with
          | Some _ => (Returns self, w')
          | None => (Raises (ValueError UNABLE_TO_CONTACT), w')
          end
      | (Returns _, w') => (Raises (ValueError UNABLE_TO_CONTACT), w')
      | (Raises _, w') => (Raises (ValueError UNABLE_TO_CONTACT), w')
      | (OutOfFuel, w') => (OutOfFuel, w')
      end.

Definition unit_test_infos (cache : cached) : list UnitTestInfo :=
  let test_urls := map t_url (tests cache) in
  filter (fun uti => str_in (uti_test uti) test_urls) (all_unit_utis cache).

Definition previous_sessions (self : t) (num_previous_instances : Z) (fuel : nat)
  : M E (QASession + list QASession) :=
  let url := "qa/testlistinstances/"
             ++ "?ordering=-work_completed"
             ++ "&unit_test_collection=" ++ str_of_int (assignment_id self)
             ++ "&limit=" ++ str_of_int num_previous_instances in
  get_api_objects self serve_sessions url false fuel.

(** The POST of [perform_session]: [data] sent to [tli_url]. *)
Definition submission (self : t) (cache : cached) (tests : dict entry) (work_started : string)
  : request :=
  let data := {| pd_unit_test_collection := assignment_url cache;
                 pd_work_started := work_started;
                 pd_comment := "Consistency check";
                 pd_tests := tests |} in
  let tli_url := root self ++ "qa/testlistinstances/" in
  POST (session self) tli_url data.

Definition perform_session (self : t) (cache : cached) (tests : dict entry) : M E QASession :=
  work_started <- wall_clock_now ;;
  response <- send serve_post (submission self cache tests work_started) ;;
  if negb (status_code response =? CREATED) then
    let message := response_repr response in
    let message := match json_body response with
                   | Some body => message ++ ": " ++ py_str body
                   | None => message
                   end in
    raise (ValueError ("Failed to repeat session: " ++ message))
  else
    match json_body response with
    | None => raise JSONDecodeError
    | Some (PDict kv) =>
        match assoc "url" kv with
        | Some (PStr url) => send serve_session (GET (session self) url)
        | Some _ => raise (RequestException "Invalid URL")
        | None => raise (KeyError "url")
        end
    | Some _ => raise TypeError
    end.

Definition results_from_session (cache : cached) (qa_session : QASession)
  : outcome (dict pyval) :=
  let test_url_to_test := dict_comp t_url (fun t => t) (tests cache) in
  let unit_test_info_to_test := dict_comp uti_url uti_test (unit_test_infos cache) in
  ofold (fun results test_instance =>
           let? test_url := getitem unit_test_info_to_test (ti_unit_test_info test_instance) in
           let? test := getitem test_url_to_test test_url in
           let? value := get_testinstance_value test test_instance in
           Returns (dict_set results (t_slug test) value))
        (s_test_instances qa_session) [].

(** Returns the content and the name of the [io.BytesIO]. *)
Definition fetch_attachment (self : t) (attachment_id : pyval) (fuel : nat)
  : M E (string * string) :=
  r <- get_api_objects self serve_attachment
         ("/attachments/attachments/" ++ py_str attachment_id ++ "/") true fuel ;;
  match r with
  | inl attachment =>
      raw <- send serve_download (GET (session self) (att_download attachment)) ;;
      ret (raw, att_label attachment)
  | inr _ => raise TypeError
  end.

Definition generate_results_table (cache : cached) (previous_session : QASession)
    (previous_results : dict pyval) (new_session : QASession) (new_results : dict pyval)
  : outcome table :=
  let header :=
    [ [PStr "Previous Session Link"; PStr (s_url previous_session)];
      [PStr "Previous Session Date"; s_work_completed previous_session];
      [PStr "New Session Link"; PStr (s_url new_session)];
      [PStr "New Session Date"; s_work_completed new_session];
      [PStr "Test"; PStr "Previous Result"; PStr "New Result"; PStr "Equal"] ] in
  let slug_to_test := slug_to_test cache in
  ofold (fun table '(slug, prev_val) =>
           let? test := getitem slug_to_test slug in
           let new_val := match dict_get new_results slug with
                          | Some v => v
                          | None => PStr ""
                          end in
           Returns (table ++ [[PStr (t_name test); prev_val; new_val;
                               PStr (str_of_bool (py_eq prev_val new_val))]])%list)
        previous_results header.

(** The first loop of the body of [repeat_qa]. *)
Definition previous_calculated (slug_to_test : dict Test) (previous_results : dict pyval)
  : outcome (dict pyval) :=
  ofold (fun acc '(slug, value) =>
           let? test := getitem slug_to_test slug in
           Returns (if is_calculated test then dict_set acc slug value else acc))
        previous_results [].

(** [b64decode(attachment.read()).decode()] *)
Definition reencode (content : string) : outcome string :=
  match b64decode content with
  | None => Raises BinasciiError
  | Some b => match bytes_decode b with
              | None => Raises UnicodeDecodeError
              | Some s => Returns s
              end
  end.

(** The mapping posted as ["tests"], before the historical values are
    filled in. *)
Definition skipped_by_default (cache : cached) : dict entry :=
  dict_comp t_slug (fun _ => Skipped)
            (filter (fun t => negb (is_calculated t)) (tests cache)).

(** The body of the second loop. *)
Definition set_test_value (self : t) (slug_to_test : dict Test) (fuel : nat)
    (test_values_for_perform : dict entry) (item : string * pyval) : M E (dict entry) :=
  let '(slug, value) := item in
  test <- lift (getitem slug_to_test slug) ;;
  if is_calculated test || is_none value then ret test_values_for_perform
  else if String.eqb (t_type test) "upload" then
    let attachment_id := value in
    if truthy attachment_id then
      attachment <- fetch_attachment self attachment_id fuel ;;
      content <- lift (reencode (fst attachment)) ;;
      ret (dict_set test_values_for_perform (t_slug test)
                    (Upload content (snd attachment) "base64"))
    else ret test_values_for_perform
  else ret (dict_set test_values_for_perform (t_slug test) (Value value)).

(** The second loop. *)
Definition test_values (self : t) (cache : cached) (slug_to_test : dict Test)
    (previous_results : dict pyval) (fuel : nat) : M E (dict entry) :=
  mfold (set_test_value self slug_to_test fuel) previous_results (skipped_by_default cache).

(** One iteration of the loop of [repeat_qa]. *)
Definition replay (self : t) (cache : cached) (slug_to_test : dict Test) (fuel : nat)
    (previous_session : QASession) : M E table :=
  previous_results <- lift (results_from_session cache previous_session) ;;
  _ <- lift (previous_calculated slug_to_test previous_results) ;;
  test_values_for_perform <- test_values self cache slug_to_test previous_results fuel ;;
  new_session <- perform_session self cache test_values_for_perform ;;
  new_results <- lift (results_from_session cache new_session) ;;
  lift (generate_results_table cache previous_session previous_results new_session new_results).

(** The loop of [repeat_qa] over the sessions, from the tables so far. *)
Definition replay_each (self : t) (cache : cached) (slug_to_test : dict Test) (fuel : nat)
    (sessions : list QASession) (results : list table) : M E (list table) :=
  mfold (fun results previous_session =>
           tbl <- replay self cache slug_to_test fuel previous_session ;;
           ret (results ++ [tbl])%list)
        sessions results.

Definition repeat_qa (self : t) (cache : cached) (num_sessions : Z) (fuel : nat)
  : M E (list table) :=
  let slug_to_test := slug_to_test cache in
  sessions <- previous_sessions self num_sessions fuel ;;
  match sessions with
  | inr sessions => replay_each self cache slug_to_test fuel sessions []
  | inl _ => raise TypeError
  end.

End Methods.

End QARepeater.

(* ================================================================= *)
(** ** Vocabulary of the statements *)

(** [n] times the character [c]. *)
Fixpoint chars (c : ascii) (n : nat) : string :=
  match n with
  | O => EmptyString
  | S n' => String c (chars c n')
  end.

(** [c not in s] *)
Fixpoint lacks (c : ascii) (s : string) : bool :=
  match s with
  | EmptyString => true
  | String a s' => negb (Ascii.eqb a c) && lacks c s'
  end.

(** The requests of a log that are POSTs, with their bodies. *)
Fixpoint posted (l : list (Z * request)) : list PostData :=
  match l with
  | [] => []
  | (_, POST _ _ data) :: l' => data :: posted l'
  | (_, GET _ _) :: l' => posted l'
  end.

(** The times at which the requests of a log were dispatched. *)
Definition dispatch_times (l : list (Z * request)) : list Z := map fst l.

(** Every two successive elements are at least [d] apart. *)
Fixpoint spaced (d : Z) (ts : list Z) : Prop :=
  match ts with
  | t1 :: ((t2 :: _) as rest) => d <= t2 - t1 /\ spaced d rest
  | _ => True
  end.

(** The session with only the given test instances. *)
Definition with_instances (qa_session : QASession) (instances : list TestInstance)
  : QASession :=
  {| s_url := s_url qa_session;
     s_work_completed := s_work_completed qa_session;
     s_test_instances := instances |}.


(** Every run of [m], whatever its outcome, takes a world to one related
    to it by [R]. *)
Definition run {E : Type} (R : World E -> World E -> Prop) {A : Type} (m : M E A) : Prop :=
  forall w r w', m w = (r, w') -> R w w'.

(** Between [w] and [w'] the only POSTs were of bodies satisfying [Q]. *)
Definition posts_only {E : Type} (Q : PostData -> Prop) (w w' : World E) : Prop :=
  exists new, posted (log w') = (posted (log w) ++ new)%list /\ Forall Q new.

(** The clock does not go back. *)
Definition later {E : Type} (w w' : World E) : Prop := clock w <= clock w'.

(** The cell of the comparison table for the new value of [slug]. *)
Definition new_value (new_results : dict pyval) (slug : string) : pyval :=
  match dict_get new_results slug with
  | Some v => v
  | None => PStr ""
  end.

(** The row of the comparison table for a test. *)
Definition comparison_row (test : Test) (prev_val new_val : pyval) : list pyval :=
  [PStr (t_name test); prev_val; new_val; PStr (str_of_bool (py_eq prev_val new_val))].

(** [tests] is a mapping that the second loop of [repeat_qa] can build
    for [previous_session]. *)
Definition built_for {rt : PyRuntime} {E : Type} {remote : Remote E}
    (self : QARepeater.t) (cache : QARepeater.cached) (fuel : nat)
    (previous_session : QASession) (tests : dict entry) : Prop :=
  exists previous_results (w0 w1 : World E),
    QARepeater.results_from_session cache previous_session = Returns previous_results
    /\ QARepeater.test_values self cache (QARepeater.slug_to_test cache)
                              previous_results fuel w0 = (Returns tests, w1).

(** The world right after [rq] was dispatched from [w] and answered, when
    the service is left in state [e']. *)
Definition dispatched {E : Type} {remote : Remote E} (rq : request) (w : World E) (e' : E)
  : World E :=
  {| clock := clock w + Z.max 0 (elapsed rq (remote_state w));
     _next_allowed_api_call_time := _next_allowed_api_call_time w;
     remote_state := e';
     log := (log w ++ [(clock w, rq)])%list |}.

(** One pass through the body of the loop of [get_api_objects], up to the
    request: the world in which the request is dispatched. *)
Definition throttled {E : Type} (w : World E) : World E :=
  {| clock := Z.max (clock w) (_next_allowed_api_call_time w);
     _next_allowed_api_call_time := clock w + API_SLEEP_TIME_S;
     remote_state := remote_state w;
     log := log w |}.

(** The world right after the POST of [tests] was dispatched from [w] and
    answered, when the service is left in state [e']. *)
Definition after_post {E : Type} {remote : Remote E} (self : QARepeater.t)
    (cache : QARepeater.cached) (tests : dict entry) (w : World E) (e' : E) : World E :=
  dispatched (QARepeater.submission self cache tests (now_isoformat (remote_state w))) w e'.

(* ================================================================= *)
(** ** A small remote service to run the program against *)

Module Demo.

(** [json.loads] on the documents [null], [true], [false] and the
    one-digit numbers, which is all the examples contain. *)
Definition loads (s : string) : option pyval :=
  if String.eqb s "null" then Some PNone
  else if String.eqb s "true" then Some (PBool true)
  else if String.eqb s "false" then Some (PBool false)
  else match s with
       | String c EmptyString =>
           let n := N_of_ascii c in
           if ((48 <=? n) && (n <=? 57))%N then Some (PInt (Z.of_N n - 48)) else None
       | _ => None
       end.

(** [str] on the scalars that have a short spelling. *)
Definition str (v : pyval) : string :=
  match v with
  | PNone => "None"
  | PBool b => str_of_bool b
  | PInt n => str_of_int n
  | PStr s => s
  | PFloat _ => "<float>"
  | PList _ => "<list>"
  | PDict _ => "<dict>"
  end.

#[local] Instance runtime : PyRuntime :=
  {| json_loads := loads; py_str := str; urlnorm := fun u => u |}.

(** A service that answers every request from a fixed script. *)
Record script : Type := {
  d_sessions : list QASession;
  d_attachment : Attachment;
  d_content : string;
  d_response : Response;
  d_created : QASession;
  d_latency : Z
}.

#[local] Instance service : Remote script :=
  {| serve_index := fun _ e => (Returns (Single (PDict [("qa", PStr "qa/")])), e);
     serve_sessions := fun _ e => (Returns (Page (d_sessions e) None), e);
     serve_attachment := fun _ e => (Returns (Single (d_attachment e)), e);
     serve_download := fun _ e => (Returns (d_content e), e);
     serve_post := fun _ e => (Returns (d_response e), e);
     serve_session := fun _ e => (Returns (d_created e), e);
     elapsed := fun _ e => d_latency e;
     now_isoformat := fun _ => "2024-01-08T09:00:00" |}.

Definition start (e : script) : World script :=
  {| clock := 0; _next_allowed_api_call_time := 0; remote_state := e; log := [] |}.

(** The assignment of the worked example: two measured tests and one
    calculated from them. *)
Definition api : string := "https://rm.example/clinic/api/".

Definition test (slug name type : string) : Test :=
  {| t_url := api ++ "qa/tests/" ++ slug ++ "/";
     t_slug := slug;
     t_name := name;
     t_type := type;
     t_statistic := PBool false |}.

Definition temperature : Test := test "temperature" "Temperature" "simple".
Definition pressure : Test := test "pressure" "Pressure" "simple".
Definition ktp : Test := test "ktp" "KTP correction" "composite".
Definition humidity : Test := test "humidity" "Humidity" "simple".
Definition report : Test := test "report" "Report file" "upload".

Definition info (n : string) (t : Test) : UnitTestInfo :=
  {| uti_url := api ++ "qa/unittestinfos/" ++ n ++ "/"; uti_test := t_url t |}.

Definition client : QARepeater.t := QARepeater.attrs "secret" api 123.

Definition cache : QARepeater.cached :=
  {| QARepeater.assignment_url := api ++ "qa/unittestcollections/123/";
     QARepeater.tests := [temperature; pressure; ktp];
     QARepeater.all_unit_utis :=
       [info "1" temperature; info "2" pressure; info "3" ktp; info "4" humidity] |}.

(** A performed instance with a numeric [value]. *)
Definition reading (n : string) (v : pyval) : TestInstance :=
  {| ti_unit_test_info := api ++ "qa/unittestinfos/" ++ n ++ "/";
     ti_skipped := PBool false;
     ti_value := v;
     ti_string_value := PNone;
     ti_date_value := PNone;
     ti_datetime_value := PNone;
     ti_json_value := PNone;
     ti_unit_lookup_value := PNone |}.

(** A performed instance with a [string_value]. *)
Definition text (n : string) (v : pyval) : TestInstance :=
  {| ti_unit_test_info := api ++ "qa/unittestinfos/" ++ n ++ "/";
     ti_skipped := PBool false;
     ti_value := PNone;
     ti_string_value := v;
     ti_date_value := PNone;
     ti_datetime_value := PNone;
     ti_json_value := PNone;
     ti_unit_lookup_value := PNone |}.

(** The same assignment after [humidity] was added to its test list. *)
Definition cache_grown : QARepeater.cached :=
  {| QARepeater.assignment_url := api ++ "qa/unittestcollections/123/";
     QARepeater.tests := [temperature; pressure; ktp; humidity];
     QARepeater.all_unit_utis :=
       [info "1" temperature; info "2" pressure; info "3" ktp; info "4" humidity] |}.

(** temperature = 22, pressure = 750, ktp = 56.8 *)
Definition historical : QASession :=
  {| s_url := api ++ "qa/testlistinstances/40/";
     s_work_completed := PStr "2024-01-01T08:30:00";
     s_test_instances :=
       [reading "1" (PFloat 22); reading "2" (PFloat 750);
        reading "3" (PFloat 0x1.c666666666666p+5)] |}.

(** The same session, recorded when the test list still had [humidity]. *)
Definition stale : QASession :=
  {| s_url := api ++ "qa/testlistinstances/39/";
     s_work_completed := PStr "2023-12-01T08:30:00";
     s_test_instances :=
       [reading "1" (PFloat 22); reading "4" (PFloat 40); reading "2" (PFloat 750)] |}.

Definition created : QASession :=
  {| s_url := api ++ "qa/testlistinstances/41/";
     s_work_completed := PStr "2024-01-08T09:00:01";
     s_test_instances :=
       [reading "1" (PFloat 22); reading "2" (PFloat 750);
        reading "3" (PFloat 0x1.c666666666666p+5)] |}.

Definition created_201 : Response :=
  {| status_code := 201;
     json_body := Some (PDict [("url", PStr (s_url created))]) |}.

Definition refused_400 : Response :=
  {| status_code := 400;
     json_body := Some (PDict [("detail", PStr "bad request")]) |}.

Definition no_attachment : Attachment := {| att_download := ""; att_label := "" |}.

Definition service_ok : script :=
  {| d_sessions := [historical];
     d_attachment := no_attachment;
     d_content := "";
     d_response := created_201;
     d_created := created;
     d_latency := 100 |}.

(** The same service when it refuses the submission. *)
Definition service_refused : script :=
  {| d_sessions := [historical];
     d_attachment := no_attachment;
     d_content := "";
     d_response := refused_400;
     d_created := created;
     d_latency := 100 |}.

(** An assignment with an upload test, whose last session holds the
    attachment [17]: a file [report.txt] with the four bytes [QUJD]. *)
Definition cache_upload : QARepeater.cached :=
  {| QARepeater.assignment_url := api ++ "qa/unittestcollections/123/";
     QARepeater.tests := [temperature; report];
     QARepeater.all_unit_utis := [info "1" temperature; info "5" report] |}.

Definition with_upload : QASession :=
  {| s_url := api ++ "qa/testlistinstances/50/";
     s_work_completed := PStr "2024-01-01T08:30:00";
     s_test_instances := [reading "1" (PFloat 22); text "5" (PStr "17")] |}.

Definition service_upload : script :=
  {| d_sessions := [with_upload];
     d_attachment := {| att_download := api ++ "attachments/attachments/17/download/";
                        att_label := "report.txt" |};
     d_content := "QUJD";
     d_response := created_201;
     d_created := with_upload;
     d_latency := 100 |}.

(** The same attachment holding plain text. *)
Definition service_upload_text : script :=
  {| d_sessions := [with_upload];
     d_attachment := d_attachment service_upload;
     d_content := "Dose report";
     d_response := created_201;
     d_created := with_upload;
     d_latency := 100 |}.


(** Three calls of the fetch helper in a row, as the constructor and the
    cached properties make them. *)
Definition probe (self : QARepeater.t) : M script (pyval + list pyval) :=
  QARepeater.get_api_objects self serve_index "" true 5.

Definition three_calls : M script (pyval + list pyval) :=
  probe client ;;; probe client ;;; probe client.

End Demo.

(* ================================================================= *)
(** ** Further vocabulary *)

(** The test that a test instance was performed for: its unit-test-info,
    looked up among those of the current test list, and the test of that
    link, looked up by its URL. *)
Definition resolve (cache : QARepeater.cached) (test_instance : TestInstance) : option Test :=
  match dict_get (dict_comp uti_url uti_test (QARepeater.unit_test_infos cache))
                 (ti_unit_test_info test_instance) with
  | Some test_url => dict_get (dict_comp t_url (fun t => t) (QARepeater.tests cache)) test_url
  | None => None
  end.

(** The rows that [generate_results_table] puts before those of the
    tests. *)
Definition table_header (previous_session new_session : QASession) : QARepeater.table :=
  [ [PStr "Previous Session Link"; PStr (s_url previous_session)];
    [PStr "Previous Session Date"; s_work_completed previous_session];
    [PStr "New Session Link"; PStr (s_url new_session)];
    [PStr "New Session Date"; s_work_completed new_session];
    [PStr "Test"; PStr "Previous Result"; PStr "New Result"; PStr "Equal"] ].

(** The loop of [repeat_qa] over [sessions], from [w] to [w'], when
    every replay returns: for each session, the mapping decoded from it,
    the mapping built from that and posted, the new session that
    [perform_session] returned for it, the mapping decoded from the new
    session, and the table, which has the header naming the two sessions
    and the row of every decoded slug, in the order of the mapping. *)
Inductive replayed {rt : PyRuntime} {E : Type} {remote : Remote E}
    (self : QARepeater.t) (cache : QARepeater.cached) (fuel : nat)
  : World E -> list QASession -> list QARepeater.table -> World E -> Prop :=
| replayed_none (w : World E) : replayed self cache fuel w [] [] w
| replayed_next (w : World E) (previous_session : QASession) (sessions : list QASession)
    (tbl : QARepeater.table) (tables : list QARepeater.table) (w' : World E)
    (previous_results : dict pyval) (tests : dict entry) (w1 : World E)
    (new_session : QASession) (w2 : World E) (new_results : dict pyval)
    (rows : QARepeater.table) :
    QARepeater.results_from_session cache previous_session = Returns previous_results ->
    QARepeater.test_values self cache (QARepeater.slug_to_test cache) previous_results fuel w
      = (Returns tests, w1) ->
    QARepeater.perform_session self cache tests w1 = (Returns new_session, w2) ->
    QARepeater.results_from_session cache new_session = Returns new_results ->
    tbl = (table_header previous_session new_session ++ rows)%list ->
    Forall2 (fun item row =>
               exists test,
                 dict_get (QARepeater.slug_to_test cache) (fst item) = Some test
                 /\ row = comparison_row test (snd item) (new_value new_results (fst item)))
            previous_results rows ->
    replayed self cache fuel w2 sessions tables w' ->
    replayed self cache fuel w (previous_session :: sessions) (tbl :: tables) w'.


(** The service answers [url] with a page and each [next] link with the
    page after it, until a page without a [next] link: [pages] are the
    results of these pages, and [e'] is the state it is left in. *)
Inductive pages_from {E A : Type} (serve : request -> E -> outcome (payload A) * E)
    (session : string) : E -> string -> list (list A) -> E -> Prop :=
| pages_last (e : E) (url : string) (page : list A) (next : option string) (e' : E) :
    url <> "" ->
    serve (GET session url) e = (Returns (Page page next), e') ->
    next = None \/ next = Some "" ->
    pages_from serve session e url [page] e'
| pages_more (e : E) (url : string) (page : list A) (next : string) (e1 : E)
    (pages : list (list A)) (e' : E) :
    url <> "" ->
    serve (GET session url) e = (Returns (Page page (Some next)), e1) ->
    pages_from serve session e1 next pages e' ->
    pages_from serve session e url (page :: pages) e'.

(* ================================================================= *)
(** ** Decoding on the objects as the API sends them

    [get_testinstance_value] subscripts two JSON objects.  Here they are
    mappings that may lack a key, so that a subscript can raise
    [KeyError]; the records [Test] and [TestInstance] are the objects
    that have every key. *)

Module Raw.

Definition test (t : Test) : dict pyval :=
  [("url", PStr (t_url t)); ("slug", PStr (t_slug t)); ("name", PStr (t_name t));
   ("type", PStr (t_type t)); ("statistic", t_statistic t)].

Definition test_instance (ti : TestInstance) : dict pyval :=
  [("unit_test_info", PStr (ti_unit_test_info ti)); ("skipped", ti_skipped ti);
   ("value", ti_value ti); ("string_value", ti_string_value ti);
   ("date_value", ti_date_value ti); ("datetime_value", ti_datetime_value ti);
   ("json_value", ti_json_value ti); ("unit_lookup_value", ti_unit_lookup_value ti)].

(** [x in l] for a list of [str] literals. *)
Definition among (x : pyval) (l : list string) : bool :=
  existsb (fun s => py_eq x (PStr s)) l.

Section Decoding.
Context {rt : PyRuntime}.

(** [json.loads(x)] *)
Definition loads (x : pyval) : outcome pyval :=
  match x with
  | PStr s => match json_loads s with
              | Some v => Returns v
              | None => Raises JSONDecodeError
              end
  | _ => Raises TypeError
  end.

(** [object_id_from_url(x)]: [x.strip] exists for a [str] only. *)
Definition object_id (x : pyval) : outcome pyval :=
  match x with
  | PStr url => Returns (PStr (object_id_from_url url))
  | _ => Raises AttributeError
  end.

Definition get_testinstance_value (test test_instance : dict pyval) : outcome pyval :=
  let? skipped := getitem test_instance "skipped" in
  if truthy skipped then Returns PNone
  else
    let? type := getitem test "type" in
    let? simple_statistic :=
      (if py_eq type (PStr "simple")
       then let? statistic := getitem test "statistic" in Returns (truthy statistic)
       else Returns false) in
    if simple_statistic then
      let? json_value := getitem test_instance "json_value" in loads json_value
    else if among type ["boolean"; "composite"; "constant"; "simple"; "wraparound"] then
      getitem test_instance "value"
    else if among type ["string"; "scomposite"; "multchoice"; "upload"] then
      getitem test_instance "string_value"
    else if py_eq type (PStr "date") then
      getitem test_instance "date_value"
    else if py_eq type (PStr "datetime") then
      getitem test_instance "datetime_value"
    else if py_eq type (PStr "ulookup") then
      let? unit_lookup_value := getitem test_instance "unit_lookup_value" in
      object_id unit_lookup_value
    else if py_eq type (PStr "rlookup") then
      let? unit_lookup_value := getitem test_instance "unit_lookup_value" in
      object_id unit_lookup_value
    else getitem test_instance "json_value".

End Decoding.

End Raw.

(** ** The cached properties of a client

    [assignment], [test_list], [tests], [unit] and [unit_test_infos] are
    [functools.cached_property]s: the first access runs the method and
    stores what it returns in the instance, later accesses return what is
    stored; nothing is stored for a property whose method raises, and
    what the method stored by reading other properties stays stored.
    The store of one client is a [memo]; a method runs on it and leaves
    it, whatever its outcome. *)

Record Assignment : Type := {
  as_url : string;
  as_tests_object : string;
  as_unit : string
}.

Record TestList : Type := {
  tl_tests : list Test
}.

(** The endpoints that the cached properties read. *)
Class Catalog (E : Type) : Type := {
  serve_assignment : request -> E -> outcome (payload Assignment) * E;
  serve_test_list : request -> E -> outcome (payload TestList) * E;
  serve_unit : request -> E -> outcome (payload pyval) * E;
  serve_unit_test_infos : request -> E -> outcome (payload UnitTestInfo) * E
}.

Module CachedProperty.

(** What [get_api_objects] returned is stored as it is: an object, or a
    list when the answer was a page. *)
Record memo : Type := {
  m_assignment : option (Assignment + list Assignment);
  m_test_list : option (TestList + list TestList);
  m_tests : option (list Test);
  m_unit : option (pyval + list pyval);
  m_unit_test_infos : option (list UnitTestInfo)
}.

(** The store of a client that [__init__] has just built. *)
Definition empty : memo :=
  {| m_assignment := None; m_test_list := None; m_tests := None;
     m_unit := None; m_unit_test_infos := None |}.

Definition store_assignment (m : memo) (v : Assignment + list Assignment) : memo :=
  {| m_assignment := Some v; m_test_list := m_test_list m; m_tests := m_tests m;
     m_unit := m_unit m; m_unit_test_infos := m_unit_test_infos m |}.

Definition store_test_list (m : memo) (v : TestList + list TestList) : memo :=
  {| m_assignment := m_assignment m; m_test_list := Some v; m_tests := m_tests m;
     m_unit := m_unit m; m_unit_test_infos := m_unit_test_infos m |}.

Definition store_tests (m : memo) (v : list Test) : memo :=
  {| m_assignment := m_assignment m; m_test_list := m_test_list m; m_tests := Some v;
     m_unit := m_unit m; m_unit_test_infos := m_unit_test_infos m |}.

Definition store_unit (m : memo) (v : pyval + list pyval) : memo :=
  {| m_assignment := m_assignment m; m_test_list := m_test_list m; m_tests := m_tests m;
     m_unit := Some v; m_unit_test_infos := m_unit_test_infos m |}.

Definition store_unit_test_infos (m : memo) (v : list UnitTestInfo) : memo :=
  {| m_assignment := m_assignment m; m_test_list := m_test_list m; m_tests := m_tests m;
     m_unit := m_unit m; m_unit_test_infos := Some v |}.

(** Every value that [m] holds, [m'] holds too. *)
Definition grows (m m' : memo) : Prop :=
  (forall v, m_assignment m = Some v -> m_assignment m' = Some v)
  /\ (forall v, m_test_list m = Some v -> m_test_list m' = Some v)
  /\ (forall v, m_tests m = Some v -> m_tests m' = Some v)
  /\ (forall v, m_unit m = Some v -> m_unit m' = Some v)
  /\ (forall v, m_unit_test_infos m = Some v -> m_unit_test_infos m' = Some v).

(** [obj[key]] on what [get_api_objects] returned: a list cannot be
    indexed by a string. *)
Definition item {A B : Type} (obj : A + list A) (key : A -> B) : outcome B :=
  match obj with
  | inl o => Returns (key o)
  | inr _ => Raises TypeError
  end.

(** A method of the client that reads cached properties: a computation
    on the store and on the process. *)
Definition P (E A : Type) : Type := memo -> World E -> outcome A * memo * World E.

Definition pure {E A : Type} (a : A) : P E A := fun m w => (Returns a, m, w).

Definition and_then {E A B : Type} (c : P E A) (k : A -> P E B) : P E B :=
  fun m w =>
    match c m w with
    | (Returns a, m', w') => k a m' w'
    | (Raises e, m', w') => (Raises e, m', w')
    | (OutOfFuel, m', w') => (OutOfFuel, m', w')
    end.

(** A computation that does not read the store. *)
Definition call {E A : Type} (c : M E A) : P E A :=
  fun m w => let '(o, w') := c w in (o, m, w').

(** The decorator: the stored value when there is one, otherwise the
    method is run and what it returns is stored. *)
Definition cached_property {E A : Type} (get : memo -> option A)
    (store : memo -> A -> memo) (method : P E A) : P E A :=
  fun m w =>
    match get m with
    | Some v => (Returns v, m, w)
    | None =>
        match method m w with
        | (Returns v, m', w') => (Returns v, store m' v, w')
        | (Raises e, m', w') => (Raises e, m', w')
        | (OutOfFuel, m', w') => (OutOfFuel, m', w')
        end
    end.

(** [c] leaves every stored value in place, whatever its outcome. *)
Definition keeps {E A : Type} (c : P E A) : Prop :=
  forall m w, grows m (snd (fst (c m w))).

(** [c] posts nothing, whatever its outcome. *)
Definition quiet {E A : Type} (c : P E A) : Prop :=
  forall m w, posted (log (snd (c m w))) = posted (log w).

Notation "x <~ c ;; k" := (and_then c (fun x => k))
  (at level 61, c at next level, right associativity).

Section Properties.
Context {rt : PyRuntime} {E : Type} {remote : Remote E} {catalog : Catalog E}.

Definition assignment (self : QARepeater.t) (fuel : nat) : P E (Assignment + list Assignment) :=
  cached_property m_assignment store_assignment
    (call (QARepeater.get_api_objects self serve_assignment
             ("/qa/unittestcollections/" ++ str_of_int (QARepeater.assignment_id self) ++ "/")
             true fuel)).

Definition test_list (self : QARepeater.t) (fuel : nat) : P E (TestList + list TestList) :=
  cached_property m_test_list store_test_list
    (a <~ assignment self fuel ;;
     tests_object <~ call (lift (item a as_tests_object)) ;;
     let test_list_id := object_id_from_url tests_object in
     call (QARepeater.get_api_objects self serve_test_list
             ("/qa/testlists-details/" ++ test_list_id ++ "/") true fuel)).

Definition tests (self : QARepeater.t) (fuel : nat) : P E (list Test) :=
  cached_property m_tests store_tests
    (tl <~ test_list self fuel ;;
     call (lift (item tl tl_tests))).

Definition unit (self : QARepeater.t) (fuel : nat) : P E (pyval + list pyval) :=
  cached_property m_unit store_unit
    (a <~ assignment self fuel ;;
     unit_url <~ call (lift (item a as_unit)) ;;
     let unit_id := object_id_from_url unit_url in
     call (QARepeater.get_api_objects self serve_unit
             ("/units/units/" ++ unit_id ++ "/") true fuel)).

Definition unit_test_infos (self : QARepeater.t) (fuel : nat) : P E (list UnitTestInfo) :=
  cached_property m_unit_test_infos store_unit_test_infos
    (a <~ assignment self fuel ;;
     unit_url <~ call (lift (item a as_unit)) ;;
     let unit_id := object_id_from_url unit_url in
     let unit_uti_url := "/qa/unittestinfos/?unit=" ++ unit_id in
     all_unit_utis <~ call (QARepeater.get_api_objects self serve_unit_test_infos
                              unit_uti_url true fuel) ;;
     ts <~ tests self fuel ;;
     let test_urls := map t_url ts in
     match all_unit_utis with
     | inr all_unit_utis =>
         pure (filter (fun uti => str_in (uti_test uti) test_urls) all_unit_utis)
     | inl _ => call (raise TypeError)
     end).

End Properties.

End CachedProperty.

(* ================================================================= *)
(** ** The methods on a client and its store

    The methods of [QARepeater] that read a cached property, as the
    class has them: every [self.tests], [self.unit_test_infos] and
    [self.assignment] is an access, which fetches on first use.  The
    functions of [QARepeater] above are these methods once the
    properties have been resolved. *)

Module Client.
Import CachedProperty.

Section Methods.
Context {rt : PyRuntime} {E : Type} {remote : Remote E} {catalog : Catalog E}.

(** [for x in xs: acc = body(acc, x)], where the body is a method. *)
Fixpoint pfold {A B : Type} (body : B -> A -> P E B) (xs : list A) (acc : B) : P E B :=
  match xs with
  | [] => pure acc
  | x :: xs' => acc' <~ body acc x ;; pfold body xs' acc'
  end.

Definition perform_session (self : QARepeater.t) (fuel : nat) (tests : dict entry)
  : P E QASession :=
  assignment <~ assignment self fuel ;;
  unit_test_collection <~ call (lift (item assignment as_url)) ;;
  call (work_started <- wall_clock_now ;;
        let data := {| pd_unit_test_collection := unit_test_collection;
                       pd_work_started := work_started;
                       pd_comment := "Consistency check";
                       pd_tests := tests |} in
        let tli_url := QARepeater.root self ++ "qa/testlistinstances/" in
        response <- send serve_post (POST (QARepeater.session self) tli_url data) ;;
        if negb (status_code response =? CREATED) then
          let message := QARepeater.response_repr response in
          let message := match json_body response with
                         | Some body => message ++ ": " ++ py_str body
                         | None => message
                         end in
          raise (ValueError ("Failed to repeat session: " ++ message))
        else
          match json_body response with
          | None => raise JSONDecodeError
          | Some (PDict kv) =>
              match assoc "url" kv with
              | Some (PStr url) => send serve_session (GET (QARepeater.session self) url)
              | Some _ => raise (RequestException "Invalid URL")
              | None => raise (KeyError "url")
              end
          | Some _ => raise TypeError
          end).

Definition results_from_session (self : QARepeater.t) (fuel : nat) (qa_session : QASession)
  : P E (dict pyval) :=
  tests <~ tests self fuel ;;
  let test_url_to_test := dict_comp t_url (fun t => t) tests in
  unit_test_infos <~ unit_test_infos self fuel ;;
  let unit_test_info_to_test := dict_comp uti_url uti_test unit_test_infos in
  call (lift
    (ofold (fun results test_instance =>
              let? test_url := getitem unit_test_info_to_test
                                       (ti_unit_test_info test_instance) in
              let? test := getitem test_url_to_test test_url in
              let? value := get_testinstance_value test test_instance in
              Returns (dict_set results (t_slug test) value))
           (s_test_instances qa_session) [])).

Definition generate_results_table (self : QARepeater.t) (fuel : nat)
    (previous_session : QASession) (previous_results : dict pyval)
    (new_session : QASession) (new_results : dict pyval) : P E QARepeater.table :=
  let table :=
    [ [PStr "Previous Session Link"; PStr (s_url previous_session)];
      [PStr "Previous Session Date"; s_work_completed previous_session];
      [PStr "New Session Link"; PStr (s_url new_session)];
      [PStr "New Session Date"; s_work_completed new_session];
      [PStr "Test"; PStr "Previous Result"; PStr "New Result"; PStr "Equal"] ] in
  tests <~ tests self fuel ;;
  let slug_to_test := dict_comp t_slug (fun t => t) tests in
  call (lift
    (ofold (fun table '(slug, prev_val) =>
              let? test := getitem slug_to_test slug in
              let new_val := match dict_get new_results slug with
                             | Some v => v
                             | None => PStr ""
                             end in
              Returns (table ++ [[PStr (t_name test); prev_val; new_val;
                                  PStr (str_of_bool (py_eq prev_val new_val))]])%list)
           previous_results table)).

(** One iteration of the loop of [repeat_qa]. *)
Definition replay (self : QARepeater.t) (slug_to_test : dict Test) (fuel : nat)
    (previous_session : QASession) : P E QARepeater.table :=
  previous_results <~ results_from_session self fuel previous_session ;;
  _ <~ call (lift (QARepeater.previous_calculated slug_to_test previous_results)) ;;
  tests <~ tests self fuel ;;
  let test_values_for_perform :=
    dict_comp t_slug (fun _ => Skipped)
              (filter (fun t => negb (QARepeater.is_calculated t)) tests) in
  test_values_for_perform <~
    call (mfold (QARepeater.set_test_value self slug_to_test fuel)
                previous_results test_values_for_perform) ;;
  new_session <~ perform_session self fuel test_values_for_perform ;;
  new_results <~ results_from_session self fuel new_session ;;
  generate_results_table self fuel previous_session previous_results new_session new_results.

Definition repeat_qa (self : QARepeater.t) (num_sessions : Z) (fuel : nat)
  : P E (list QARepeater.table) :=
  tests <~ tests self fuel ;;
  let slug_to_test := dict_comp t_slug (fun t => t) tests in
  sessions <~ call (QARepeater.previous_sessions self num_sessions fuel) ;;
  match sessions with
  | inr sessions =>
      pfold (fun results previous_session =>
               tbl <~ replay self slug_to_test fuel previous_session ;;
               pure (results ++ [tbl])%list)
            sessions []
  | inl _ => call (raise TypeError)
  end.

End Methods.

(** The store holds the values that [cache] has: the methods of the
    client then behave as the functions of [QARepeater] on [cache]. *)
Definition resolved (m : memo) (cache : QARepeater.cached) : Prop :=
  (exists a, m_assignment m = Some (inl a) /\ as_url a = QARepeater.assignment_url cache)
  /\ m_tests m = Some (QARepeater.tests cache)
  /\ m_unit_test_infos m = Some (QARepeater.unit_test_infos cache).

End Client.

(* ================================================================= *)
(** ** More of the small service *)

Module DemoCatalog.

Definition the_assignment : Assignment :=
  {| as_url := Demo.api ++ "qa/unittestcollections/123/";
     as_tests_object := Demo.api ++ "qa/testlists/9/";
     as_unit := Demo.api ++ "units/units/4/" |}.

#[local] Instance catalog : Catalog Demo.script :=
  {| serve_assignment := fun _ e => (Returns (Single the_assignment), e);
     serve_test_list :=
       fun _ e => (Returns (Single {| tl_tests := QARepeater.tests Demo.cache |}), e);
     serve_unit := fun _ e => (Returns (Single (PDict [("name", PStr "TrueBeam 1")])), e);
     serve_unit_test_infos :=
       fun _ e => (Returns (Page (QARepeater.all_unit_utis Demo.cache) None), e) |}.

(** A list endpoint with three results on two pages. *)
Definition two_pages (rq : request) (e : Demo.script)
  : outcome (payload string) * Demo.script :=
  match rq with
  | GET _ url =>
      if String.eqb url "https://rm.example/clinic/api/units/units"
      then (Returns (Page ["TrueBeam 1"; "TrueBeam 2"]
                          (Some "https://rm.example/clinic/api/units/units/?page=2")), e)
      else (Returns (Page ["Halcyon"] None), e)
  | POST _ _ _ => (Raises (RequestException "405"), e)
  end.

(** A session in which [temperature] was recorded twice. *)
Definition repeated : QASession :=
  {| s_url := Demo.api ++ "qa/testlistinstances/38/";
     s_work_completed := PStr "2023-11-01T08:30:00";
     s_test_instances :=
       [Demo.reading "1" (PFloat 21); Demo.reading "2" (PFloat 750);
        Demo.reading "1" (PFloat 22)] |}.

(** The store of a client that has resolved its properties against
    [catalog], but for the unit. *)
Definition store : CachedProperty.memo :=
  {| CachedProperty.m_assignment := Some (inl the_assignment);
     CachedProperty.m_test_list := Some (inl {| tl_tests := QARepeater.tests Demo.cache |});
     CachedProperty.m_tests := Some (QARepeater.tests Demo.cache);
     CachedProperty.m_unit := None;
     CachedProperty.m_unit_test_infos := Some (QARepeater.unit_test_infos Demo.cache) |}.

(** A catalog whose test list cannot be fetched. *)
Definition broken : Catalog Demo.script :=
  {| serve_assignment := fun _ e => (Returns (Single the_assignment), e);
     serve_test_list := fun _ e => (Raises (RequestException "503"), e);
     serve_unit := fun _ e => (Returns (Single (PDict [("name", PStr "TrueBeam 1")])), e);
     serve_unit_test_infos :=
       fun _ e => (Returns (Page (QARepeater.all_unit_utis Demo.cache) None), e) |}.

End DemoCatalog.

(** The value that an outcome returned, or [d]. *)
Definition returned {A : Type} (d : A) (o : outcome A) : A :=
  match o with
  | Returns a => a
  | _ => d
  end.

(* ================================================================= *)
(** * Properties *)

(** ** Strings *)

Section StringFacts.

Lemma append_nil_right (s : string) : s ++ "" = s.
Proof. induction s as [|a s IH]; simpl; [reflexivity | now rewrite IH]. Qed.

Lemma append_assoc3 (s t u : string) : (s ++ t) ++ u = s ++ (t ++ u).
Proof. induction s as [|a s IH]; simpl; [reflexivity | now rewrite IH]. Qed.

Lemma append_length (s t : string) :
  String.length (s ++ t) = (String.length s + String.length t)%nat.
Proof. induction s as [|a s IH]; simpl; [reflexivity | now rewrite IH]. Qed.

Lemma append_cancel_right (s t u : string) : s ++ u = t ++ u -> s = t.
Proof.
  revert t. induction s as [|a s IH]; intros [|b t] H; simpl in H.
  - reflexivity.
  - apply (f_equal String.length) in H. simpl in H. rewrite append_length in H. lia.
  - apply (f_equal String.length) in H. simpl in H. rewrite append_length in H. lia.
  - injection H as -> H. f_equal. now apply IH.
Qed.

Lemma endswith_unfold (s suffix : string) :
  endswith s suffix =
  if String.eqb s suffix then true
  else match s with
       | EmptyString => false
       | String _ s' => endswith s' suffix
       end.
Proof. destruct s; reflexivity. Qed.

Lemma endswith_spec (s suffix : string) :
  endswith s suffix = true <-> exists p, s = p ++ suffix.
Proof.
  induction s as [|a s IH]; rewrite endswith_unfold.
  - destruct (String.eqb_spec "" suffix) as [<-|Hne].
    + split; [exists ""; reflexivity | reflexivity].
    + split; [intros H; discriminate H |].
      intros [p Hp]. destruct p; simpl in Hp; [congruence | discriminate].
  - destruct (String.eqb_spec (String a s) suffix) as [<-|Hne].
    + split; [exists ""; reflexivity | reflexivity].
    + rewrite IH. split.
      * intros [p ->]. exists (String a p). reflexivity.
      * intros [p Hp]. destruct p as [|b p]; simpl in Hp; [congruence |].
        injection Hp as _ ->. now exists p.
Qed.

Lemma endswith_append (s t u : string) :
  endswith (s ++ u) (t ++ u) = endswith s t.
Proof.
  apply eq_true_iff_eq. rewrite !endswith_spec. split.
  - intros [p Hp]. exists p. rewrite <- append_assoc3 in Hp.
    now apply append_cancel_right in Hp.
  - intros [p ->]. exists p. apply append_assoc3.
Qed.

Lemma rstrip_no_trailing (c : ascii) (s p : string) :
  rstrip c s <> p ++ String c "".
Proof.
  revert p. induction s as [|a s IH]; intros p; simpl.
  - destruct p; discriminate.
  - destruct (rstrip c s) as [|b r] eqn:Hr.
    + destruct (Ascii.eqb_spec a c) as [->|Hne].
      * destruct p; discriminate.
      * destruct p as [|x [|y p]]; simpl; try discriminate; congruence.
    + destruct p as [|x p]; simpl; [congruence |].
      intros H. injection H as _ H. exact (IH p H).
Qed.

Lemma rstrip_snoc (c : ascii) (s : string) :
  rstrip c (s ++ String c "") = rstrip c s.
Proof.
  induction s as [|a s IH]; simpl.
  - now rewrite Ascii.eqb_refl.
  - now rewrite IH.
Qed.

Lemma lstrip_snoc (c : ascii) (s : string) :
  lstrip c (s ++ String c "") =
  match lstrip c s with
  | EmptyString => EmptyString
  | r => r ++ String c ""
  end.
Proof.
  induction s as [|a s IH]; simpl.
  - now rewrite Ascii.eqb_refl.
  - destruct (Ascii.eqb a c); [exact IH | reflexivity].
Qed.

Lemma strip_snoc (c : ascii) (s : string) :
  strip c (s ++ String c "") = strip c s.
Proof.
  unfold strip. rewrite lstrip_snoc.
  destruct (lstrip c s) as [|b r] eqn:Hl; [reflexivity |].
  apply rstrip_snoc.
Qed.

Lemma chars_snoc (c : ascii) (n : nat) :
  chars c (S n) = chars c n ++ String c "".
Proof. induction n as [|n IH]; [reflexivity |]. simpl in *. now rewrite <- IH. Qed.

Lemma strip_chars (c : ascii) (s : string) (n : nat) :
  strip c (s ++ chars c n) = strip c s.
Proof.
  induction n as [|n IH].
  - simpl. now rewrite append_nil_right.
  - rewrite chars_snoc, <- append_assoc3, strip_snoc. exact IH.
Qed.

End StringFacts.

(** ** The constructor *)

Section Constructor.
Context {rt : PyRuntime} {E : Type} {remote : Remote E}.

Lemma init_invalid_iff (api_key api_url : string) (assignment_id : Z) (fuel : nat)
    (w : World E) :
  fst (QARepeater.__init__ api_key api_url assignment_id fuel w)
    = Raises (ValueError QARepeater.INVALID_URL)
  <-> endswith (strip "/" api_url) "/api" = false.
Proof.
  unfold QARepeater.__init__. cbn [QARepeater.attrs QARepeater.root].
  change "/api/" with ("/api" ++ "/"). rewrite endswith_append.
  destruct (endswith (strip "/" api_url) "/api"); simpl.
  - split; [| discriminate].
    destruct (QARepeater.get_api_objects _ _ _ _ _ w) as [[[obj|l]|e|] w']; simpl;
      try discriminate.
    destruct obj; simpl; try discriminate.
    destruct (assoc "qa" kv); simpl; discriminate.
  - split; reflexivity.
Qed.

(** C10. The shape check of the constructor does not depend on slashes
    around the URL: [QARepeater(api_key, api_url, assignment_id)] raises
    the invalid-URL error exactly when [api_url], stripped of its leading
    and trailing slashes, does not end with [/api]; appending any number
    of slashes to the URL changes neither the verdict nor the stored
    root; and the stored root is the stripped URL followed by one slash,
    so it ends with exactly one. *)
Theorem C10_root_shape_ignores_slashes (api_key api_url : string) (assignment_id : Z)
    (fuel : nat) (w : World E) :
  let stored := QARepeater.root (QARepeater.attrs api_key api_url assignment_id) in
  (fst (QARepeater.__init__ api_key api_url assignment_id fuel w)
     <> Raises (ValueError QARepeater.INVALID_URL)
   <-> endswith (strip "/" api_url) "/api" = true)
  /\ (forall n : nat,
        (fst (QARepeater.__init__ api_key (api_url ++ chars "/" n) assignment_id fuel w)
           = Raises (ValueError QARepeater.INVALID_URL)
         <-> fst (QARepeater.__init__ api_key api_url assignment_id fuel w)
           = Raises (ValueError QARepeater.INVALID_URL))
        /\ QARepeater.root (QARepeater.attrs api_key (api_url ++ chars "/" n) assignment_id)
           = stored)
  /\ stored = strip "/" api_url ++ "/"
  /\ endswith stored "/" = true
  /\ endswith stored "//" = false.
Proof.
  cbn zeta. cbn [QARepeater.attrs QARepeater.root]. repeat split.
  - intros H. destruct (endswith (strip "/" api_url) "/api") eqn:Hs; [reflexivity |].
    exfalso. apply H. now apply init_invalid_iff.
  - intros Hs H. apply init_invalid_iff in H. congruence.
  - rewrite !init_invalid_iff, strip_chars. trivial.
  - rewrite !init_invalid_iff, strip_chars. trivial.
  - now rewrite strip_chars.
  - apply endswith_spec. now exists (strip "/" api_url).
  - destruct (endswith (strip "/" api_url ++ "/") "//") eqn:Hs; [| reflexivity].
    apply endswith_spec in Hs. destruct Hs as [p Hp].
    change "//" with ("/" ++ "/") in Hp. rewrite <- append_assoc3 in Hp.
    apply append_cancel_right in Hp. unfold strip in Hp.
    now apply rstrip_no_trailing in Hp.
Qed.

End Constructor.

(** ** Object ids and value decoding *)

Section ObjectId.
Variable c : ascii.

Lemma split_lacks (id : string) : lacks c id = true -> split c id = [id].
Proof.
  induction id as [|a id IH]; simpl; [reflexivity |].
  intros H. apply andb_prop in H. destruct H as [Ha Hid].
  apply negb_true_iff in Ha. rewrite Ha, (IH Hid). reflexivity.
Qed.

Lemma split_last_segment (p id : string) :
  lacks c id = true ->
  exists h t, split c (p ++ String c id) = h :: t /\ t <> [] /\ last t "" = id.
Proof.
  intros Hid. induction p as [|a p IH]; simpl.
  - rewrite Ascii.eqb_refl, (split_lacks id Hid).
    exists "", [id]. repeat split. discriminate.
  - destruct IH as (h & t & Heq & Hne & Hlast). rewrite Heq.
    destruct (Ascii.eqb a c).
    + exists "", (h :: t). repeat split; [discriminate |].
      destruct t; [congruence | exact Hlast].
    + exists (String a h), t. repeat split; assumption.
Qed.

Lemma lstrip_lacks (id : string) : lacks c id = true -> lstrip c id = id.
Proof.
  destruct id as [|a id]; simpl; [reflexivity |].
  intros H. apply andb_prop in H. destruct H as [Ha _].
  apply negb_true_iff in Ha. now rewrite Ha.
Qed.

Lemma lstrip_before_segment (base id : string) :
  lacks c id = true ->
  lstrip c (base ++ String c id) = id
  \/ exists r, lstrip c (base ++ String c id) = r ++ String c id.
Proof.
  intros Hid. induction base as [|a base IH]; simpl.
  - rewrite Ascii.eqb_refl. left. now apply lstrip_lacks.
  - destruct (Ascii.eqb a c); [exact IH |].
    right. now exists (String a base).
Qed.

Lemma rstrip_lacks (id : string) :
  id <> "" -> lacks c id = true -> rstrip c id = id.
Proof.
  induction id as [|a id IH]; [congruence |]. intros _ H. simpl in *.
  apply andb_prop in H. destruct H as [Ha Hid]. apply negb_true_iff in Ha.
  destruct id as [|b id].
  - simpl. now rewrite Ha.
  - rewrite IH; [reflexivity | discriminate | exact Hid].
Qed.

Lemma rstrip_append_lacks (r id : string) :
  id <> "" -> lacks c id = true -> rstrip c (r ++ id) = r ++ id.
Proof.
  intros Hne Hid. induction r as [|a r IH]; simpl.
  - now apply rstrip_lacks.
  - rewrite IH. destruct (r ++ id) eqn:Happ; [| reflexivity].
    destruct r; simpl in Happ; [congruence | discriminate].
Qed.

End ObjectId.

Lemma object_id_from_url_trailing (base id : string) :
  id <> "" -> lacks "/" id = true ->
  object_id_from_url (base ++ "/" ++ id ++ "/") = id.
Proof.
  intros Hne Hid. unfold object_id_from_url.
  replace (base ++ "/" ++ id ++ "/") with ((base ++ String "/" id) ++ "/")
    by (rewrite append_assoc3; reflexivity).
  rewrite strip_snoc. unfold strip.
  destruct (lstrip_before_segment "/" base id Hid) as [-> | [r ->]].
  - rewrite rstrip_lacks by assumption. now rewrite split_lacks.
  - replace (r ++ String "/" id) with ((r ++ "/") ++ id)
      by (rewrite append_assoc3; reflexivity).
    rewrite rstrip_append_lacks by assumption.
    rewrite append_assoc3. simpl.
    destruct (split_last_segment "/" r id Hid) as (h & t & -> & Ht & Hlast).
    destruct t; [congruence | exact Hlast].
Qed.

Lemma str_in_iff (x : string) (xs : list string) : str_in x xs = true <-> In x xs.
Proof.
  unfold str_in. rewrite existsb_exists. split.
  - intros [y [Hy Heq]]. apply String.eqb_eq in Heq. now subst.
  - intros H. exists x. split; [exact H | apply String.eqb_refl].
Qed.

Lemma str_in_false (x : string) (xs : list string) : str_in x xs = false <-> ~ In x xs.
Proof.
  rewrite <- str_in_iff. destruct (str_in x xs); split; congruence.
Qed.

Section ValueDecoding.
Context {rt : PyRuntime}.

(** C5. Decoding is a function of the test and the test instance alone.
    A skipped instance decodes to [None] whatever the type of the test.
    Otherwise the type decides: [simple] with a true [statistic] gives
    [json_value] parsed as JSON; [boolean], [composite], [constant],
    [wraparound] and [simple] without [statistic] give [value]; [string],
    [scomposite], [multchoice] and [upload] give [string_value]; [date]
    gives [date_value]; [datetime] gives [datetime_value]; [ulookup] and
    [rlookup] give the object id of [unit_lookup_value], which is the
    last segment of the URL, as in [.../units/7/]; every other type gives
    [json_value] as it is, without an error. *)
Theorem C5_value_decoding_dispatch (test : Test) (test_instance : TestInstance) :
  let decoded := get_testinstance_value test test_instance in
  let type := t_type test in
  (truthy (ti_skipped test_instance) = true -> decoded = Returns PNone)
  /\ (truthy (ti_skipped test_instance) = false ->
      (type = "simple" /\ truthy (t_statistic test) = true ->
         decoded = match ti_json_value test_instance with
                   | PStr s => match json_loads s with
                               | Some v => Returns v
                               | None => Raises JSONDecodeError
                               end
                   | _ => Raises TypeError
                   end)
      /\ (In type ["boolean"; "composite"; "constant"; "wraparound"]
          \/ (type = "simple" /\ truthy (t_statistic test) = false) ->
          decoded = Returns (ti_value test_instance))
      /\ (In type ["string"; "scomposite"; "multchoice"; "upload"] ->
          decoded = Returns (ti_string_value test_instance))
      /\ (type = "date" -> decoded = Returns (ti_date_value test_instance))
      /\ (type = "datetime" -> decoded = Returns (ti_datetime_value test_instance))
      /\ (type = "ulookup" \/ type = "rlookup" ->
          decoded = match ti_unit_lookup_value test_instance with
                    | PStr url => Returns (PStr (object_id_from_url url))
                    | _ => Raises AttributeError
                    end)
      /\ (~ In type ["simple"; "boolean"; "composite"; "constant"; "wraparound";
                     "string"; "scomposite"; "multchoice"; "upload";
                     "date"; "datetime"; "ulookup"; "rlookup"] ->
          decoded = Returns (ti_json_value test_instance)))
  /\ (forall base id : string,
        id <> "" -> lacks "/" id = true ->
        object_id_from_url (base ++ "/" ++ id ++ "/") = id).
Proof.
  cbn zeta. unfold get_testinstance_value. split; [| split].
  - intros ->. reflexivity.
  - intros ->. repeat split.
    + intros [-> ->]. reflexivity.
    + intros [Hin | [-> ->]]; [| reflexivity].
      simpl in Hin.
      destruct Hin as [<- | [<- | [<- | [<- | []]]]]; reflexivity.
    + intros Hin. simpl in Hin.
      destruct Hin as [<- | [<- | [<- | [<- | []]]]]; reflexivity.
    + intros ->. reflexivity.
    + intros ->. reflexivity.
    + intros [-> | ->]; reflexivity.
    + intros Hnot.
      assert (Hne : forall k, In k ["simple"; "boolean"; "composite"; "constant";
                                    "wraparound"; "string"; "scomposite"; "multchoice";
                                    "upload"; "date"; "datetime"; "ulookup"; "rlookup"] ->
                              String.eqb (t_type test) k = false).
      { intros k Hk. apply String.eqb_neq. intros Heq. apply Hnot. now rewrite Heq. }
      unfold str_in, existsb.
      rewrite !Hne by (simpl; tauto). reflexivity.
  - apply object_id_from_url_trailing.
Qed.

End ValueDecoding.

(** ** Dictionaries *)

Section DictFacts.
Context {V : Type}.
Implicit Types (d : dict V) (k : string) (v : V).

Lemma dict_get_set_eq d k v : dict_get (dict_set d k v) k = Some v.
Proof.
  unfold dict_get. induction d as [|[k' v'] d IH]; simpl.
  - now rewrite String.eqb_refl.
  - destruct (String.eqb k' k) eqn:Hk; simpl; rewrite Hk; [reflexivity | exact IH].
Qed.

Lemma dict_get_set_ne d k k' v : k <> k' -> dict_get (dict_set d k v) k' = dict_get d k'.
Proof.
  intros Hne. unfold dict_get. induction d as [|[k0 v0] d IH]; simpl.
  - apply String.eqb_neq in Hne. now rewrite Hne.
  - destruct (String.eqb_spec k0 k) as [->|Hk]; simpl.
    + apply String.eqb_neq in Hne. now rewrite Hne.
    + now rewrite IH.
Qed.

Lemma dict_keys_set d k v k' :
  In k' (dict_keys (dict_set d k v)) <-> k' = k \/ In k' (dict_keys d).
Proof.
  unfold dict_keys. induction d as [|[k0 v0] d IH]; simpl.
  - intuition.
  - destruct (String.eqb_spec k0 k) as [->|Hk]; simpl.
    + intuition.
    + rewrite IH. intuition.
Qed.

Lemma dict_keys_set_nodup d k v :
  NoDup (dict_keys d) -> NoDup (dict_keys (dict_set d k v)).
Proof.
  unfold dict_keys. induction d as [|[k0 v0] d IH]; simpl; intros Hnd.
  - constructor; [intros [] | constructor].
  - destruct (String.eqb_spec k0 k) as [->|Hk]; simpl; [exact Hnd |].
    inversion Hnd as [|? ? Hnotin Hnd']; subst. constructor; [| now apply IH].
    intros Hin. apply (dict_keys_set d k v k0) in Hin. destruct Hin; [congruence | tauto].
Qed.

Lemma dict_get_in d k v : dict_get d k = Some v -> In (k, v) d.
Proof.
  unfold dict_get. induction d as [|[k0 v0] d IH]; simpl; [discriminate |].
  destruct (String.eqb_spec k0 k) as [->|Hk].
  - intros [= ->]. now left.
  - intros H. right. now apply IH.
Qed.

Lemma dict_get_none d k : dict_get d k = None <-> ~ In k (dict_keys d).
Proof.
  unfold dict_get, dict_keys. induction d as [|[k0 v0] d IH]; simpl.
  - intuition.
  - destruct (String.eqb_spec k0 k) as [->|Hk].
    + split; [discriminate | intuition].
    + rewrite IH. intuition.
Qed.

Lemma dict_in_keys d k v : In (k, v) d -> In k (dict_keys d).
Proof. intros H. unfold dict_keys. now apply (in_map fst) in H. Qed.

Lemma dict_in_get d k v : NoDup (dict_keys d) -> In (k, v) d -> dict_get d k = Some v.
Proof.
  unfold dict_get, dict_keys. induction d as [|[k0 v0] d IH]; simpl; [intros _ [] |].
  intros Hnd [Heq | Hin].
  - injection Heq as -> ->. now rewrite String.eqb_refl.
  - inversion Hnd as [|? ? Hnotin Hnd']; subst.
    destruct (String.eqb_spec k0 k) as [->|Hk].
    + exfalso. apply Hnotin. now apply (in_map fst) in Hin.
    + now apply IH.
Qed.

End DictFacts.

Section DictComprehension.
Context {A V : Type} (key : A -> string) (val : A -> V).

Lemma dict_comp_fold_get (xs : list A) (d : dict V) (k : string) (v : V) :
  dict_get (fold_left (fun d x => dict_set d (key x) (val x)) xs d) k = Some v ->
  dict_get d k = Some v \/ exists x, In x xs /\ key x = k /\ val x = v.
Proof.
  revert d. induction xs as [|x xs IH]; simpl; intros d H; [now left |].
  apply IH in H. destruct H as [H | (y & Hy & Hk & Hv)].
  - destruct (String.eqb_spec (key x) k) as [Hk|Hk].
    + subst k. rewrite dict_get_set_eq in H. injection H as <-.
      right. exists x. auto.
    + rewrite dict_get_set_ne in H by assumption. now left.
  - right. exists y. auto.
Qed.

Lemma dict_comp_get (xs : list A) (k : string) (v : V) :
  dict_get (dict_comp key val xs) k = Some v ->
  exists x, In x xs /\ key x = k /\ val x = v.
Proof.
  intros H. apply dict_comp_fold_get in H. destruct H as [H | H]; [discriminate | exact H].
Qed.

Lemma dict_comp_fold_keys (xs : list A) (d : dict V) (k : string) :
  In k (dict_keys (fold_left (fun d x => dict_set d (key x) (val x)) xs d))
  <-> In k (dict_keys d) \/ In k (map key xs).
Proof.
  revert d. induction xs as [|x xs IH]; simpl; intros d; [intuition |].
  rewrite IH, dict_keys_set. intuition.
Qed.

Lemma dict_comp_keys (xs : list A) (k : string) :
  In k (dict_keys (dict_comp key val xs)) <-> In k (map key xs).
Proof. unfold dict_comp. rewrite dict_comp_fold_keys. simpl. intuition. Qed.

Lemma dict_comp_fold_nodup (xs : list A) (d : dict V) :
  NoDup (dict_keys d) ->
  NoDup (dict_keys (fold_left (fun d x => dict_set d (key x) (val x)) xs d)).
Proof.
  revert d. induction xs as [|x xs IH]; simpl; intros d H; [exact H |].
  apply IH. now apply dict_keys_set_nodup.
Qed.

Lemma dict_comp_fold_get_fresh (xs : list A) (d : dict V) (k : string) :
  ~ In k (map key xs) ->
  dict_get (fold_left (fun d x => dict_set d (key x) (val x)) xs d) k = dict_get d k.
Proof.
  revert d. induction xs as [|x xs IH]; simpl; intros d Hk; [reflexivity |].
  rewrite IH by tauto. apply dict_get_set_ne. tauto.
Qed.

(** When the keys are distinct, every element is found under its key. *)
Lemma dict_comp_get_in (xs : list A) (x : A) :
  NoDup (map key xs) -> In x xs -> dict_get (dict_comp key val xs) (key x) = Some (val x).
Proof.
  unfold dict_comp. generalize (@nil (string * V)).
  induction xs as [|y xs IH]; simpl; intros d Hnd Hin; [contradiction |].
  inversion Hnd as [|? ? Hnotin Hnd']; subst.
  destruct Hin as [-> | Hin].
  - rewrite dict_comp_fold_get_fresh by assumption. apply dict_get_set_eq.
  - now apply IH.
Qed.

End DictComprehension.

(** ** Loops that stop at the first exception *)

Section OFold.
Context {A B : Type} (body : B -> A -> outcome B).

Lemma ofold_app (xs ys : list A) (acc : B) :
  ofold body (xs ++ ys)%list acc = (let? acc' := ofold body xs acc in ofold body ys acc').
Proof.
  revert acc. induction xs as [|x xs IH]; simpl; intros acc; [reflexivity |].
  destruct (body acc x); simpl; [apply IH | reflexivity | reflexivity].
Qed.

Lemma ofold_invariant (I : B -> Prop) (xs : list A) (acc r : B) :
  I acc ->
  (forall acc x acc', In x xs -> I acc -> body acc x = Returns acc' -> I acc') ->
  ofold body xs acc = Returns r -> I r.
Proof.
  revert acc. induction xs as [|x xs IH]; simpl; intros acc Hacc Hstep H.
  - now injection H as <-.
  - destruct (body acc x) as [acc'| |] eqn:Hb; simpl in H; try discriminate.
    apply (IH acc'); [eapply Hstep; eauto | | exact H].
    intros a y a' Hy. apply Hstep. now right.
Qed.

Lemma ofold_finishes (xs : list A) (acc : B) :
  (forall acc x, body acc x <> OutOfFuel) -> ofold body xs acc <> OutOfFuel.
Proof.
  intros Hb. revert acc. induction xs as [|x xs IH]; simpl; intros acc; [discriminate |].
  specialize (Hb acc x). destruct (body acc x); simpl; [apply IH | discriminate | congruence].
Qed.

Lemma ofold_raises_within (xs : list A) (x : A) (acc : B) :
  (forall acc y, body acc y <> OutOfFuel) ->
  (forall acc, exists e, body acc x = Raises e) ->
  In x xs -> exists e, ofold body xs acc = Raises e.
Proof.
  intros Hfuel Hx. revert acc. induction xs as [|y xs IH]; simpl; intros acc Hin; [contradiction |].
  destruct (body acc y) as [acc'|e|] eqn:Hb; simpl.
  - destruct Hin as [-> | Hin]; [| now apply IH].
    destruct (Hx acc) as [e He]. congruence.
  - now exists e.
  - now apply Hfuel in Hb.
Qed.

End OFold.

(** ** Decoding a session *)

Section SessionResults.
Context {rt : PyRuntime}.

Lemma get_testinstance_value_finishes (test : Test) (test_instance : TestInstance) :
  get_testinstance_value test test_instance <> OutOfFuel.
Proof.
  unfold get_testinstance_value.
  repeat match goal with
         | |- context [if ?b then _ else _] => destruct b
         | |- context [match ?v with PNone => _ | _ => _ end] => destruct v
         | |- context [match json_loads ?s with _ => _ end] => destruct (json_loads s)
         end; discriminate.
Qed.

Lemma getitem_finishes {V : Type} (d : dict V) (k : string) : getitem d k <> OutOfFuel.
Proof. unfold getitem. destruct (dict_get d k); discriminate. Qed.

(** The body of the loop of [results_from_session]. *)
Let decode_step (cache : QARepeater.cached) :=
  fun (results : dict pyval) (test_instance : TestInstance) =>
    let? test_url := getitem (dict_comp uti_url uti_test (QARepeater.unit_test_infos cache))
                             (ti_unit_test_info test_instance) in
    let? test := getitem (dict_comp t_url (fun t => t) (QARepeater.tests cache)) test_url in
    let? value := get_testinstance_value test test_instance in
    Returns (dict_set results (t_slug test) value).

Lemma decode_step_finishes cache results test_instance :
  decode_step cache results test_instance <> OutOfFuel.
Proof.
  unfold decode_step.
  destruct (getitem _ (ti_unit_test_info test_instance)) as [u| |] eqn:H1; simpl;
    [| discriminate | now apply getitem_finishes in H1].
  destruct (getitem _ u) as [t| |] eqn:H2; simpl;
    [| discriminate | now apply getitem_finishes in H2].
  destruct (get_testinstance_value t test_instance) eqn:H3; simpl;
    [discriminate | discriminate | now apply get_testinstance_value_finishes in H3].
Qed.

Lemma results_from_session_finishes cache qa_session :
  QARepeater.results_from_session cache qa_session <> OutOfFuel.
Proof. apply ofold_finishes. apply decode_step_finishes. Qed.

(** The keys of a decoded session are distinct slugs of current tests. *)
Lemma results_from_session_keys cache qa_session results :
  QARepeater.results_from_session cache qa_session = Returns results ->
  NoDup (dict_keys results)
  /\ forall k, In k (dict_keys results) -> In k (map t_slug (QARepeater.tests cache)).
Proof.
  unfold QARepeater.results_from_session.
  apply (ofold_invariant (decode_step cache)
           (fun d => NoDup (dict_keys d)
                     /\ forall k, In k (dict_keys d) -> In k (map t_slug (QARepeater.tests cache)))).
  - split; [constructor | intros k []].
  - intros acc x acc' _ [Hnd Hkeys] Hstep. unfold decode_step in Hstep.
    destruct (getitem _ (ti_unit_test_info x)) as [u| |]; simpl in Hstep; try discriminate.
    destruct (getitem _ u) as [t| |] eqn:Ht; simpl in Hstep; try discriminate.
    destruct (get_testinstance_value t x) as [v| |]; simpl in Hstep; try discriminate.
    injection Hstep as <-. split; [now apply dict_keys_set_nodup |].
    intros k Hk. apply dict_keys_set in Hk. destruct Hk as [-> | Hk]; [| now apply Hkeys].
    unfold getitem in Ht. destruct (dict_get _ u) as [t'|] eqn:Hg; [| discriminate].
    injection Ht as ->. apply dict_comp_get in Hg. destruct Hg as (t0 & Hin & _ & ->).
    now apply in_map.
Qed.

End SessionResults.

(** ** Runs of the program *)

Section Runs.
Context {E : Type} {remote : Remote E}.

Lemma bind_returns {A B : Type} (m : M E A) (k : A -> M E B) w a w1 :
  m w = (Returns a, w1) -> bind m k w = k a w1.
Proof. intros H. unfold bind. now rewrite H. Qed.

Lemma bind_raises {A B : Type} (m : M E A) (k : A -> M E B) w e w1 :
  m w = (Raises e, w1) -> bind m k w = (Raises e, w1).
Proof. intros H. unfold bind. now rewrite H. Qed.

Lemma bind_inversion {A B : Type} (m : M E A) (k : A -> M E B) w b w' :
  bind m k w = (Returns b, w') ->
  exists a w1, m w = (Returns a, w1) /\ k a w1 = (Returns b, w').
Proof.
  unfold bind. destruct (m w) as [[a|e|] w1]; intros H; try discriminate.
  now exists a, w1.
Qed.

Lemma mfold_app {A B : Type} (body : B -> A -> M E B) (xs ys : list A) (acc : B) w :
  mfold body (xs ++ ys)%list acc w = bind (mfold body xs acc) (mfold body ys) w.
Proof.
  revert acc w. induction xs as [|x xs IH]; simpl; intros acc w; [reflexivity |].
  unfold bind. destruct (body acc x w) as [[acc'|e|] w1]; try reflexivity.
  rewrite IH. reflexivity.
Qed.

Lemma mfold_invariant {A B : Type} (body : B -> A -> M E B) (I : B -> Prop)
    (xs : list A) (acc r : B) w w' :
  I acc ->
  (forall acc x w acc' w', In x xs -> I acc -> body acc x w = (Returns acc', w') -> I acc') ->
  mfold body xs acc w = (Returns r, w') -> I r.
Proof.
  revert acc w. induction xs as [|x xs IH]; simpl; intros acc w Hacc Hstep H.
  - unfold ret in H. now injection H as <- _.
  - apply bind_inversion in H. destruct H as (acc' & w1 & Hb & H).
    apply (IH acc' w1); [eapply Hstep; eauto | | exact H].
    intros a y v a' v' Hy. apply Hstep. now right.
Qed.

Section Relation.
Variable R : World E -> World E -> Prop.
Hypothesis R_refl : forall w, R w w.
Hypothesis R_trans : forall w1 w2 w3, R w1 w2 -> R w2 w3 -> R w1 w3.

Lemma run_ret {A : Type} (a : A) : run R (ret a).
Proof. intros w r w' H. unfold ret in H. injection H as _ <-. apply R_refl. Qed.

Lemma run_raise {A : Type} (e : exn) : run R (@raise E A e).
Proof. intros w r w' H. unfold raise in H. injection H as _ <-. apply R_refl. Qed.

Lemma run_lift {A : Type} (o : outcome A) : run R (lift o).
Proof. intros w r w' H. unfold lift in H. injection H as _ <-. apply R_refl. Qed.

Lemma run_monotonic : run R monotonic.
Proof. intros w r w' H. unfold monotonic in H. injection H as _ <-. apply R_refl. Qed.

Lemma run_get_next_allowed : run R get_next_allowed.
Proof. intros w r w' H. unfold get_next_allowed in H. injection H as _ <-. apply R_refl. Qed.

Lemma run_wall_clock_now : run R wall_clock_now.
Proof. intros w r w' H. unfold wall_clock_now in H. injection H as _ <-. apply R_refl. Qed.

Lemma run_bind {A B : Type} (m : M E A) (k : A -> M E B) :
  run R m -> (forall a, run R (k a)) -> run R (bind m k).
Proof.
  intros Hm Hk w r w' H. unfold bind in H.
  destruct (m w) as [[a|e|] w1] eqn:Hmw.
  - eapply R_trans; [eapply Hm; eauto | eapply Hk; eauto].
  - injection H as _ <-. eapply Hm; eauto.
  - injection H as _ <-. eapply Hm; eauto.
Qed.

Lemma run_mfold {A B : Type} (body : B -> A -> M E B) (xs : list A) (acc : B) :
  (forall acc x, In x xs -> run R (body acc x)) -> run R (mfold body xs acc).
Proof.
  revert acc. induction xs as [|x xs IH]; simpl; intros acc Hb; [apply run_ret |].
  apply run_bind; [apply Hb; now left |].
  intros a. apply IH. intros b y Hy. apply Hb. now right.
Qed.

(** What the relation has to allow for the paginated fetch to respect it. *)
Hypothesis R_sleep : forall d, run R (sleep d).
Hypothesis R_deadline : forall t, run R (set_next_allowed t).
Hypothesis R_get :
  forall (A : Type) (serve : request -> E -> outcome A * E) (session url : string),
    run R (send serve (GET session url)).

Lemma run_get_api_objects_loop {A : Type} (serve : request -> E -> outcome (payload A) * E)
    (session : string) (all_pages : bool) (fuel : nat) (next_page : option string)
    (results : list A) :
  run R (get_api_objects_loop serve session all_pages fuel next_page results).
Proof.
  revert next_page results. induction fuel as [|fuel IH]; intros [url|] results; simpl;
    try apply run_ret.
  - destruct (String.eqb url ""); [apply run_ret | apply run_lift].
  - destruct (String.eqb url ""); [apply run_ret |].
    apply run_bind; [apply run_monotonic | intros now].
    apply run_bind; [apply run_get_next_allowed | intros deadline].
    apply run_bind; [destruct (now <? deadline); [apply R_sleep | apply run_ret] | intros _].
    apply run_bind; [apply R_deadline | intros _].
    apply run_bind; [apply R_get | intros [obj | page next]]; [apply run_ret |].
    destruct (negb _); [apply run_ret |].
    apply run_bind; [apply R_sleep | intros _]. apply IH.
Qed.

Lemma run_get_api_objects {A : Type} (serve : request -> E -> outcome (payload A) * E)
    (session url : string) (all_pages : bool) (fuel : nat) :
  run R (get_api_objects serve session url all_pages fuel).
Proof. apply run_get_api_objects_loop. Qed.

End Relation.

End Runs.

(** ** What is posted *)

Section Posts.
Context {rt : PyRuntime} {E : Type} {remote : Remote E}.

Lemma posted_app (l1 l2 : list (Z * request)) :
  posted (l1 ++ l2)%list = (posted l1 ++ posted l2)%list.
Proof.
  induction l1 as [|[t [a u | a u d]] l1 IH]; simpl; [reflexivity | exact IH | now rewrite IH].
Qed.

Section Only.
Variable Q : PostData -> Prop.

Lemma posts_only_refl (w : World E) : posts_only Q w w.
Proof. exists []. split; [now rewrite app_nil_r | constructor]. Qed.

Lemma posts_only_trans (w1 w2 w3 : World E) :
  posts_only Q w1 w2 -> posts_only Q w2 w3 -> posts_only Q w1 w3.
Proof.
  intros (n1 & H1 & F1) (n2 & H2 & F2). exists (n1 ++ n2)%list. split.
  - now rewrite H2, H1, app_assoc.
  - apply Forall_app. now split.
Qed.

Lemma posts_only_same_log (w w' : World E) : log w' = log w -> posts_only Q w w'.
Proof. intros H. exists []. split; [now rewrite H, app_nil_r | constructor]. Qed.

Lemma posts_only_sleep (d : Z) : run (E:=E) (posts_only Q) (sleep d).
Proof.
  intros w r w' H. unfold sleep in H.
  destruct (d <? 0); injection H as _ <-; now apply posts_only_same_log.
Qed.

Lemma posts_only_deadline (t : Z) : run (E:=E) (posts_only Q) (set_next_allowed t).
Proof.
  intros w r w' H. unfold set_next_allowed in H.
  injection H as _ <-. now apply posts_only_same_log.
Qed.

Lemma posts_only_get (A : Type) (serve : request -> E -> outcome A * E)
    (session url : string) :
  run (E:=E) (posts_only Q) (send serve (GET session url)).
Proof.
  intros w r w' H. unfold send in H.
  destruct (serve _ (remote_state w)) as [r0 e']. injection H as _ <-.
  exists []. split; [| constructor]. simpl. rewrite posted_app. reflexivity.
Qed.

Lemma posts_only_fetch {A : Type} (self : QARepeater.t)
    (serve : request -> E -> outcome (payload A) * E)
    (path : string) (all_pages : bool) (fuel : nat) :
  run (E:=E) (posts_only Q) (QARepeater.get_api_objects self serve path all_pages fuel).
Proof.
  apply run_get_api_objects.
  - apply posts_only_refl.
  - apply posts_only_trans.
  - apply posts_only_sleep.
  - apply posts_only_deadline.
  - apply posts_only_get.
Qed.

Lemma posts_only_ret {A : Type} (a : A) : run (E:=E) (posts_only Q) (ret a).
Proof. apply run_ret, posts_only_refl. Qed.

Lemma posts_only_raise {A : Type} (e : exn) : run (E:=E) (posts_only Q) (@raise E A e).
Proof. apply run_raise, posts_only_refl. Qed.

Lemma posts_only_lift {A : Type} (o : outcome A) : run (E:=E) (posts_only Q) (lift o).
Proof. apply run_lift, posts_only_refl. Qed.

Lemma posts_only_bind {A B : Type} (m : M E A) (k : A -> M E B) :
  run (posts_only Q) m -> (forall a, run (posts_only Q) (k a)) ->
  run (posts_only Q) (bind m k).
Proof. apply run_bind, posts_only_trans. Qed.

Lemma posts_only_mfold {A B : Type} (body : B -> A -> M E B) (xs : list A) (acc : B) :
  (forall acc x, In x xs -> run (posts_only Q) (body acc x)) ->
  run (posts_only Q) (mfold body xs acc).
Proof. apply run_mfold; [apply posts_only_refl | apply posts_only_trans]. Qed.

Lemma posts_only_fetch_attachment (self : QARepeater.t) (attachment_id : pyval) (fuel : nat) :
  run (E:=E) (posts_only Q) (QARepeater.fetch_attachment self attachment_id fuel).
Proof.
  unfold QARepeater.fetch_attachment.
  apply posts_only_bind; [apply posts_only_fetch |].
  intros [attachment | l]; [| apply posts_only_raise].
  apply posts_only_bind; [apply posts_only_get |].
  intros raw. apply posts_only_ret.
Qed.

Lemma posts_only_test_values (self : QARepeater.t) (cache : QARepeater.cached)
    (slug_to_test : dict Test) (previous_results : dict pyval) (fuel : nat) :
  run (E:=E) (posts_only Q)
      (QARepeater.test_values self cache slug_to_test previous_results fuel).
Proof.
  unfold QARepeater.test_values.
  apply posts_only_mfold. intros acc [slug value] _. unfold QARepeater.set_test_value.
  apply posts_only_bind; [apply posts_only_lift |]. intros test.
  destruct (_ || _); [apply posts_only_ret |].
  destruct (String.eqb _ _); [| apply posts_only_ret].
  destruct (truthy value); [| apply posts_only_ret].
  apply posts_only_bind; [apply posts_only_fetch_attachment |]. intros attachment.
  apply posts_only_bind; [apply posts_only_lift |]. intros content.
  apply posts_only_ret.
Qed.

End Only.

(** [perform_session] makes exactly one POST, of the mapping it is given. *)
Lemma perform_session_posts (self : QARepeater.t) (cache : QARepeater.cached)
    (tests : dict entry) w r w' :
  QARepeater.perform_session self cache tests w = (r, w') ->
  exists data, pd_tests data = tests
               /\ posted (log w') = (posted (log w) ++ [data])%list.
Proof.
  unfold QARepeater.perform_session, bind, wall_clock_now, send, raise,
    QARepeater.submission.
  destruct (serve_post _ (remote_state w)) as [[response|e|] e'] eqn:Hpost;
    cbn [log]; intros H;
    exists {| pd_unit_test_collection := QARepeater.assignment_url cache;
              pd_work_started := now_isoformat (remote_state w);
              pd_comment := "Consistency check";
              pd_tests := tests |};
    (split; [reflexivity |]).
  -
    destruct (negb _).
    + injection H as _ <-. cbn [log]. rewrite posted_app. reflexivity.
    + destruct (json_body response) as [[| | | | | |kv]|];
        try (injection H as _ <-; cbn [log]; rewrite posted_app; reflexivity).
      destruct (assoc "url" kv) as [[| | | |url| |]|];
        try (injection H as _ <-; cbn [log]; rewrite posted_app; reflexivity).
      destruct (serve_session _ _) as [r1 e1]. injection H as _ <-. cbn [log].
      rewrite !posted_app. simpl. now rewrite app_nil_r.
  - injection H as _ <-. cbn [log]. rewrite posted_app. reflexivity.
  - injection H as _ <-. cbn [log]. rewrite posted_app. reflexivity.
Qed.

End Posts.

(** ** The submitted mapping *)

Section Payload.
Context {rt : PyRuntime} {E : Type} {remote : Remote E}.

Lemma slug_to_test_get (cache : QARepeater.cached) (slug : string) (test : Test) :
  dict_get (QARepeater.slug_to_test cache) slug = Some test ->
  In test (QARepeater.tests cache) /\ t_slug test = slug.
Proof.
  intros H. apply dict_comp_get in H. destruct H as (t & Hin & Hslug & <-). now split.
Qed.

(** One step either leaves the mapping alone or fills in the entry of a
    test that is not calculated, from a value that is not [None]. *)
Lemma set_test_value_returns (self : QARepeater.t) (cache : QARepeater.cached) (fuel : nat)
    (tv tv' : dict entry) (slug : string) (value : pyval) (w w' : World E) :
  QARepeater.set_test_value self (QARepeater.slug_to_test cache) fuel tv (slug, value) w
    = (Returns tv', w') ->
  tv' = tv
  \/ (is_none value = false
      /\ exists test,
          In test (QARepeater.tests cache) /\ t_slug test = slug
          /\ QARepeater.is_calculated test = false
          /\ ((t_type test <> "upload" /\ tv' = dict_set tv slug (Value value))
              \/ (t_type test = "upload" /\ truthy value = true
                  /\ exists raw label w0,
                      QARepeater.fetch_attachment self value fuel w = (Returns (raw, label), w0)
                      /\ exists content,
                          QARepeater.reencode raw = Returns content
                          /\ tv' = dict_set tv slug (Upload content label "base64")))).
Proof.
  unfold QARepeater.set_test_value. intros H.
  apply bind_inversion in H. destruct H as (test & w1 & Hget & H).
  unfold lift, getitem in Hget.
  destruct (dict_get _ slug) as [t0|] eqn:Hs; [| discriminate].
  injection Hget as -> <-. apply slug_to_test_get in Hs. destruct Hs as [Hin Hslug].
  destruct (QARepeater.is_calculated test) eqn:Hcalc; simpl in H.
  { left. unfold ret in H. now injection H as <- _. }
  destruct (is_none value) eqn:Hnone.
  { left. unfold ret in H. now injection H as <- _. }
  destruct (String.eqb_spec (t_type test) "upload") as [Hup | Hup].
  - destruct (truthy value) eqn:Htruthy.
    + apply bind_inversion in H. destruct H as ([raw label] & w0 & Hfetch & H).
      apply bind_inversion in H. destruct H as (content & w2 & Hre & H).
      unfold lift in Hre. injection Hre as Hre _.
      unfold ret in H. injection H as <- _.
      right. split; [reflexivity |]. exists test. repeat split; try assumption.
      right. repeat split; try assumption.
      exists raw, label, w0. split; [exact Hfetch |].
      exists content. rewrite Hslug. now split.
    + left. unfold ret in H. now injection H as <- _.
  - unfold ret in H. injection H as <- _.
    right. split; [reflexivity |]. exists test. repeat split; try assumption.
    left. rewrite Hslug. now split.
Qed.

Lemma skipped_by_default_get (cache : QARepeater.cached) (k : string) (e : entry) :
  dict_get (QARepeater.skipped_by_default cache) k = Some e -> e = Skipped.
Proof.
  intros H. apply dict_comp_get in H. now destruct H as (t & _ & _ & <-).
Qed.

Lemma skipped_by_default_keys (cache : QARepeater.cached) (k : string) :
  In k (dict_keys (QARepeater.skipped_by_default cache))
  <-> exists t, In t (QARepeater.tests cache) /\ t_slug t = k
                /\ QARepeater.is_calculated t = false.
Proof.
  unfold QARepeater.skipped_by_default. rewrite dict_comp_keys, in_map_iff. split.
  - intros (t & Hk & Hin). apply filter_In in Hin. destruct Hin as [Hin Hc].
    apply negb_true_iff in Hc. now exists t.
  - intros (t & Hin & Hk & Hc). exists t. split; [exact Hk |].
    apply filter_In. split; [exact Hin | now apply negb_true_iff].
Qed.

Lemma dict_get_some_key {V : Type} (d : dict V) (k : string) :
  In k (dict_keys d) <-> exists v, dict_get d k = Some v.
Proof.
  split.
  - intros Hin. destruct (dict_get d k) as [v|] eqn:Hg; [now exists v |].
    now apply dict_get_none in Hg.
  - intros [v Hv]. apply dict_get_in in Hv. now apply dict_in_keys in Hv.
Qed.

(** What the second loop leaves in the mapping, in terms of the tests and
    of the decoded historical results. *)
Lemma test_values_returns (self : QARepeater.t) (cache : QARepeater.cached) (fuel : nat)
    (previous_results : dict pyval) (tv : dict entry) (w w' : World E) :
  NoDup (dict_keys previous_results) ->
  QARepeater.test_values self cache (QARepeater.slug_to_test cache) previous_results fuel w
    = (Returns tv, w') ->
  (forall k, In k (dict_keys tv) <->
             exists t, In t (QARepeater.tests cache) /\ t_slug t = k
                       /\ QARepeater.is_calculated t = false)
  /\ (forall k e, dict_get tv k = Some e ->
        e = Skipped
        \/ exists v, dict_get previous_results k = Some v /\ is_none v = false
                     /\ (e = Value v
                         \/ (truthy v = true
                             /\ exists content label, e = Upload content label "base64")))
  /\ (forall k, In k (dict_keys tv) ->
        (forall v, dict_get previous_results k = Some v -> is_none v = true) ->
        dict_get tv k = Some Skipped).
Proof.
  intros Hnd. unfold QARepeater.test_values.
  apply (mfold_invariant _
    (fun tv =>
       (forall k, In k (dict_keys tv) <->
                  exists t, In t (QARepeater.tests cache) /\ t_slug t = k
                            /\ QARepeater.is_calculated t = false)
       /\ (forall k e, dict_get tv k = Some e ->
             e = Skipped
             \/ exists v, dict_get previous_results k = Some v /\ is_none v = false
                          /\ (e = Value v
                              \/ (truthy v = true
                                  /\ exists content label, e = Upload content label "base64")))
       /\ (forall k, In k (dict_keys tv) ->
             (forall v, dict_get previous_results k = Some v -> is_none v = true) ->
             dict_get tv k = Some Skipped))).
  - repeat split.
    + apply skipped_by_default_keys.
    + apply skipped_by_default_keys.
    + intros k e He. left. eapply skipped_by_default_get; eauto.
    + intros k Hk _. apply dict_get_some_key in Hk. destruct Hk as [e He].
      now rewrite He, (skipped_by_default_get _ _ _ He).
  - intros acc [slug value] v acc' v' Hin (Hkeys & Hvals & Hskip) Hstep.
    apply set_test_value_returns in Hstep.
    destruct Hstep as [-> | (Hnone & test & Htest & Hslug & Hcalc & Hset)];
      [repeat split; solve [apply Hkeys | exact Hvals | exact Hskip] |].
    assert (Hprev : dict_get previous_results slug = Some value)
      by now apply dict_in_get.
    assert (exists e, acc' = dict_set acc slug e
                      /\ (e = Value value
                          \/ (truthy value = true
                              /\ exists content label, e = Upload content label "base64")))
      as (e & -> & He).
    { destruct Hset as [[_ ->] | (_ & Ht & raw & label & w0 & _ & content & _ & ->)].
      - eexists. split; [reflexivity | now left].
      - eexists. split; [reflexivity |]. right. split; [exact Ht |]. now exists content, label. }
    repeat split.
    + intros Hk. apply dict_keys_set in Hk. destruct Hk as [-> | Hk]; [| now apply Hkeys].
      now exists test.
    + intros Hk. apply dict_keys_set. right. now apply Hkeys.
    + intros k e0 Hk. destruct (String.eqb_spec slug k) as [<- | Hne].
      * rewrite dict_get_set_eq in Hk. injection Hk as <-. right. now exists value.
      * rewrite dict_get_set_ne in Hk by assumption. now apply Hvals.
    + intros k Hk Hnull. destruct (String.eqb_spec slug k) as [<- | Hne].
      * apply Hnull in Hprev. congruence.
      * rewrite dict_get_set_ne by assumption. apply Hskip; [| exact Hnull].
        apply dict_keys_set in Hk. destruct Hk; [congruence | assumption].
Qed.

End Payload.

(** ** Replaying a session *)

Section Replay.
Context {rt : PyRuntime} {E : Type} {remote : Remote E}.

Lemma bind_lift {A B : Type} (o : outcome A) (k : A -> M E B) (w : World E) :
  bind (lift o) k w =
  match o with
  | Returns a => k a w
  | Raises e => (Raises e, w)
  | OutOfFuel => (OutOfFuel, w)
  end.
Proof. unfold bind, lift. destruct o; reflexivity. Qed.

(** The second loop visits every decoded slug once: the entry of a slug
    in the final mapping is the one that the step for that slug left,
    and that step found the entry as the defaults had it. *)
Lemma set_test_value_fold (self : QARepeater.t) (cache : QARepeater.cached) (fuel : nat)
    (items : dict pyval) (acc tv : dict entry) (w w' : World E) :
  NoDup (dict_keys items) ->
  mfold (QARepeater.set_test_value self (QARepeater.slug_to_test cache) fuel) items acc w
    = (Returns tv, w') ->
  (forall k, ~ In k (dict_keys items) -> dict_get tv k = dict_get acc k)
  /\ (forall k v, In (k, v) items ->
        exists acc0 w0 acc1 w1,
          QARepeater.set_test_value self (QARepeater.slug_to_test cache) fuel acc0 (k, v) w0
            = (Returns acc1, w1)
          /\ dict_get acc0 k = dict_get acc k
          /\ dict_get tv k = dict_get acc1 k).
Proof.
  unfold dict_keys. revert acc w.
  induction items as [|[k0 v0] items IH]; simpl; intros acc w Hnd H.
  - unfold ret in H. injection H as <- _. split; [reflexivity | intros k v []].
  - apply bind_inversion in H. destruct H as (acc1 & w1 & Hstep & H).
    inversion Hnd as [|? ? Hfresh Hnd']; subst.
    destruct (IH acc1 w1 Hnd' H) as [Hout Hin].
    assert (Hother : forall k, k <> k0 -> dict_get acc1 k = dict_get acc k).
    { intros k Hk. apply set_test_value_returns in Hstep.
      destruct Hstep as [-> | (_ & t & _ & _ & _ & [[_ ->] | (_ & _ & ? & ? & ? & _ & ? & _ & ->)])];
        [reflexivity | |]; apply dict_get_set_ne; congruence. }
    split.
    + intros k Hk. rewrite Hout by tauto. apply Hother. intros ->. tauto.
    + intros k v [[= -> ->] | Hkv].
      * exists acc, w, acc1, w1. split; [exact Hstep |]. split; [reflexivity |].
        now apply Hout.
      * destruct (Hin k v Hkv) as (a0 & u0 & a1 & u1 & Hs & Hbefore & Hafter).
        exists a0, u0, a1, u1. split; [exact Hs |]. split; [| exact Hafter].
        rewrite Hbefore. apply Hother. intros ->. apply Hfresh.
        now apply (in_map fst) in Hkv.
Qed.

(** What the second loop writes for a decoded value that is not [None]. *)
Lemma test_values_fills (self : QARepeater.t) (cache : QARepeater.cached) (fuel : nat)
    (previous_results : dict pyval) (tv : dict entry) (w w' : World E) :
  NoDup (dict_keys previous_results) ->
  QARepeater.test_values self cache (QARepeater.slug_to_test cache) previous_results fuel w
    = (Returns tv, w') ->
  forall k v t,
    dict_get previous_results k = Some v -> is_none v = false ->
    dict_get (QARepeater.slug_to_test cache) k = Some t ->
    QARepeater.is_calculated t = false ->
    (t_type t <> "upload" -> dict_get tv k = Some (Value v))
    /\ (t_type t = "upload" -> truthy v = false -> dict_get tv k = Some Skipped)
    /\ (t_type t = "upload" -> truthy v = true ->
        exists raw label content (w0 w1 : World E),
          QARepeater.fetch_attachment self v fuel w0 = (Returns (raw, label), w1)
          /\ QARepeater.reencode raw = Returns content
          /\ dict_get tv k = Some (Upload content label "base64")).
Proof.
  intros Hnd Htv k v t Hprev Hnone Ht Hcalc. unfold QARepeater.test_values in Htv.
  destruct (set_test_value_fold _ _ _ _ _ _ _ _ Hnd Htv) as [_ Hin].
  destruct (Hin k v (dict_get_in _ _ _ Hprev)) as (acc0 & w0 & acc1 & w1 & Hstep & H0 & H1).
  destruct (slug_to_test_get _ _ _ Ht) as [Hint Hslug].
  assert (Hdefault : dict_get acc0 k = Some Skipped).
  { rewrite H0.
    assert (Hk : In k (dict_keys (QARepeater.skipped_by_default cache)))
      by (apply skipped_by_default_keys; now exists t).
    apply dict_get_some_key in Hk. destruct Hk as [e He].
    now rewrite He, (skipped_by_default_get _ _ _ He). }
  rewrite H1. clear Hin Htv H0 H1.
  unfold QARepeater.set_test_value in Hstep. rewrite bind_lift in Hstep.
  unfold getitem in Hstep. rewrite Ht in Hstep. rewrite Hcalc, Hnone in Hstep.
  cbn [orb] in Hstep. rewrite Hslug in Hstep.
  destruct (String.eqb_spec (t_type t) "upload") as [Hup | Hup].
  - split; [congruence |]. destruct (truthy v) eqn:Htruthy.
    + split; [discriminate |]. intros _ _.
      apply bind_inversion in Hstep. destruct Hstep as ([raw label] & w2 & Hfetch & Hstep).
      rewrite bind_lift in Hstep.
      destruct (QARepeater.reencode (fst (raw, label))) as [content| |] eqn:Hre;
        try discriminate.
      unfold ret in Hstep. injection Hstep as <- _.
      exists raw, label, content, w0, w2. split; [exact Hfetch |]. split; [exact Hre |].
      apply dict_get_set_eq.
    + split; [| discriminate]. intros _ _.
      unfold ret in Hstep. injection Hstep as <- _. exact Hdefault.
  - split; [| split; congruence]. intros _.
    unfold ret in Hstep. injection Hstep as <- _. apply dict_get_set_eq.
Qed.

Lemma test_values_quiet (self : QARepeater.t) (cache : QARepeater.cached)
    (slug_to_test : dict Test) (previous_results : dict pyval) (fuel : nat)
    (w : World E) r w' :
  QARepeater.test_values self cache slug_to_test previous_results fuel w = (r, w') ->
  posted (log w') = posted (log w).
Proof.
  intros H. apply (posts_only_test_values (fun _ => False)) in H.
  destruct H as (new & Hnew & Hall). destruct new as [|d new].
  - now rewrite app_nil_r in Hnew.
  - inversion Hall as [|? ? []].
Qed.

(** A replay posts at most once, and what it posts is the mapping that
    the second loop built for the session. *)
Lemma replay_posts (self : QARepeater.t) (cache : QARepeater.cached) (fuel : nat)
    (previous_session : QASession) :
  run (E:=E)
      (posts_only (fun data => built_for self cache fuel previous_session (pd_tests data)))
      (QARepeater.replay self cache (QARepeater.slug_to_test cache) fuel previous_session).
Proof.
  intros w r w' H. unfold QARepeater.replay in H. rewrite bind_lift in H.
  destruct (QARepeater.results_from_session cache previous_session) as [prev|e|] eqn:Hprev;
    try (injection H as _ <-; apply posts_only_refl).
  rewrite bind_lift in H.
  destruct (QARepeater.previous_calculated _ prev) as [pc|e|];
    try (injection H as _ <-; apply posts_only_refl).
  unfold bind at 1 in H.
  destruct (QARepeater.test_values self cache _ prev fuel w) as [[tv|e|] w1] eqn:Htv.
  2, 3: injection H as _ <-; apply test_values_quiet in Htv;
        exists []; split; [now rewrite Htv, app_nil_r | constructor].
  unfold bind at 1 in H.
  destruct (QARepeater.perform_session self cache tv w1) as [[ns|e|] w2] eqn:Hperf.
  all: apply perform_session_posts in Hperf; destruct Hperf as (data & Hdata & Hlog).
  all: apply test_values_quiet in Htv as Hquiet.
  all: assert (Hw : w' = w2);
    [ try (now injection H as _ <-);
      rewrite bind_lift in H;
      destruct (QARepeater.results_from_session cache ns); try (now injection H as _ <-);
      unfold lift in H; now injection H as _ <-
    | subst w'; exists [data]; split; [now rewrite Hlog, Hquiet |];
      constructor; [| constructor]; exists prev, w, w1; now rewrite Hdata ].
Qed.

(** A replay that returns a table returns the one that
    [generate_results_table] makes of the decoded historical session. *)
Lemma replay_returns (self : QARepeater.t) (cache : QARepeater.cached)
    (slug_to_test : dict Test) (fuel : nat) (previous_session : QASession)
    (w : World E) tbl w' :
  QARepeater.replay self cache slug_to_test fuel previous_session w = (Returns tbl, w') ->
  exists previous_results new_session new_results,
    QARepeater.results_from_session cache previous_session = Returns previous_results
    /\ QARepeater.results_from_session cache new_session = Returns new_results
    /\ QARepeater.generate_results_table cache previous_session previous_results
         new_session new_results = Returns tbl.
Proof.
  unfold QARepeater.replay. intros H.
  apply bind_inversion in H. destruct H as (prev & w1 & Hprev & H).
  apply bind_inversion in H. destruct H as (pc & w2 & _ & H).
  apply bind_inversion in H. destruct H as (tv & w3 & _ & H).
  apply bind_inversion in H. destruct H as (ns & w4 & _ & H).
  apply bind_inversion in H. destruct H as (nr & w5 & Hnr & H).
  unfold lift in *. injection Hprev as Hprev _. injection Hnr as Hnr _. injection H as H _.
  now exists prev, ns, nr.
Qed.

Lemma table_rows_fold (cache : QARepeater.cached) (new_results : dict pyval)
    (items : dict pyval) (acc tbl : QARepeater.table) :
  ofold (fun table '(slug, prev_val) =>
           let? test := getitem (QARepeater.slug_to_test cache) slug in
           let new_val := match dict_get new_results slug with
                          | Some v => v
                          | None => PStr ""
                          end in
           Returns (table ++ [[PStr (t_name test); prev_val; new_val;
                               PStr (str_of_bool (py_eq prev_val new_val))]])%list)
        items acc = Returns tbl ->
  (forall row, In row acc -> In row tbl)
  /\ forall slug prev_val, In (slug, prev_val) items ->
       exists test, dict_get (QARepeater.slug_to_test cache) slug = Some test
                    /\ In (comparison_row test prev_val (new_value new_results slug)) tbl.
Proof.
  revert acc. induction items as [|[slug v] items IH]; simpl; intros acc H.
  - injection H as <-. split; [auto | intros ? ? []].
  - unfold getitem in H at 1.
    destruct (dict_get (QARepeater.slug_to_test cache) slug) as [test|] eqn:Hs;
      simpl in H; [| discriminate].
    apply IH in H. destruct H as [Hacc Hrows]. split.
    + intros row Hrow. apply Hacc, in_or_app. now left.
    + intros slug' v' [Heq | Hin]; [| now apply Hrows].
      injection Heq as <- <-. exists test. split; [exact Hs |].
      apply Hacc, in_or_app. right. now left.
Qed.

Lemma table_rows (cache : QARepeater.cached) (previous_session new_session : QASession)
    (previous_results new_results : dict pyval) (tbl : QARepeater.table) :
  QARepeater.generate_results_table cache previous_session previous_results
    new_session new_results = Returns tbl ->
  forall slug prev_val, In (slug, prev_val) previous_results ->
    exists test, dict_get (QARepeater.slug_to_test cache) slug = Some test
                 /\ In (comparison_row test prev_val (new_value new_results slug)) tbl.
Proof.
  unfold QARepeater.generate_results_table. intros H.
  now apply table_rows_fold in H.
Qed.

(** The tables of a batch, one per session and in the order of the
    sessions. *)
Lemma replay_each_returns (self : QARepeater.t) (cache : QARepeater.cached)
    (slug_to_test : dict Test) (fuel : nat) (T : QASession -> QARepeater.table -> Prop) :
  (forall s w tbl w',
      QARepeater.replay self cache slug_to_test fuel s w = (Returns tbl, w') -> T s tbl) ->
  forall sessions results (w : World E) tables w',
    QARepeater.replay_each self cache slug_to_test fuel sessions results w
      = (Returns tables, w') ->
    exists new, tables = (results ++ new)%list /\ Forall2 T sessions new.
Proof.
  intros HT. unfold QARepeater.replay_each.
  induction sessions as [|s sessions IH]; simpl; intros results w tables w' H.
  - unfold ret in H. injection H as <- _. exists []. split; [now rewrite app_nil_r | constructor].
  - apply bind_inversion in H. destruct H as (acc & w1 & Hstep & H).
    apply bind_inversion in Hstep. destruct Hstep as (tbl & w2 & Hreplay & Hret).
    unfold ret in Hret. injection Hret as <- _.
    apply IH in H. destruct H as (new & -> & Hall).
    exists (tbl :: new). split; [now rewrite <- app_assoc |].
    constructor; [eapply HT; eauto | exact Hall].
Qed.

End Replay.

(** ** Calculated tests *)

Lemma nodup_map_injective {A B : Type} (f : A -> B) (xs : list A) (x y : A) :
  NoDup (map f xs) -> In x xs -> In y xs -> f x = f y -> x = y.
Proof.
  induction xs as [|a xs IH]; simpl; intros Hnd Hx Hy Heq; [contradiction |].
  inversion Hnd as [|? ? Hnotin Hnd']; subst.
  destruct Hx as [-> | Hx], Hy as [-> | Hy].
  - reflexivity.
  - exfalso. apply Hnotin. rewrite Heq. now apply in_map.
  - exfalso. apply Hnotin. rewrite <- Heq. now apply in_map.
  - now apply IH.
Qed.

Lemma posts_only_weaken {E : Type} (Q Q' : PostData -> Prop) (w w' : World E) :
  (forall data, Q data -> Q' data) -> posts_only Q w w' -> posts_only Q' w w'.
Proof.
  intros HQ (new & Hnew & Hall). exists new. split; [exact Hnew |].
  eapply Forall_impl; eauto.
Qed.

Section Calculated.
Context {rt : PyRuntime} {E : Type} {remote : Remote E}.

Lemma built_for_no_calculated (self : QARepeater.t) (cache : QARepeater.cached) (fuel : nat)
    (previous_session : QASession) (tests : dict entry) :
  NoDup (map t_slug (QARepeater.tests cache)) ->
  built_for (E:=E) self cache fuel previous_session tests ->
  forall t, In t (QARepeater.tests cache) -> QARepeater.is_calculated t = true ->
            ~ In (t_slug t) (dict_keys tests).
Proof.
  intros Hnd (prev & w0 & w1 & Hprev & Htv) t Hin Hcalc Hkey.
  apply results_from_session_keys in Hprev. destruct Hprev as [Hnd' _].
  apply test_values_returns in Htv; [| exact Hnd']. destruct Htv as (Hkeys & _ & _).
  apply Hkeys in Hkey. destruct Hkey as (t' & Hin' & Hslug & Hcalc').
  assert (t' = t) by (eapply nodup_map_injective; eauto). congruence.
Qed.

(** C1. Whatever [repeat_qa] does, no mapping that it posts as the tests
    of a new session has the slug of a calculated test ([composite],
    [scomposite], [rlookup]) among its keys; and when it returns, the
    table of each historical session has, for every calculated test that
    was decoded from that session, the row of that test with its previous
    value.  Slugs identify the tests of the test list. *)
Theorem C1_calculated_compared_not_submitted (self : QARepeater.t)
    (cache : QARepeater.cached) (num_sessions : Z) (fuel : nat) (w : World E) :
  NoDup (map t_slug (QARepeater.tests cache)) ->
  let result := QARepeater.repeat_qa self cache num_sessions fuel w in
  posts_only
    (fun data =>
       forall t, In t (QARepeater.tests cache) -> QARepeater.is_calculated t = true ->
                 ~ In (t_slug t) (dict_keys (pd_tests data)))
    w (snd result)
  /\ forall tables, fst result = Returns tables ->
       exists sessions w1,
         QARepeater.previous_sessions self num_sessions fuel w = (Returns (inr sessions), w1)
         /\ Forall2
              (fun previous_session tbl =>
                 exists previous_results new_session new_results,
                   QARepeater.results_from_session cache previous_session
                     = Returns previous_results
                   /\ QARepeater.results_from_session cache new_session = Returns new_results
                   /\ forall t prev_val,
                        In t (QARepeater.tests cache) ->
                        QARepeater.is_calculated t = true ->
                        dict_get previous_results (t_slug t) = Some prev_val ->
                        In (comparison_row t prev_val (new_value new_results (t_slug t))) tbl)
              sessions tables.
Proof.
  intros Hnd result. split.
  - assert (Hrun : run (E:=E)
               (posts_only
                  (fun data =>
                     forall t, In t (QARepeater.tests cache) ->
                               QARepeater.is_calculated t = true ->
                               ~ In (t_slug t) (dict_keys (pd_tests data))))
               (QARepeater.repeat_qa self cache num_sessions fuel)).
    { unfold QARepeater.repeat_qa.
      apply posts_only_bind; [apply posts_only_fetch |].
      intros [single | sessions]; [apply posts_only_raise |].
      unfold QARepeater.replay_each. apply posts_only_mfold. intros acc s _.
      apply posts_only_bind; [| intros tbl; apply posts_only_ret].
      intros v r v' Hreplay. apply replay_posts in Hreplay.
      eapply posts_only_weaken; [| exact Hreplay].
      intros data Hbuilt. now apply (built_for_no_calculated self cache fuel s). }
    apply (Hrun w (fst result)). subst result. now destruct (QARepeater.repeat_qa _ _ _ _ _).
  - intros tables Hres. subst result.
    destruct (QARepeater.repeat_qa self cache num_sessions fuel w) as [r w'] eqn:Hrun.
    simpl in Hres. subst r. unfold QARepeater.repeat_qa in Hrun.
    apply bind_inversion in Hrun. destruct Hrun as (sess & w1 & Hprev & Hrun).
    destruct sess as [single | sessions]; [discriminate |].
    exists sessions, w1. split; [exact Hprev |].
    eapply replay_each_returns in Hrun.
    + destruct Hrun as (new & -> & Hall). exact Hall.
    + intros s v tbl v' Hreplay. apply replay_returns in Hreplay.
      destruct Hreplay as (prev & ns & nr & Hp & Hn & Htbl).
      exists prev, ns, nr. repeat split; try assumption.
      intros t prev_val Hin Hcalc Hget.
      apply dict_get_in in Hget.
      destruct (table_rows _ _ _ _ _ _ Htbl _ _ Hget) as (test & Hs & Hrow).
      unfold QARepeater.slug_to_test in Hs.
      rewrite (dict_comp_get_in t_slug (fun t => t) _ t Hnd Hin) in Hs.
      now injection Hs as <-.
Qed.

End Calculated.


(** ** The submission *)

Section Submission.
Context {rt : PyRuntime} {E : Type} {remote : Remote E}.

(** C3. The mapping that a replay posts has an entry for every test of
    the current test list that is not calculated; an entry differs from
    [{"skipped": True}] only where the historical session decoded to a
    value other than [None] under that slug, and a plain [{"value": v}]
    carries exactly that value; so a test without an instance in the
    historical session (added since), and a test whose instance decoded
    to [None], are posted as skipped.  Where the historical session did
    decode to a value [v] other than [None], the entry is overwritten:
    it is [{"value": v}] for a test that is not an upload, and for an
    upload it is the re-encoded attachment when [v] is truthy and stays
    skipped when it is not. *)
Theorem C3_submission_defaults_to_skipped (self : QARepeater.t) (cache : QARepeater.cached)
    (fuel : nat) (previous_session : QASession) (previous_results : dict pyval)
    (w : World E) (r : outcome QARepeater.table) (w' : World E) (data : PostData) :
  QARepeater.results_from_session cache previous_session = Returns previous_results ->
  QARepeater.replay self cache (QARepeater.slug_to_test cache) fuel previous_session w
    = (r, w') ->
  posted (log w') = (posted (log w) ++ [data])%list ->
  (forall t, In t (QARepeater.tests cache) -> QARepeater.is_calculated t = false ->
             exists e, dict_get (pd_tests data) (t_slug t) = Some e)
  /\ (forall k e, dict_get (pd_tests data) k = Some e ->
        e = Skipped
        \/ exists v, dict_get previous_results k = Some v /\ is_none v = false
                     /\ (e = Value v
                         \/ (truthy v = true
                             /\ exists content label, e = Upload content label "base64")))
  /\ (forall t, In t (QARepeater.tests cache) -> QARepeater.is_calculated t = false ->
        dict_get previous_results (t_slug t) = None ->
        dict_get (pd_tests data) (t_slug t) = Some Skipped)
  /\ (forall t, In t (QARepeater.tests cache) -> QARepeater.is_calculated t = false ->
        dict_get previous_results (t_slug t) = Some PNone ->
        dict_get (pd_tests data) (t_slug t) = Some Skipped)
  /\ (forall k v t,
        dict_get previous_results k = Some v -> is_none v = false ->
        dict_get (QARepeater.slug_to_test cache) k = Some t ->
        QARepeater.is_calculated t = false ->
        (t_type t <> "upload" -> dict_get (pd_tests data) k = Some (Value v))
        /\ (t_type t = "upload" -> truthy v = false ->
            dict_get (pd_tests data) k = Some Skipped)
        /\ (t_type t = "upload" -> truthy v = true ->
            exists raw label content (w0 w1 : World E),
              QARepeater.fetch_attachment self v fuel w0 = (Returns (raw, label), w1)
              /\ QARepeater.reencode raw = Returns content
              /\ dict_get (pd_tests data) k = Some (Upload content label "base64"))).
Proof.
  intros Hprev Hreplay Hposted.
  apply replay_posts in Hreplay. destruct Hreplay as (new & Hnew & Hall).
  rewrite Hposted in Hnew. apply app_inv_head in Hnew. subst new.
  inversion Hall as [|? ? (prev & w0 & w1 & Hprev' & Htv) _]; subst.
  rewrite Hprev in Hprev'. injection Hprev' as <-.
  apply results_from_session_keys in Hprev. destruct Hprev as [Hnd _].
  pose proof (test_values_fills _ _ _ _ _ _ _ Hnd Htv) as Hfills.
  apply test_values_returns in Htv; [| exact Hnd].
  destruct Htv as (Hkeys & Hvals & Hskip).
  assert (Hentry : forall t, In t (QARepeater.tests cache) ->
                             QARepeater.is_calculated t = false ->
                             In (t_slug t) (dict_keys (pd_tests data))).
  { intros t Hin Hcalc. apply Hkeys. now exists t. }
  split; [| split; [| split; [| split]]].
  - intros t Hin Hcalc. now apply dict_get_some_key, Hentry.
  - exact Hvals.
  - intros t Hin Hcalc Hnone. apply Hskip; [now apply Hentry |].
    intros v Hv. congruence.
  - intros t Hin Hcalc Hnull. apply Hskip; [now apply Hentry |].
    intros v Hv. rewrite Hnull in Hv. now injection Hv as <-.
  - exact Hfills.
Qed.

End Submission.


(** ** A submission that the service refuses *)

Section OFoldReturns.
Context {A B : Type} (body : B -> A -> outcome B).

Lemma ofold_returns (xs : list A) (acc : B) :
  (forall acc x, In x xs -> exists acc', body acc x = Returns acc') ->
  exists r, ofold body xs acc = Returns r.
Proof.
  revert acc. induction xs as [|x xs IH]; simpl; intros acc Hb; [now exists acc |].
  destruct (Hb acc x (or_introl eq_refl)) as [acc' ->]. simpl.
  apply IH. intros a y Hy. apply Hb. now right.
Qed.

End OFoldReturns.

Section Refused.
Context {rt : PyRuntime} {E : Type} {remote : Remote E}.

(** The first loop of [repeat_qa] finds the test of every decoded slug. *)
Lemma previous_calculated_returns (cache : QARepeater.cached) (qa_session : QASession)
    (previous_results : dict pyval) :
  QARepeater.results_from_session cache qa_session = Returns previous_results ->
  exists calculated,
    QARepeater.previous_calculated (QARepeater.slug_to_test cache) previous_results
    = Returns calculated.
Proof.
  intros H. apply results_from_session_keys in H. destruct H as [_ Hkeys].
  unfold QARepeater.previous_calculated. apply ofold_returns.
  intros acc [slug value] Hin. apply dict_in_keys, Hkeys in Hin.
  apply (dict_comp_keys t_slug (fun t => t)) in Hin.
  apply dict_get_some_key in Hin. destruct Hin as [test Htest].
  unfold getitem, QARepeater.slug_to_test. rewrite Htest. simpl. eauto.
Qed.

(** C8. When the POST that creates the new session is answered with a
    status other than 201, [perform_session] raises a [ValueError] whose
    message holds the response and, when the body is JSON, the body; the
    POST is the last request: the new session is not fetched.  The
    exception leaves the replay of that session and [repeat_qa] as it is,
    in the world right after the POST, so that the sessions that remain
    are not replayed and nothing is tried again.  A session is returned
    only after a 201, and by the one GET that follows the POST. *)
Theorem C8_refused_submission_aborts (self : QARepeater.t) (cache : QARepeater.cached)
    (fuel : nat) (previous_session : QASession) (previous_results : dict pyval)
    (tests : dict entry) (w w1 : World E) (response : Response) (e' : E) :
  QARepeater.results_from_session cache previous_session = Returns previous_results ->
  QARepeater.test_values self cache (QARepeater.slug_to_test cache) previous_results fuel w
    = (Returns tests, w1) ->
  serve_post (QARepeater.submission self cache tests (now_isoformat (remote_state w1)))
             (remote_state w1) = (Returns response, e') ->
  status_code response <> CREATED ->
  let message := match json_body response with
                 | Some body => QARepeater.response_repr response ++ ": " ++ py_str body
                 | None => QARepeater.response_repr response
                 end in
  let error := ValueError ("Failed to repeat session: " ++ message) in
  let failed := after_post self cache tests w1 e' in
  QARepeater.perform_session self cache tests w1 = (Raises error, failed)
  /\ QARepeater.replay self cache (QARepeater.slug_to_test cache) fuel previous_session w
     = (Raises error, failed)
  /\ (forall num_sessions w0 wa done rest tables,
        QARepeater.previous_sessions self num_sessions fuel w0
          = (Returns (inr (done ++ previous_session :: rest)%list), wa) ->
        QARepeater.replay_each self cache (QARepeater.slug_to_test cache) fuel done [] wa
          = (Returns tables, w) ->
        QARepeater.repeat_qa self cache num_sessions fuel w0 = (Raises error, failed))
  /\ (forall tests0 (w0 : World E) new_session w2,
        QARepeater.perform_session self cache tests0 w0 = (Returns new_session, w2) ->
        exists resp e0 url,
          serve_post (QARepeater.submission self cache tests0 (now_isoformat (remote_state w0)))
                     (remote_state w0) = (Returns resp, e0)
          /\ status_code resp = CREATED
          /\ log w2 = (log (after_post self cache tests0 w0 e0)
                       ++ [(clock (after_post self cache tests0 w0 e0),
                            GET (QARepeater.session self) url)])%list).
Proof.
  intros Hprev Htv Hpost Hstatus message error failed.
  assert (Hperform : QARepeater.perform_session self cache tests w1 = (Raises error, failed)).
  { unfold QARepeater.perform_session, bind, wall_clock_now, send.
    rewrite Hpost. apply Z.eqb_neq in Hstatus. rewrite Hstatus. reflexivity. }
  assert (Hreplay : QARepeater.replay self cache (QARepeater.slug_to_test cache) fuel
                      previous_session w = (Raises error, failed)).
  { unfold QARepeater.replay. rewrite bind_lift, Hprev.
    destruct (previous_calculated_returns cache _ _ Hprev) as [calc Hcalc].
    rewrite bind_lift, Hcalc.
    rewrite (bind_returns _ _ _ _ _ Htv). now apply bind_raises. }
  repeat split.
  - exact Hperform.
  - exact Hreplay.
  - intros num_sessions w0 wa done rest tables Hsessions Hdone.
    unfold QARepeater.repeat_qa. rewrite (bind_returns _ _ _ _ _ Hsessions).
    unfold QARepeater.replay_each in *. rewrite mfold_app.
    rewrite (bind_returns _ _ _ _ _ Hdone). simpl.
    apply bind_raises. now apply bind_raises.
  - intros tests0 w0 new_session w2.
    unfold QARepeater.perform_session, bind, wall_clock_now, send, raise.
    destruct (serve_post _ (remote_state w0)) as [[resp|e|] e0]; try discriminate.
    destruct (status_code resp =? CREATED) eqn:Hcreated; simpl; [| discriminate].
    destruct (json_body resp) as [[| | | | | |kv]|]; try discriminate.
    destruct (assoc "url" kv) as [[| | | |url| |]|]; try discriminate.
    destruct (serve_session _ _) as [r1 e1]. intros H. injection H as _ <-.
    exists resp, e0, url. repeat split. now apply Z.eqb_eq.
Qed.

End Refused.

(** ** The throttle *)

Section Throttle.
Context {E : Type} {remote : Remote E}.

Lemma later_refl (w : World E) : later w w.
Proof. unfold later. lia. Qed.

Lemma later_trans (w1 w2 w3 : World E) : later w1 w2 -> later w2 w3 -> later w1 w3.
Proof. unfold later. lia. Qed.

Lemma later_sleep (d : Z) : run (E:=E) later (sleep d).
Proof.
  intros w r w' H. unfold sleep in H. destruct (d <? 0) eqn:Hd; injection H as _ <-;
    unfold later; simpl; [lia |]. apply Z.ltb_ge in Hd. lia.
Qed.

Lemma later_deadline (t : Z) : run (E:=E) later (set_next_allowed t).
Proof.
  intros w r w' H. unfold set_next_allowed in H. injection H as _ <-.
  unfold later. simpl. lia.
Qed.

Lemma later_get (A : Type) (serve : request -> E -> outcome A * E) (session url : string) :
  run (E:=E) later (send serve (GET session url)).
Proof.
  intros w r w' H. unfold send in H.
  destruct (serve _ (remote_state w)) as [r0 e']. injection H as _ <-.
  unfold later. simpl. lia.
Qed.

Lemma get_api_objects_loop_step {A : Type} (serve : request -> E -> outcome (payload A) * E)
    (session : string) (all_pages : bool) (fuel : nat) (url : string) (results : list A)
    (w : World E) :
  url <> "" ->
  get_api_objects_loop serve session all_pages (S fuel) (Some url) results w =
  bind (send serve (GET session url))
       (fun payload =>
          match payload with
          | Single obj => ret (inl obj)
          | Page page next =>
              let results := (results ++ page)%list in
              let continue :=
                all_pages && match next with
                             | Some u => negb (String.eqb u "")
                             | None => false
                             end in
              if negb continue then ret (inr results)
              else sleep 1000 ;;; get_api_objects_loop serve session all_pages fuel next results
          end)
       (throttled w).
Proof.
  intros Hurl. apply String.eqb_neq in Hurl. simpl. rewrite Hurl.
  unfold bind at 1. unfold monotonic. unfold bind at 1. unfold get_next_allowed.
  unfold bind at 1.
  assert (Hsleep :
    (if clock w <? _next_allowed_api_call_time w
     then sleep (_next_allowed_api_call_time w - clock w)
     else ret tt) w
    = (Returns tt,
       {| clock := Z.max (clock w) (_next_allowed_api_call_time w);
          _next_allowed_api_call_time := _next_allowed_api_call_time w;
          remote_state := remote_state w;
          log := log w |})).
  { destruct (clock w <? _next_allowed_api_call_time w) eqn:Hlt.
    - apply Z.ltb_lt in Hlt. unfold sleep.
      replace (_next_allowed_api_call_time w - clock w <? 0) with false
        by (symmetry; apply Z.ltb_ge; lia).
      do 2 f_equal. lia.
    - apply Z.ltb_ge in Hlt. unfold ret. destruct w as [c d e l]; simpl in *.
      do 2 f_equal. lia. }
  rewrite Hsleep. unfold bind at 1. unfold set_next_allowed. reflexivity.
Qed.

(** The clock never goes back during a fetch. *)
Lemma get_api_objects_later {A : Type} (serve : request -> E -> outcome (payload A) * E)
    (session url : string) (all_pages : bool) (fuel : nat) :
  run (E:=E) later (get_api_objects serve session url all_pages fuel).
Proof.
  apply run_get_api_objects.
  - apply later_refl.
  - apply later_trans.
  - apply later_sleep.
  - apply later_deadline.
  - apply later_get.
Qed.

(** A pass that had to sleep dispatches its request at the old deadline
    and leaves a deadline that is less than the interval away. *)
Lemma throttled_after_sleep (w : World E) :
  clock w < _next_allowed_api_call_time w ->
  clock (throttled w) = _next_allowed_api_call_time w
  /\ _next_allowed_api_call_time (throttled w) < clock (throttled w) + API_SLEEP_TIME_S.
Proof. intros H. unfold throttled. simpl. lia. Qed.

Lemma bind_send {A B : Type} (serve : request -> E -> outcome A * E) (rq : request)
    (k : A -> M E B) (w : World E) :
  bind (send serve rq) k w =
  match serve rq (remote_state w) with
  | (Returns a, e') => k a (dispatched rq w e')
  | (Raises e, e') => (Raises e, dispatched rq w e')
  | (OutOfFuel, e') => (OutOfFuel, dispatched rq w e')
  end.
Proof.
  unfold bind, send. destruct (serve rq (remote_state w)) as [[a|e|] e']; reflexivity.
Qed.


End Throttle.


(* ================================================================= *)
(** * Further properties *)

(** ** Object ids and paths *)

Section Slashes.
Variable c : ascii.

Lemma split_segments_lack (s : string) : Forall (fun seg => lacks c seg = true) (split c s).
Proof.
  induction s as [|a s IH]; simpl; [repeat constructor |].
  destruct (Ascii.eqb a c) eqn:Ha; [constructor; [reflexivity | exact IH] |].
  destruct (split c s) as [|h t]; [repeat constructor; simpl; now rewrite Ha |].
  inversion IH as [|? ? Hh Ht]; subst. constructor; [| exact Ht].
  simpl. now rewrite Ha, Hh.
Qed.

Lemma last_forall {A : Type} (P : A -> Prop) (l : list A) (d : A) :
  P d -> Forall P l -> P (last l d).
Proof.
  intros Hd. induction l as [|x l IH]; intros H; [exact Hd |].
  inversion H as [|? ? Hx Hl]; subst. destruct l as [|y l]; [exact Hx |].
  now apply IH.
Qed.

Lemma lstrip_chars (s : string) (n : nat) : lstrip c (chars c n ++ s) = lstrip c s.
Proof. induction n as [|n IH]; simpl; [reflexivity |]. now rewrite Ascii.eqb_refl. Qed.

Lemma strip_around (s : string) (m n : nat) :
  strip c (chars c m ++ s ++ chars c n) = strip c s.
Proof.
  rewrite <- append_assoc3, strip_chars. unfold strip. now rewrite lstrip_chars.
Qed.

Lemma strip_lacks (s : string) : lacks c s = true -> strip c s = s.
Proof.
  intros H. unfold strip. rewrite lstrip_lacks by assumption.
  destruct s as [|a s]; [reflexivity |]. apply rstrip_lacks; [discriminate | exact H].
Qed.

End Slashes.

(** X1. The object id of a URL never contains a slash; slashes before
    and after the URL do not change it; and a URL without any slash is
    its own object id. *)
Theorem object_id_is_a_segment (url : string) :
  lacks "/" (object_id_from_url url) = true
  /\ (forall m n : nat,
        object_id_from_url (chars "/" m ++ url ++ chars "/" n) = object_id_from_url url)
  /\ (lacks "/" url = true -> object_id_from_url url = url).
Proof.
  unfold object_id_from_url. repeat split.
  - apply (last_forall (fun seg => lacks "/" seg = true)); [reflexivity |].
    apply split_segments_lack.
  - intros m n. now rewrite strip_around.
  - intros H. rewrite strip_lacks by assumption. now rewrite split_lacks.
Qed.

Section Paths.
Context {rt : PyRuntime} {E : Type} {remote : Remote E}.

(** X2. The slashes around a path do not matter to the method
    [get_api_objects]: the request goes to the root followed by the path
    without them, so that a path written with a trailing slash is
    requested without it. *)
Theorem path_slashes_are_dropped {A : Type} (self : QARepeater.t)
    (serve : request -> E -> outcome (payload A) * E)
    (path : string) (m n : nat) (all_pages : bool) (fuel : nat) (w : World E) :
  QARepeater.get_api_objects self serve (chars "/" m ++ path ++ chars "/" n) all_pages fuel w
  = QARepeater.get_api_objects self serve path all_pages fuel w
  /\ QARepeater.get_api_objects self serve path all_pages fuel w
     = get_api_objects serve (QARepeater.session self)
         (urlnorm (QARepeater.root self ++ strip "/" path)) all_pages fuel w
  /\ endswith (strip "/" path) "/" = false.
Proof.
  unfold QARepeater.get_api_objects. rewrite strip_around. repeat split.
  destruct (endswith (strip "/" path) "/") eqn:H; [| reflexivity].
  apply endswith_spec in H. destruct H as [p Hp]. unfold strip in Hp.
  now apply rstrip_no_trailing in Hp.
Qed.

End Paths.

(** ** Errors of decoding *)

Section DecodingErrors.
Context {rt : PyRuntime}.


(** On objects that have every key, the decoding is that of the records. *)
Lemma raw_get_testinstance_value (test : Test) (test_instance : TestInstance) :
  Raw.get_testinstance_value (Raw.test test) (Raw.test_instance test_instance)
  = get_testinstance_value test test_instance.
Proof.
  unfold Raw.get_testinstance_value, get_testinstance_value, getitem, Raw.among, str_in.
  cbn [Raw.test Raw.test_instance dict_get assoc String.eqb Ascii.eqb Bool.eqb obind].
  change (dict_get (Raw.test_instance test_instance) "skipped")
    with (Some (ti_skipped test_instance)).
  cbn [obind]. destruct (truthy (ti_skipped test_instance)); [reflexivity |].
  change (dict_get (Raw.test test) "type") with (Some (PStr (t_type test))).
  cbn [obind py_eq].
  destruct (String.eqb (t_type test) "simple") eqn:Hs.
  - change (dict_get (Raw.test test) "statistic") with (Some (t_statistic test)).
    cbn [obind andb]. destruct (truthy (t_statistic test)); [reflexivity |].
    cbn [existsb py_eq]. rewrite Hs. reflexivity.
  - cbn [obind andb existsb py_eq].
    repeat match goal with
           | |- context [if ?b then _ else _] => destruct b
           end; reflexivity.
Qed.




End DecodingErrors.

(** ** The decoded mapping *)

Section OFoldRaises.
Context {A B : Type} (body : B -> A -> outcome B).

Lemma ofold_raises_inversion (xs : list A) (acc : B) (e : exn) :
  ofold body xs acc = Raises e -> exists x acc', In x xs /\ body acc' x = Raises e.
Proof.
  revert acc. induction xs as [|x xs IH]; simpl; intros acc H; [discriminate |].
  destruct (body acc x) as [acc'|e'|] eqn:Hb; simpl in H.
  - destruct (IH _ H) as (y & a & Hy & Ha). exists y, a. split; [now right | exact Ha].
  - injection H as ->. exists x, acc. split; [now left | exact Hb].
  - discriminate.
Qed.

End OFoldRaises.

Lemma dict_set_length {V : Type} (d : dict V) (k : string) (v : V) :
  (List.length (dict_set d k v) <= S (List.length d))%nat.
Proof.
  induction d as [|[k' v'] d IH]; simpl; [lia |].
  destruct (String.eqb k' k); simpl; lia.
Qed.

Section DecodedMapping.
Context {rt : PyRuntime}.

Lemma resolve_in_tests (cache : QARepeater.cached) (test_instance : TestInstance) (test : Test) :
  resolve cache test_instance = Some test -> In test (QARepeater.tests cache).
Proof.
  unfold resolve. destruct (dict_get _ (ti_unit_test_info test_instance)) as [u|]; [| discriminate].
  intros H. apply dict_comp_get in H. now destruct H as (t & Ht & _ & <-).
Qed.

(** The body of the loop of [results_from_session]. *)
Let decode (cache : QARepeater.cached) :=
  fun (results : dict pyval) (test_instance : TestInstance) =>
    let? test_url := getitem (dict_comp uti_url uti_test (QARepeater.unit_test_infos cache))
                             (ti_unit_test_info test_instance) in
    let? test := getitem (dict_comp t_url (fun t => t) (QARepeater.tests cache)) test_url in
    let? value := get_testinstance_value test test_instance in
    Returns (dict_set results (t_slug test) value).

Lemma decode_returns cache results test_instance results' :
  decode cache results test_instance = Returns results' <->
  exists test value,
    resolve cache test_instance = Some test
    /\ get_testinstance_value test test_instance = Returns value
    /\ results' = dict_set results (t_slug test) value.
Proof.
  unfold decode, resolve, getitem.
  destruct (dict_get _ (ti_unit_test_info test_instance)) as [u|]; simpl.
  - destruct (dict_get _ u) as [t|]; simpl.
    + destruct (get_testinstance_value t test_instance) as [v| |] eqn:Hv; simpl.
      * split.
        -- intros [= <-]. now exists t, v.
        -- intros (t' & v' & [= <-] & Hv' & ->). rewrite Hv in Hv'. now injection Hv' as <-.
      * split; [discriminate |]. intros (t' & v' & [= <-] & Hv' & _). congruence.
      * split; [discriminate |]. intros (t' & v' & [= <-] & Hv' & _). congruence.
    + split; [discriminate |]. intros (t' & v' & Hr & _). discriminate.
  - split; [discriminate |]. intros (t' & v' & Hr & _). discriminate.
Qed.

Lemma decode_fold (cache : QARepeater.cached) (xs : list TestInstance)
    (acc results : dict pyval) :
  ofold (decode cache) xs acc = Returns results ->
  (forall k, In k (dict_keys results) <->
             In k (dict_keys acc)
             \/ exists test_instance test,
                  In test_instance xs /\ resolve cache test_instance = Some test
                  /\ t_slug test = k)
  /\ (List.length results <= List.length acc + List.length xs)%nat
  /\ (forall test_instance, In test_instance xs ->
        exists test value, resolve cache test_instance = Some test
                           /\ get_testinstance_value test test_instance = Returns value).
Proof.
  revert acc. induction xs as [|x xs IH]; simpl; intros acc H.
  - injection H as <-. repeat split; try tauto; try lia.
    intros [Hk | (ti & t & [] & _)]. exact Hk.
  - destruct (decode cache acc x) as [acc'| |] eqn:Hstep; simpl in H; try discriminate.
    apply decode_returns in Hstep. destruct Hstep as (test & v & Hres & Hv & ->).
    apply IH in H. destruct H as (Hkeys & Hlen & Hall). repeat split.
    + intros Hk. apply Hkeys in Hk. destruct Hk as [Hk | (ti & t & Hin & Hr & Hs)].
      * apply dict_keys_set in Hk. destruct Hk as [-> | Hk]; [| now left].
        right. exists x, test. auto.
      * right. exists ti, t. auto.
    + intros [Hk | (ti & t & [<- | Hin] & Hr & Hs)]; apply Hkeys.
      * left. apply dict_keys_set. now right.
      * left. apply dict_keys_set. left. congruence.
      * right. exists ti, t. auto.
    + pose proof (dict_set_length acc (t_slug test) v). lia.
    + intros ti [<- | Hin]; [now exists test, v | now apply Hall].
Qed.

(** X5. When a session decodes, the keys of the mapping are exactly the
    slugs of the tests its instances were performed for, there are at
    most as many as instances, and every instance belongs to a test of
    the list and decodes without an exception. *)
Theorem decoded_keys_are_performed_tests (cache : QARepeater.cached)
    (qa_session : QASession) (results : dict pyval) :
  QARepeater.results_from_session cache qa_session = Returns results ->
  (forall k, In k (dict_keys results) <->
             exists test_instance test,
               In test_instance (s_test_instances qa_session)
               /\ resolve cache test_instance = Some test /\ t_slug test = k)
  /\ (List.length results <= List.length (s_test_instances qa_session))%nat
  /\ (forall test_instance, In test_instance (s_test_instances qa_session) ->
        exists test value, resolve cache test_instance = Some test
                           /\ In test (QARepeater.tests cache)
                           /\ get_testinstance_value test test_instance = Returns value).
Proof.
  unfold QARepeater.results_from_session. intros H.
  apply (decode_fold cache) in H. destruct H as (Hkeys & Hlen & Hall). repeat split.
  - intros Hk. apply Hkeys in Hk. destruct Hk as [[] | Hk]. exact Hk.
  - intros Hk. apply Hkeys. now right.
  - exact Hlen.
  - intros ti Hin. destruct (Hall ti Hin) as (test & v & Hr & Hv).
    exists test, v. repeat split; try assumption. eapply resolve_in_tests; eauto.
Qed.

(** X6. When a session holds several instances of one test, the value
    decoded for its slug is that of the last of them. *)
Theorem last_instance_decides (cache : QARepeater.cached) (qa_session : QASession)
    (results : dict pyval) (before after : list TestInstance)
    (test_instance : TestInstance) (test : Test) :
  QARepeater.results_from_session cache qa_session = Returns results ->
  s_test_instances qa_session = (before ++ test_instance :: after)%list ->
  resolve cache test_instance = Some test ->
  (forall other test', In other after -> resolve cache other = Some test' ->
                       t_slug test' <> t_slug test) ->
  exists value,
    get_testinstance_value test test_instance = Returns value
    /\ dict_get results (t_slug test) = Some value.
Proof.
  unfold QARepeater.results_from_session. intros H Hinst Hres Hafter.
  change (ofold (decode cache) (s_test_instances qa_session) [] = Returns results) in H.
  rewrite Hinst, ofold_app in H.
  destruct (ofold (decode cache) before []) as [acc| |]; simpl in H; try discriminate.
  destruct (decode cache acc test_instance) as [acc'| |] eqn:Hstep; simpl in H;
    try discriminate.
  apply decode_returns in Hstep. destruct Hstep as (t & v & Hr & Hv & ->).
  rewrite Hres in Hr. injection Hr as <-.
  exists v. split; [exact Hv |].
  revert H. apply (ofold_invariant (decode cache)
                     (fun d => dict_get d (t_slug test) = Some v)).
  - apply dict_get_set_eq.
  - intros d x d' Hx Hd Hstep. apply decode_returns in Hstep.
    destruct Hstep as (t' & v' & Hr' & _ & ->).
    rewrite dict_get_set_ne; [exact Hd |]. eapply Hafter; eauto.
Qed.

End DecodedMapping.

(** ** The comparison table *)

Section Table.

Lemma table_fold_shape (cache : QARepeater.cached) (new_results : dict pyval)
    (items : dict pyval) (acc : QARepeater.table) :
  (forall k, In k (dict_keys items) -> In k (map t_slug (QARepeater.tests cache))) ->
  exists rows,
    ofold (fun table '(slug, prev_val) =>
             let? test := getitem (QARepeater.slug_to_test cache) slug in
             let new_val := match dict_get new_results slug with
                            | Some v => v
                            | None => PStr ""
                            end in
             Returns (table ++ [[PStr (t_name test); prev_val; new_val;
                                 PStr (str_of_bool (py_eq prev_val new_val))]])%list)
          items acc = Returns (acc ++ rows)%list
    /\ Forall2 (fun item row =>
                  exists test,
                    dict_get (QARepeater.slug_to_test cache) (fst item) = Some test
                    /\ In test (QARepeater.tests cache)
                    /\ t_slug test = fst item
                    /\ row = comparison_row test (snd item) (new_value new_results (fst item)))
               items rows.
Proof.
  revert acc. induction items as [|[slug v] items IH]; simpl; intros acc Hkeys.
  - exists []. split; [now rewrite app_nil_r | constructor].
  - assert (Hslug : In slug (map t_slug (QARepeater.tests cache))) by (apply Hkeys; now left).
    apply (dict_comp_keys t_slug (fun t => t)) in Hslug.
    apply dict_get_some_key in Hslug. destruct Hslug as [test Htest].
    unfold getitem at 1. fold (QARepeater.slug_to_test cache) in Htest.
    rewrite Htest. simpl.
    destruct (IH (acc ++ [comparison_row test v (new_value new_results slug)])%list)
      as (rows & Hrows & Hall).
    { intros k Hk. apply Hkeys. now right. }
    exists (comparison_row test v (new_value new_results slug) :: rows). split.
    + unfold comparison_row, new_value in *. rewrite Hrows, <- app_assoc. reflexivity.
    + constructor; [| exact Hall].
      exists test. destruct (slug_to_test_get _ _ _ Htest) as [Hin Hs]. auto.
Qed.

(** X7. When every decoded slug is the slug of a test of the list, as
    for a mapping that [results_from_session] returned, the comparison
    table is the five header rows followed by one row for each decoded
    slug, in the order of the mapping: the name of the test with that
    slug, the previous value, the new value, or the empty string when the
    new session has no value for the slug, and whether the two are
    equal. *)
Theorem comparison_table_shape (cache : QARepeater.cached)
    (previous_session new_session : QASession)
    (previous_results new_results : dict pyval) :
  (forall k, In k (dict_keys previous_results) ->
             In k (map t_slug (QARepeater.tests cache))) ->
  exists rows,
    QARepeater.generate_results_table cache previous_session previous_results
      new_session new_results
    = Returns (table_header previous_session new_session ++ rows)%list
    /\ Forall2 (fun item row =>
                  exists test,
                    dict_get (QARepeater.slug_to_test cache) (fst item) = Some test
                    /\ In test (QARepeater.tests cache)
                    /\ t_slug test = fst item
                    /\ row = comparison_row test (snd item) (new_value new_results (fst item)))
               previous_results rows.
Proof.
  intros Hkeys. unfold QARepeater.generate_results_table.
  now apply table_fold_shape.
Qed.

End Table.

(** ** Pagination *)

Section Pagination.
Context {E : Type} {remote : Remote E}.

Lemma pages_collected {A : Type} (serve : request -> E -> outcome (payload A) * E)
    (session : string) (e : E) (url : string) (pages : list (list A)) (e' : E) :
  pages_from serve session e url pages e' ->
  forall (fuel : nat) (results : list A) (w : World E),
    remote_state w = e ->
    (List.length pages <= fuel)%nat ->
    exists w',
      get_api_objects_loop serve session true fuel (Some url) results w
      = (Returns (inr (results ++ List.concat pages)%list), w')
      /\ remote_state w' = e'
      /\ List.length (log w') = (List.length (log w) + List.length pages)%nat.
Proof.
  induction 1 as [e url page next e' Hurl Hserve Hnext
                 | e url page next e1 pages e' Hurl Hserve Hrest IH];
    intros fuel results w He Hfuel; (destruct fuel as [|fuel]; [simpl in Hfuel; lia |]).
  - rewrite get_api_objects_loop_step by assumption. rewrite bind_send.
    cbn [throttled remote_state]. rewrite He, Hserve.
    eexists. split; [| split].
    + destruct Hnext as [-> | ->]; simpl; rewrite app_nil_r; reflexivity.
    + reflexivity.
    + simpl. rewrite length_app. simpl. lia.
  - assert (Hnext : next <> "") by (inversion Hrest; assumption).
    rewrite get_api_objects_loop_step by assumption. rewrite bind_send.
    cbn [throttled remote_state]. rewrite He, Hserve.
    apply String.eqb_neq in Hnext as Hneq. cbn zeta. rewrite Hneq. cbn [negb andb].
    unfold bind at 1. unfold sleep at 1. change (1000 <? 0) with false. cbn iota.
    match goal with
    | |- context [get_api_objects_loop serve session true fuel (Some next) ?rs ?w2] =>
        destruct (IH fuel rs w2 eq_refl) as (w' & Hrun & Hstate & Hlog);
        [simpl in Hfuel; lia |]
    end.
    exists w'. split; [| split].
    + rewrite Hrun. simpl. now rewrite <- app_assoc.
    + exact Hstate.
    + rewrite Hlog. simpl. rewrite length_app. simpl. lia.
Qed.

(** X8. When the service answers with a chain of pages, each linked from
    the one before by [next], a fetch of all pages that may make as many
    requests as there are pages returns the results of the pages one
    after the other, makes one request for each page, and leaves the
    service as the last page left it. *)
Theorem all_pages_are_collected {A : Type}
    (serve : request -> E -> outcome (payload A) * E)
    (session url : string) (pages : list (list A)) (e' : E) (fuel : nat) (w : World E) :
  pages_from serve session (remote_state w) url pages e' ->
  (List.length pages <= fuel)%nat ->
  exists w',
    get_api_objects serve session url true fuel w = (Returns (inr (List.concat pages)), w')
    /\ remote_state w' = e'
    /\ List.length (log w') = (List.length (log w) + List.length pages)%nat.
Proof.
  intros Hpages Hfuel. unfold get_api_objects.
  destruct (pages_collected serve session _ url pages e' Hpages fuel [] w eq_refl Hfuel)
    as (w' & Hrun & Hrest).
  exists w'. split; [exact Hrun | exact Hrest].
Qed.

End Pagination.

(** ** One page *)

Lemma uint_digits_lack_slash (d : Decimal.uint) :
  lacks "/" (DecimalString.NilEmpty.string_of_uint d) = true.
Proof. induction d; simpl; auto. Qed.

Lemma str_of_int_lacks_slash (n : Z) : lacks "/" (str_of_int n) = true /\ str_of_int n <> "".
Proof.
  unfold str_of_int, DecimalString.NilZero.string_of_int, DecimalString.NilZero.string_of_uint.
  destruct (Z.to_int n) as [d | d]; split;
    destruct d; simpl; try discriminate; try reflexivity; apply uint_digits_lack_slash.
Qed.

Section OnePage.
Context {rt : PyRuntime} {E : Type} {remote : Remote E}.

(** A fetch that does not follow pages makes one request and returns what
    the first answer holds. *)
Lemma first_page_only {A : Type} (serve : request -> E -> outcome (payload A) * E)
    (session url : string) (fuel : nat) (w : World E) :
  url <> "" -> fuel <> O ->
  get_api_objects serve session url false fuel w =
  let rq := GET session url in
  match serve rq (remote_state w) with
  | (Returns (Single obj), e') => (Returns (inl obj), dispatched rq (throttled w) e')
  | (Returns (Page page _), e') => (Returns (inr page), dispatched rq (throttled w) e')
  | (Raises e, e') => (Raises e, dispatched rq (throttled w) e')
  | (OutOfFuel, e') => (OutOfFuel, dispatched rq (throttled w) e')
  end.
Proof.
  intros Hurl Hfuel. destruct fuel as [|fuel]; [congruence |].
  unfold get_api_objects. rewrite get_api_objects_loop_step by assumption.
  rewrite bind_send. cbn [throttled remote_state]. cbn zeta.
  destruct (serve (GET session url) (remote_state w)) as [[[obj | page next]| |] e'];
    reflexivity.
Qed.

(** X9. [previous_sessions] makes exactly one request, to the list of
    sessions of the assignment, most recent first and limited to the
    number asked for, and returns the first page of the answer: a [next]
    link is not followed. *)
Theorem previous_sessions_asks_once (self : QARepeater.t) (num_previous_instances : Z)
    (fuel : nat) (w : World E) :
  let url := urlnorm (QARepeater.root self
                      ++ "qa/testlistinstances/?ordering=-work_completed&unit_test_collection="
                      ++ str_of_int (QARepeater.assignment_id self)
                      ++ "&limit=" ++ str_of_int num_previous_instances) in
  let rq := GET (QARepeater.session self) url in
  url <> "" -> fuel <> O ->
  QARepeater.previous_sessions self num_previous_instances fuel w =
  match serve_sessions rq (remote_state w) with
  | (Returns (Single obj), e') => (Returns (inl obj), dispatched rq (throttled w) e')
  | (Returns (Page page _), e') => (Returns (inr page), dispatched rq (throttled w) e')
  | (Raises e, e') => (Raises e, dispatched rq (throttled w) e')
  | (OutOfFuel, e') => (OutOfFuel, dispatched rq (throttled w) e')
  end.
Proof.
  intros url rq Hurl Hfuel.
  unfold QARepeater.previous_sessions, QARepeater.get_api_objects.
  assert (Hpath :
    strip "/" ("qa/testlistinstances/" ++ "?ordering=-work_completed"
               ++ "&unit_test_collection=" ++ str_of_int (QARepeater.assignment_id self)
               ++ "&limit=" ++ str_of_int num_previous_instances)
    = "qa/testlistinstances/?ordering=-work_completed&unit_test_collection="
      ++ str_of_int (QARepeater.assignment_id self)
      ++ "&limit=" ++ str_of_int num_previous_instances).
  { destruct (str_of_int_lacks_slash num_previous_instances) as [Hl Hne].
    replace ("qa/testlistinstances/" ++ "?ordering=-work_completed"
             ++ "&unit_test_collection=" ++ str_of_int (QARepeater.assignment_id self)
             ++ "&limit=" ++ str_of_int num_previous_instances)
      with (("qa/testlistinstances/?ordering=-work_completed&unit_test_collection="
             ++ str_of_int (QARepeater.assignment_id self) ++ "&limit=")
            ++ str_of_int num_previous_instances)
      by (rewrite !append_assoc3; reflexivity).
    unfold strip.
    replace (lstrip "/" (("qa/testlistinstances/?ordering=-work_completed&unit_test_collection="
                          ++ str_of_int (QARepeater.assignment_id self) ++ "&limit=")
                         ++ str_of_int num_previous_instances))
      with (("qa/testlistinstances/?ordering=-work_completed&unit_test_collection="
             ++ str_of_int (QARepeater.assignment_id self) ++ "&limit=")
            ++ str_of_int num_previous_instances)
      by reflexivity.
    rewrite (rstrip_append_lacks "/" _ _ Hne Hl).
    rewrite !append_assoc3. reflexivity. }
  rewrite Hpath. now apply first_page_only.
Qed.

End OnePage.

(** ** What the throttle does ensure *)

Lemma spaced_cons (d t : Z) (ts : list Z) :
  Forall (fun x => t + d <= x) ts -> spaced d ts -> spaced d (t :: ts).
Proof.
  destruct ts as [|t2 ts]; simpl; [trivial |].
  intros Hall Hsp. inversion Hall; subst. split; [lia | exact Hsp].
Qed.


Section Spacing.
Context {E : Type} {remote : Remote E}.

Lemma spacing_idle (w : World E) :
  exists new,
    log w = (log w ++ new)%list
    /\ spaced 1000 (dispatch_times new)
    /\ Forall (fun t => Z.max (clock w) (_next_allowed_api_call_time w) <= t
                        /\ t <= clock w)
              (dispatch_times new)
    /\ clock w <= clock w.
Proof.
  exists []. rewrite app_nil_r.
  split; [reflexivity | split; [exact I | split; [constructor | lia]]].
Qed.

Lemma bind_sleep_second {B : Type} (k : unit -> M E B) (w : World E) :
  bind (sleep 1000) k w =
  k tt {| clock := clock w + 1000;
          _next_allowed_api_call_time := _next_allowed_api_call_time w;
          remote_state := remote_state w;
          log := log w |}.
Proof. reflexivity. Qed.

Lemma get_api_objects_loop_spacing {A : Type}
    (serve : request -> E -> outcome (payload A) * E) (session : string)
    (all_pages : bool) (fuel : nat) :
  forall (next_page : option string) (results : list A) (w : World E),
    let w' := snd (get_api_objects_loop serve session all_pages fuel next_page results w) in
    exists new,
      log w' = (log w ++ new)%list
      /\ spaced 1000 (dispatch_times new)
      /\ Forall (fun t => Z.max (clock w) (_next_allowed_api_call_time w) <= t
                          /\ t <= clock w')
                (dispatch_times new)
      /\ clock w <= clock w'.
Proof.
  induction fuel as [|fuel IH]; intros next_page results w; cbn zeta.
  - destruct next_page as [url|]; simpl; [destruct (String.eqb url "") |];
      apply spacing_idle.
  - destruct next_page as [url|]; [| apply spacing_idle].
    destruct (String.eqb_spec url "") as [-> | Hurl]; [apply spacing_idle |].
    rewrite get_api_objects_loop_step by assumption. rewrite bind_send.
    set (t := Z.max (clock w) (_next_allowed_api_call_time w)).
    assert (Hone : forall e', let w1 := dispatched (GET session url) (throttled w) e' in
              log w1 = (log w ++ [(t, GET session url)])%list
              /\ spaced 1000 (dispatch_times [(t, GET session url)])
              /\ Forall (fun x => t <= x /\ x <= clock w1)
                        (dispatch_times [(t, GET session url)])
              /\ clock w <= clock w1).
    { intros e'. simpl. fold t.
      split; [reflexivity | split; [exact I | split; [| lia]]].
      constructor; [lia | constructor]. }
    destruct (serve (GET session url) (remote_state (throttled w)))
      as [[[obj | page next]|e|] e'];
      try (exists [(t, GET session url)]; apply Hone).
    cbn zeta. destruct (negb _) eqn:Hcont;
      [exists [(t, GET session url)]; apply Hone |].
    rewrite bind_sleep_second.
    match goal with
    | |- context [get_api_objects_loop serve session all_pages fuel next ?rs ?w2] =>
        destruct (IH next rs w2) as (new & Hlog & Hsp & Hall & Hclock);
        destruct (get_api_objects_loop serve session all_pages fuel next rs w2) as [r w3]
    end.
    simpl in Hlog, Hall, Hclock |- *. fold t in Hlog, Hall, Hclock.
    exists ((t, GET session url) :: new). split; [| split; [| split]].
    + rewrite Hlog, <- app_assoc. reflexivity.
    + simpl. apply spaced_cons; [| exact Hsp].
      eapply Forall_impl; [| exact Hall]. simpl. intros x [Hx _]. lia.
    + simpl. constructor; [lia |].
      eapply Forall_impl; [| exact Hall]. simpl. intros x [Hx Hx']. lia.
    + subst t. lia.
Qed.

(** X10. The requests of one call of [get_api_objects] are dispatched at
    least a second apart, none of them before the deadline that the call
    found, and the clock does not go back. *)
Theorem pages_are_fetched_a_second_apart {A : Type}
    (serve : request -> E -> outcome (payload A) * E) (session url : string)
    (all_pages : bool) (fuel : nat) (w : World E) :
  let w' := snd (get_api_objects serve session url all_pages fuel w) in
  exists new,
    log w' = (log w ++ new)%list
    /\ spaced 1000 (dispatch_times new)
    /\ Forall (fun t => Z.max (clock w) (_next_allowed_api_call_time w) <= t /\ t <= clock w')
              (dispatch_times new)
    /\ clock w <= clock w'.
Proof. apply get_api_objects_loop_spacing. Qed.





End Spacing.

(** ** Two clients in one process *)

Section Instances.
Context {rt : PyRuntime} {E : Type} {remote : Remote E}.


End Instances.


(** ** The constructor and the probe *)

Section Probe.
Context {rt : PyRuntime} {E : Type} {remote : Remote E}.

(** X12. The constructor makes no request when the URL has the wrong
    shape.  It returns the client only when the probe of the root
    returned a JSON object with the key [qa], and the client then has a
    root ending in [/api/] and the token as its header.  Whatever goes
    wrong with the probe, the exception it raises is one of its two
    [ValueError]s. *)
Theorem constructor_outcomes (api_key api_url : string) (assignment_id : Z) (fuel : nat)
    (w : World E) :
  let result := QARepeater.__init__ api_key api_url assignment_id fuel w in
  (endswith (strip "/" api_url) "/api" = false ->
   result = (Raises (ValueError QARepeater.INVALID_URL), w))
  /\ (forall self, fst result = Returns self ->
        self = QARepeater.attrs api_key api_url assignment_id
        /\ endswith (QARepeater.root self) "/api/" = true
        /\ QARepeater.session self = "Token " ++ api_key
        /\ exists kv v,
             QARepeater.get_api_objects self serve_index "" true fuel w
             = (Returns (inl (PDict kv)), snd result)
             /\ assoc "qa" kv = Some v)
  /\ (forall e, fst result = Raises e ->
        e = ValueError QARepeater.INVALID_URL
        \/ e = ValueError QARepeater.UNABLE_TO_CONTACT).
Proof.
  cbn zeta. unfold QARepeater.__init__.
  assert (Hshape : endswith (QARepeater.root (QARepeater.attrs api_key api_url assignment_id))
                            "/api/"
                   = endswith (strip "/" api_url) "/api").
  { cbn [QARepeater.attrs QARepeater.root]. change "/api/" with ("/api" ++ "/").
    apply endswith_append. }
  rewrite Hshape.
  destruct (endswith (strip "/" api_url) "/api") eqn:Hs; simpl.
  - split; [discriminate |].
    destruct (QARepeater.get_api_objects _ serve_index "" true fuel w)
      as [[[obj|l]|e|] w'] eqn:Hprobe; simpl.
    + destruct obj as [| | | | | |kv]; simpl;
        try (split; [discriminate | intros e [= <-]; now right]).
      destruct (assoc "qa" kv) as [v|] eqn:Hqa; simpl.
      * split; [| discriminate]. intros self [= <-].
        repeat split; [now rewrite Hshape |]. now exists kv, v.
      * split; [discriminate | intros e [= <-]; now right].
    + split; [discriminate | intros e [= <-]; now right].
    + split; [discriminate | intros e0 [= <-]; now right].
    + split; discriminate.
  - split; [reflexivity |]. split; [discriminate |]. intros e [= <-]. now left.
Qed.

End Probe.

(** ** The requests of a replay *)

Section Requests.
Context {rt : PyRuntime} {E : Type} {remote : Remote E}.

Lemma mfold_pure {A B : Type} (body : B -> A -> M E B) (xs : list A) (acc : B) :
  (forall acc x, In x xs -> exists acc', forall w, body acc x w = (Returns acc', w)) ->
  exists r, forall w, mfold body xs acc w = (Returns r, w).
Proof.
  revert acc. induction xs as [|x xs IH]; simpl; intros acc Hb; [now exists acc |].
  destruct (Hb acc x (or_introl eq_refl)) as [acc' Hacc'].
  destruct (IH acc') as [r Hr]; [intros a y Hy; apply Hb; now right |].
  exists r. intros w. unfold bind. now rewrite Hacc', Hr.
Qed.

(** Without an upload test the second loop reads the decoded values only. *)
Lemma test_values_without_uploads (self : QARepeater.t) (cache : QARepeater.cached)
    (fuel : nat) (previous_results : dict pyval) :
  (forall t, In t (QARepeater.tests cache) -> t_type t <> "upload") ->
  (forall k, In k (dict_keys previous_results) ->
             In k (map t_slug (QARepeater.tests cache))) ->
  exists tests, forall w : World E,
    QARepeater.test_values self cache (QARepeater.slug_to_test cache) previous_results fuel w
    = (Returns tests, w).
Proof.
  intros Hup Hkeys. unfold QARepeater.test_values. apply mfold_pure.
  intros acc [slug value] Hin. apply dict_in_keys, Hkeys in Hin.
  apply (dict_comp_keys t_slug (fun t => t)) in Hin.
  apply dict_get_some_key in Hin. destruct Hin as [test Htest].
  fold (QARepeater.slug_to_test cache) in Htest.
  destruct (slug_to_test_get _ _ _ Htest) as [Hin _].
  unfold QARepeater.set_test_value. unfold getitem. rewrite Htest.
  destruct (QARepeater.is_calculated test || is_none value) eqn:Hskip.
  - exists acc. intros w. unfold bind, lift. now rewrite Hskip.
  - apply Hup, String.eqb_neq in Hin.
    eexists. intros w. unfold bind, lift. rewrite Hskip, Hin. reflexivity.
Qed.

(** Every run of [perform_session] dispatches the POST first, and at most
    one request after it. *)
Lemma perform_session_log (self : QARepeater.t) (cache : QARepeater.cached)
    (tests : dict entry) (w : World E) r w' :
  QARepeater.perform_session self cache tests w = (r, w') ->
  exists rest,
    log w' = (log w ++ (clock w, QARepeater.submission self cache tests
                                   (now_isoformat (remote_state w))) :: rest)%list
    /\ (List.length rest <= 1)%nat.
Proof.
  unfold QARepeater.perform_session, bind, wall_clock_now, send, raise.
  destruct (serve_post _ (remote_state w)) as [[response|e|] e'];
    cbn [log]; intros H;
    try (injection H as _ <-; exists []; split; [reflexivity | simpl; lia]).
  destruct (negb _); [injection H as _ <-; exists []; split; [reflexivity | simpl; lia] |].
  destruct (json_body response) as [[| | | | | |kv]|];
    try (injection H as _ <-; exists []; split; [reflexivity | simpl; lia]).
  destruct (assoc "url" kv) as [[| | | |url| |]|];
    try (injection H as _ <-; exists []; split; [reflexivity | simpl; lia]).
  destruct (serve_session _ _) as [r1 e1]. injection H as _ <-. cbn [log].
  eexists [_]. split; [now rewrite <- app_assoc | simpl; lia].
Qed.

(** On a test list without upload tests the second loop makes no
    request, so that the POST is the first request of a replay. *)
Lemma replay_without_uploads_cached (self : QARepeater.t) (cache : QARepeater.cached)
    (fuel : nat) (previous_session : QASession) (previous_results : dict pyval) :
  (forall t, In t (QARepeater.tests cache) -> t_type t <> "upload") ->
  QARepeater.results_from_session cache previous_session = Returns previous_results ->
  exists tests,
    (forall w : World E,
        QARepeater.test_values self cache (QARepeater.slug_to_test cache)
          previous_results fuel w = (Returns tests, w))
    /\ forall (w : World E) r w',
         QARepeater.replay self cache (QARepeater.slug_to_test cache) fuel
           previous_session w = (r, w') ->
         exists rest,
           log w' = (log w ++ (clock w, QARepeater.submission self cache tests
                                          (now_isoformat (remote_state w))) :: rest)%list
           /\ (List.length rest <= 1)%nat.
Proof.
  intros Hup Hprev.
  destruct (results_from_session_keys _ _ _ Hprev) as [_ Hkeys].
  destruct (test_values_without_uploads self cache fuel previous_results Hup Hkeys)
    as [tests Htests].
  exists tests. split; [exact Htests |].
  intros w r w' H. unfold QARepeater.replay in H.
  rewrite bind_lift, Hprev in H.
  destruct (previous_calculated_returns cache _ _ Hprev) as [calc Hcalc].
  rewrite bind_lift, Hcalc in H.
  rewrite (bind_returns _ _ _ _ _ (Htests w)) in H.
  unfold bind at 1 in H.
  destruct (QARepeater.perform_session self cache tests w) as [[ns|e|] w2] eqn:Hperf;
    apply perform_session_log in Hperf.
  - assert (w' = w2) as ->; [| exact Hperf].
    rewrite bind_lift in H.
    destruct (QARepeater.results_from_session cache ns); now injection H as _ <-.
  - injection H as _ <-. exact Hperf.
  - injection H as _ <-. exact Hperf.
Qed.

Lemma replay_returns_posts_once (self : QARepeater.t) (cache : QARepeater.cached)
    (slug_to_test : dict Test) (fuel : nat) (previous_session : QASession)
    (w : World E) tbl w' :
  QARepeater.replay self cache slug_to_test fuel previous_session w = (Returns tbl, w') ->
  exists data, posted (log w') = (posted (log w) ++ [data])%list.
Proof.
  unfold QARepeater.replay. intros H.
  apply bind_inversion in H. destruct H as (prev & w1 & Hprev & H).
  apply bind_inversion in H. destruct H as (pc & w2 & Hpc & H).
  apply bind_inversion in H. destruct H as (tv & w3 & Htv & H).
  apply bind_inversion in H. destruct H as (ns & w4 & Hperf & H).
  apply bind_inversion in H. destruct H as (nr & w5 & Hnr & H).
  unfold lift in *. injection Hprev as _ <-. injection Hpc as _ <-.
  injection Hnr as _ <-. injection H as _ <-.
  apply test_values_quiet in Htv. apply perform_session_posts in Hperf.
  destruct Hperf as (data & _ & Hlog). exists data. now rewrite Hlog, Htv.
Qed.

(** What a replay that returns has done. *)
Lemma replay_returns_steps (self : QARepeater.t) (cache : QARepeater.cached)
    (fuel : nat) (previous_session : QASession) (w : World E) tbl w' :
  QARepeater.replay self cache (QARepeater.slug_to_test cache) fuel previous_session w
    = (Returns tbl, w') ->
  exists previous_results tests w1 new_session new_results rows,
    QARepeater.results_from_session cache previous_session = Returns previous_results
    /\ QARepeater.test_values self cache (QARepeater.slug_to_test cache) previous_results
         fuel w = (Returns tests, w1)
    /\ QARepeater.perform_session self cache tests w1 = (Returns new_session, w')
    /\ QARepeater.results_from_session cache new_session = Returns new_results
    /\ tbl = (table_header previous_session new_session ++ rows)%list
    /\ Forall2 (fun item row =>
                  exists test,
                    dict_get (QARepeater.slug_to_test cache) (fst item) = Some test
                    /\ row = comparison_row test (snd item)
                               (new_value new_results (fst item)))
               previous_results rows.
Proof.
  unfold QARepeater.replay. intros H.
  apply bind_inversion in H. destruct H as (prev & w1 & Hprev & H).
  apply bind_inversion in H. destruct H as (pc & w2 & Hpc & H).
  apply bind_inversion in H. destruct H as (tv & w3 & Htv & H).
  apply bind_inversion in H. destruct H as (ns & w4 & Hperf & H).
  apply bind_inversion in H. destruct H as (nr & w5 & Hnr & H).
  unfold lift in *. injection Hprev as Hprev <-. injection Hpc as _ <-.
  injection Hnr as Hnr <-. injection H as Htbl <-.
  destruct (results_from_session_keys _ _ _ Hprev) as [_ Hkeys].
  unfold QARepeater.generate_results_table in Htbl.
  destruct (table_fold_shape cache nr prev (table_header previous_session ns) Hkeys)
    as (rows & Hshape & Hrows).
  unfold table_header in Hshape at 1. rewrite Hshape in Htbl. injection Htbl as <-.
  exists prev, tv, w3, ns, nr, rows. repeat (split; [assumption || reflexivity |]).
  eapply Forall2_impl; [| exact Hrows].
  intros item row (test & Hget & _ & _ & Hrow). now exists test.
Qed.

(** X14. When [repeat_qa] returns, it returns one table for each session
    that [previous_sessions] returned, in their order, and it has posted
    exactly one new session for each.  For each session in turn, the
    mapping built from its decoded values was posted, and the table is
    the header naming the session and the new session that
    [perform_session] returned for it, followed by the row of every slug
    decoded from the session, comparing its value with the one decoded
    from the new session. *)
Theorem one_table_and_one_post_per_session (self : QARepeater.t)
    (cache : QARepeater.cached) (num_sessions : Z) (fuel : nat)
    (w : World E) (tables : list QARepeater.table) (w' : World E) :
  QARepeater.repeat_qa self cache num_sessions fuel w = (Returns tables, w') ->
  exists sessions w1,
    QARepeater.previous_sessions self num_sessions fuel w = (Returns (inr sessions), w1)
    /\ replayed self cache fuel w1 sessions tables w'
    /\ List.length tables = List.length sessions
    /\ List.length (posted (log w'))
       = (List.length (posted (log w)) + List.length sessions)%nat.
Proof.
  unfold QARepeater.repeat_qa. intros H.
  apply bind_inversion in H. destruct H as (sess & w1 & Hprev & H).
  destruct sess as [single | sessions]; [discriminate |].
  exists sessions, w1. split; [exact Hprev |].
  assert (Hquiet : posted (log w1) = posted (log w)).
  { apply (posts_only_fetch (fun _ => False)) in Hprev.
    destruct Hprev as (new & Hnew & Hall). destruct new as [|d new].
    - now rewrite app_nil_r in Hnew.
    - inversion Hall as [|? ? []]. }
  rewrite <- Hquiet. clear Hprev Hquiet.
  assert (Hgen : forall sessions results (v : World E) tables v',
             QARepeater.replay_each self cache (QARepeater.slug_to_test cache) fuel
               sessions results v = (Returns tables, v') ->
             exists new,
               tables = (results ++ new)%list
               /\ replayed self cache fuel v sessions new v'
               /\ List.length new = List.length sessions
               /\ List.length (posted (log v'))
                  = (List.length (posted (log v)) + List.length sessions)%nat).
  { clear. unfold QARepeater.replay_each.
    induction sessions as [|s sessions IH]; simpl; intros results v tables v' H.
    - unfold ret in H. injection H as <- <-. exists [].
      rewrite app_nil_r. repeat split; try lia. constructor.
    - apply bind_inversion in H. destruct H as (acc & v1 & Hstep & H).
      apply bind_inversion in Hstep. destruct Hstep as (tbl & v2 & Hreplay & Hret).
      unfold ret in Hret. injection Hret as <- <-.
      apply IH in H. destruct H as (new & -> & Hrun & Hlen & Hposts).
      exists (tbl :: new). split; [now rewrite <- app_assoc |]. split; [| split].
      + destruct (replay_returns_steps _ _ _ _ _ _ _ Hreplay)
          as (prev & tv & u1 & ns & nr & rows & Hp & Htv & Hperf & Hnr & Htbl & Hrows).
        eapply replayed_next; eauto.
      + simpl. now rewrite Hlen.
      + rewrite Hposts.
        destruct (replay_returns_posts_once _ _ _ _ _ _ _ _ Hreplay) as [data ->].
        rewrite length_app. simpl. lia. }
  apply Hgen in H. destruct H as (new & -> & Hrun & Hlen & Hposts).
  simpl. repeat split; assumption.
Qed.

Lemma replay_posts_at_most_once (self : QARepeater.t) (cache : QARepeater.cached)
    (slug_to_test : dict Test) (fuel : nat) (previous_session : QASession)
    (w : World E) r w' :
  QARepeater.replay self cache slug_to_test fuel previous_session w = (r, w') ->
  posted (log w') = posted (log w)
  \/ exists data, posted (log w') = (posted (log w) ++ [data])%list.
Proof.
  unfold QARepeater.replay. intros H. rewrite bind_lift in H.
  destruct (QARepeater.results_from_session cache previous_session) as [prev|e|];
    try (injection H as _ <-; now left).
  rewrite bind_lift in H.
  destruct (QARepeater.previous_calculated _ prev) as [pc|e|];
    try (injection H as _ <-; now left).
  unfold bind at 1 in H.
  destruct (QARepeater.test_values self cache _ prev fuel w) as [[tv|e|] w1] eqn:Htv;
    apply test_values_quiet in Htv;
    try (injection H as _ <-; now left).
  unfold bind at 1 in H.
  destruct (QARepeater.perform_session self cache tv w1) as [[ns|e|] w2] eqn:Hperf;
    apply perform_session_posts in Hperf; destruct Hperf as (data & _ & Hlog);
    right; exists data; rewrite <- Htv.
  - rewrite bind_lift in H.
    destruct (QARepeater.results_from_session cache ns) as [nr|e|];
      [unfold lift in H |..]; now injection H as _ <-.
  - now injection H as _ <-.
  - now injection H as _ <-.
Qed.

(** X15. A failure does not undo what was posted.  When [repeat_qa]
    raises after [previous_sessions] returned, it raises in the replay
    of one session: the sessions before it were replayed, and the new
    session of each stays posted, while their tables are lost with the
    exception; the failing replay itself has posted once or not at all. *)
Theorem failed_repeat_keeps_earlier_posts (self : QARepeater.t)
    (cache : QARepeater.cached) (num_sessions : Z) (fuel : nat)
    (w : World E) (e : exn) (w' : World E) (sessions : list QASession) (w1 : World E) :
  QARepeater.previous_sessions self num_sessions fuel w = (Returns (inr sessions), w1) ->
  QARepeater.repeat_qa self cache num_sessions fuel w = (Raises e, w') ->
  exists done failing rest tables w2,
    sessions = (done ++ failing :: rest)%list
    /\ QARepeater.replay_each self cache (QARepeater.slug_to_test cache) fuel done [] w1
       = (Returns tables, w2)
    /\ QARepeater.replay self cache (QARepeater.slug_to_test cache) fuel failing w2
       = (Raises e, w')
    /\ List.length (posted (log w2))
       = (List.length (posted (log w)) + List.length done)%nat
    /\ (List.length (posted (log w')) = List.length (posted (log w2))
        \/ List.length (posted (log w')) = S (List.length (posted (log w2)))).
Proof.
  intros Hprev H. unfold QARepeater.repeat_qa in H.
  unfold bind at 1 in H. rewrite Hprev in H.
  assert (Hquiet : posted (log w1) = posted (log w)).
  { apply (posts_only_fetch (fun _ => False)) in Hprev.
    destruct Hprev as (new & Hnew & Hall). destruct new as [|d new].
    - now rewrite app_nil_r in Hnew.
    - inversion Hall as [|? ? []]. }
  rewrite <- Hquiet. clear Hprev Hquiet.
  revert H. generalize (@nil QARepeater.table) at 1 2. revert w1.
  unfold QARepeater.replay_each.
  induction sessions as [|s sessions IH]; simpl; intros v results H.
  - discriminate.
  - unfold bind at 1 2 in H.
    destruct (QARepeater.replay self cache _ fuel s v) as [[tbl|e0|] v1] eqn:Hreplay.
    + unfold ret at 1 in H. apply IH in H.
      destruct H as (done & failing & rest & tables & w2 & -> & Hdone & Hfail & Hposts & Hlast).
      exists (s :: done), failing, rest, tables, w2. split; [reflexivity |].
      split.
      { simpl. unfold bind at 1 2. rewrite Hreplay. unfold ret at 1. exact Hdone. }
      split; [exact Hfail |]. split; [| exact Hlast].
      rewrite Hposts.
      destruct (replay_returns_posts_once _ _ _ _ _ _ _ _ Hreplay) as [data ->].
      rewrite length_app. simpl. lia.
    + injection H as <- <-.
      exists [], s, sessions, results, v. split; [reflexivity |].
      split; [reflexivity |]. split; [exact Hreplay |]. split; [simpl; lia |].
      destruct (replay_posts_at_most_once _ _ _ _ _ _ _ _ Hreplay) as [-> | [data ->]];
        [now left | right]. rewrite length_app. simpl. lia.
    + discriminate.
Qed.

End Requests.

(** ** The cached properties *)

Section Caching.
Context {rt : PyRuntime} {E : Type} {remote : Remote E} {catalog : Catalog E}.
Import CachedProperty.

Lemma item_returns {A B : Type} (obj : A + list A) (key : A -> B) (b : B) :
  item obj key = Returns b -> exists o, obj = inl o /\ key o = b.
Proof. destruct obj as [o | l]; simpl; intros [= <-]. now exists o. Qed.

Lemma grows_refl (m : memo) : grows m m.
Proof. unfold grows. tauto. Qed.

Lemma grows_trans (m1 m2 m3 : memo) : grows m1 m2 -> grows m2 m3 -> grows m1 m3.
Proof.
  intros (A1 & B1 & C1 & D1 & F1) (A2 & B2 & C2 & D2 & F2).
  unfold grows. repeat split; intros v Hv; auto.
Qed.

Lemma keeps_pure {A : Type} (a : A) : keeps (E:=E) (pure a).
Proof. intros m w. apply grows_refl. Qed.

Lemma keeps_call {A : Type} (c : M E A) : keeps (call c).
Proof. intros m w. unfold call. destruct (c w) as [o w']. apply grows_refl. Qed.

Lemma keeps_and_then {A B : Type} (c : P E A) (k : A -> P E B) :
  keeps c -> (forall a, keeps (k a)) -> keeps (and_then c k).
Proof.
  intros Hc Hk m w. unfold and_then. specialize (Hc m w).
  destruct (c m w) as [[[a|e|] m1] w1]; simpl in Hc; try exact Hc.
  eapply grows_trans; [exact Hc | apply Hk].
Qed.

Lemma keeps_cached_property {A : Type} (get : memo -> option A)
    (store : memo -> A -> memo) (method : P E A) :
  (forall m m' v, get m = None -> grows m m' -> grows m (store m' v)) ->
  keeps method -> keeps (cached_property get store method).
Proof.
  intros Hstore Hm m w. unfold cached_property.
  destruct (get m) as [v|] eqn:Hget; [apply grows_refl |].
  specialize (Hm m w).
  destruct (method m w) as [[[a|e|] m1] w1]; simpl in *; try exact Hm.
  now apply Hstore.
Qed.

Lemma and_then_inversion {A B : Type} (c : P E A) (k : A -> P E B) m w b m' w' :
  and_then c k m w = (Returns b, m', w') ->
  exists a m1 w1, c m w = (Returns a, m1, w1) /\ k a m1 w1 = (Returns b, m', w').
Proof.
  unfold and_then. destruct (c m w) as [[[a|e|] m1] w1]; intros H; try discriminate.
  now exists a, m1, w1.
Qed.

Lemma call_inversion {A : Type} (c : M E A) m w a m' w' :
  call c m w = (Returns a, m', w') -> c w = (Returns a, w') /\ m' = m.
Proof. unfold call. destruct (c w) as [o w1]. intros [= -> <- ->]. now split. Qed.

Lemma cached_property_inversion {A : Type} (get : memo -> option A)
    (store : memo -> A -> memo) (method : P E A) m w v m' w' :
  cached_property get store method m w = (Returns v, m', w') ->
  (get m = Some v /\ m' = m /\ w' = w)
  \/ (get m = None /\ exists m1, method m w = (Returns v, m1, w') /\ m' = store m1 v).
Proof.
  unfold cached_property. destruct (get m) as [v0|] eqn:Hget.
  - intros [= <- <- <-]. now left.
  - destruct (method m w) as [[[a|e|] m1] w1]; intros H; try discriminate.
    injection H as <- <- <-. right. split; [reflexivity |]. now exists m1.
Qed.

Lemma cached_property_returns {A : Type} (get : memo -> option A)
    (store : memo -> A -> memo) (method : P E A) m w v m' w' :
  (forall m v, get (store m v) = Some v) ->
  cached_property get store method m w = (Returns v, m', w') -> get m' = Some v.
Proof.
  intros Hstore H. apply cached_property_inversion in H.
  destruct H as [(H & -> & _) | (_ & m1 & _ & ->)]; [exact H | apply Hstore].
Qed.

Lemma cached_property_hit {A : Type} (get : memo -> option A)
    (store : memo -> A -> memo) (method : P E A) m w v :
  get m = Some v -> cached_property get store method m w = (Returns v, m, w).
Proof. intros H. unfold cached_property. now rewrite H. Qed.

Ltac stored :=
  intros m m' v Hnone (HA & HB & HC & HD & HF); unfold grows; simpl;
  repeat split; intros v0 Hv0; auto; congruence.

Lemma assignment_keeps self fuel : keeps (assignment self fuel).
Proof. apply keeps_cached_property; [stored | apply keeps_call]. Qed.

Lemma test_list_keeps self fuel : keeps (test_list self fuel).
Proof.
  apply keeps_cached_property; [stored |].
  apply keeps_and_then; [apply assignment_keeps | intros a].
  apply keeps_and_then; [apply keeps_call | intros o; apply keeps_call].
Qed.

Lemma tests_keeps self fuel : keeps (tests self fuel).
Proof.
  apply keeps_cached_property; [stored |].
  apply keeps_and_then; [apply test_list_keeps | intros tl; apply keeps_call].
Qed.

Lemma unit_test_infos_keeps self fuel : keeps (unit_test_infos self fuel).
Proof.
  apply keeps_cached_property; [stored |].
  apply keeps_and_then; [apply assignment_keeps | intros a].
  apply keeps_and_then; [apply keeps_call | intros o].
  apply keeps_and_then; [apply keeps_call | intros all].
  apply keeps_and_then; [apply tests_keeps | intros ts].
  destruct all; [apply keeps_call | apply keeps_pure].
Qed.

(** What an access leaves alone. *)
Section Frame.
Context {X : Type} (f : memo -> X).

Let frames {A : Type} (c : P E A) : Prop := forall m w, f (snd (fst (c m w))) = f m.

Lemma frames_call {A : Type} (c : M E A) : frames (call c).
Proof. intros m w. unfold call. now destruct (c w). Qed.

Lemma frames_and_then {A B : Type} (c : P E A) (k : A -> P E B) :
  frames c -> (forall a, frames (k a)) -> frames (and_then c k).
Proof.
  intros Hc Hk m w. unfold and_then. specialize (Hc m w).
  destruct (c m w) as [[[a|e|] m1] w1]; simpl in Hc; try exact Hc.
  now rewrite Hk.
Qed.

Lemma frames_cached_property {A : Type} (get : memo -> option A)
    (store : memo -> A -> memo) (method : P E A) :
  (forall m v, f (store m v) = f m) -> frames method ->
  frames (cached_property get store method).
Proof.
  intros Hstore Hm m w. unfold cached_property. destruct (get m); [reflexivity |].
  specialize (Hm m w). destruct (method m w) as [[[a|e|] m1] w1]; simpl in *; try exact Hm.
  now rewrite Hstore.
Qed.

End Frame.

Lemma tests_leaves_unit_test_infos self fuel m w :
  m_unit_test_infos (snd (fst (tests self fuel m w))) = m_unit_test_infos m.
Proof.
  revert m w. apply frames_cached_property; [reflexivity |].
  apply frames_and_then; [| intros tl; apply frames_call].
  apply frames_cached_property; [reflexivity |].
  apply frames_and_then.
  - apply frames_cached_property; [reflexivity | apply frames_call].
  - intros a. apply frames_and_then; [apply frames_call | intros o; apply frames_call].
Qed.

(** The first access to [unit_test_infos], step by step. *)
Lemma unit_test_infos_first_access (self : QARepeater.t) (fuel : nat) (m : memo)
    (w : World E) (utis : list UnitTestInfo) (m' : memo) (w' : World E) :
  m_unit_test_infos m = None ->
  unit_test_infos self fuel m w = (Returns utis, m', w') ->
  exists a m1 w1 all w2 ts m2,
    assignment self fuel m w = (Returns (inl a), m1, w1)
    /\ QARepeater.get_api_objects self serve_unit_test_infos
         ("/qa/unittestinfos/?unit=" ++ object_id_from_url (as_unit a)) true fuel w1
       = (Returns (inr all), w2)
    /\ tests self fuel m1 w2 = (Returns ts, m2, w')
    /\ utis = filter (fun uti => str_in (uti_test uti) (map t_url ts)) all
    /\ m' = store_unit_test_infos m2 utis
    /\ Client.resolved m' {| QARepeater.assignment_url := as_url a;
                             QARepeater.tests := ts;
                             QARepeater.all_unit_utis := all |}.
Proof.
  intros Hm H. apply cached_property_inversion in H.
  destruct H as [(H & _) | (_ & m4 & H & ->)]; [congruence |].
  apply and_then_inversion in H. destruct H as (a & m1 & w1 & Ha & H).
  apply and_then_inversion in H. destruct H as (unit_url & m2 & w2 & Hitem & H).
  apply and_then_inversion in H. destruct H as (all & m3 & w3 & Hall & H).
  apply and_then_inversion in H. destruct H as (ts & m5 & w4 & Hts & H).
  apply call_inversion in Hitem. destruct Hitem as [Hitem ->].
  apply call_inversion in Hall. destruct Hall as [Hall ->].
  unfold lift in Hitem. injection Hitem as Hitem <-.
  apply item_returns in Hitem. destruct Hitem as (o & -> & <-).
  destruct all as [single | all].
  { apply call_inversion in H. destruct H as [H _]. discriminate. }
  unfold pure in H. injection H as <- <- <-.
  exists o, m1, w1, all, w3, ts, m5.
  split; [exact Ha |]. split; [exact Hall |]. split; [exact Hts |].
  split; [reflexivity |]. split; [reflexivity |].
  apply cached_property_returns in Ha; [| reflexivity].
  pose proof (tests_keeps self fuel m1 w3) as Hgrow. rewrite Hts in Hgrow. simpl in Hgrow.
  apply cached_property_returns in Hts; [| reflexivity].
  destruct Hgrow as (HA & _).
  split; [| split]; simpl.
  - exists o. split; [now apply HA | reflexivity].
  - exact Hts.
  - reflexivity.
Qed.

(** X17. The first access to [unit_test_infos] fetches the assignment
    unless it is cached, then the unit-test-infos of the assignment's
    unit from [qa/unittestinfos/?unit=], then the tests unless they are
    cached; it returns and stores, of the unit-test-infos that the
    service listed, those whose test is a test of the list, in the order
    of the service.  From then on the client is resolved: the
    assignment, the tests and the unit-test-infos are cached, and an
    access to one of them makes no request. *)
Theorem unit_test_infos_are_filtered (self : QARepeater.t) (fuel : nat) (m : memo)
    (w : World E) (utis : list UnitTestInfo) (m' : memo) (w' : World E) :
  m_unit_test_infos m = None ->
  unit_test_infos self fuel m w = (Returns utis, m', w') ->
  exists a m1 w1 all w2 ts m2,
    assignment self fuel m w = (Returns (inl a), m1, w1)
    /\ QARepeater.get_api_objects self serve_unit_test_infos
         ("/qa/unittestinfos/?unit=" ++ object_id_from_url (as_unit a)) true fuel w1
       = (Returns (inr all), w2)
    /\ tests self fuel m1 w2 = (Returns ts, m2, w')
    /\ utis = filter (fun uti => str_in (uti_test uti) (map t_url ts)) all
    /\ m' = store_unit_test_infos m2 utis
    /\ Client.resolved m' {| QARepeater.assignment_url := as_url a;
                             QARepeater.tests := ts;
                             QARepeater.all_unit_utis := all |}
    /\ (forall fuel' (v : World E),
          assignment self fuel' m' v = (Returns (inl a), m', v)
          /\ tests self fuel' m' v = (Returns ts, m', v)
          /\ unit_test_infos self fuel' m' v = (Returns utis, m', v)).
Proof.
  intros Hm H.
  destruct (unit_test_infos_first_access self fuel m w utis m' w' Hm H)
    as (a & m1 & w1 & all & w2 & ts & m2 & Ha & Hall & Hts & Hutis & Hm' & Hres).
  exists a, m1, w1, all, w2, ts, m2. repeat (split; [assumption |]).
  destruct Hres as ((a' & Ha' & Hurl) & Htests & Hstored). simpl in *.
  assert (m_assignment m' = Some (inl a)) as Hassignment.
  { rewrite Hm'. simpl.
    pose proof (tests_keeps self fuel m1 w2) as Hgrow. rewrite Hts in Hgrow.
    destruct Hgrow as (HA & _). apply HA.
    now apply cached_property_returns in Ha. }
  intros fuel' v. split; [| split]; apply cached_property_hit; try assumption.
  rewrite Hstored. f_equal. rewrite Hutis. reflexivity.
Qed.

(** X16. An access to [test_list], [unit] or [unit_test_infos] that has
    to run its method reads the assignment first, and what the
    assignment's access returned stays cached whatever becomes of the
    rest: when the property raises after the assignment was fetched, a
    retry does not fetch the assignment again. *)
Theorem failed_access_keeps_the_assignment (self : QARepeater.t) (fuel : nat) (m : memo)
    (w : World E) (a : Assignment + list Assignment) (m1 : memo) (w1 : World E) :
  assignment self fuel m w = (Returns a, m1, w1) ->
  (m_test_list m = None ->
   m_assignment (snd (fst (test_list self fuel m w))) = Some a)
  /\ (m_unit m = None ->
      m_assignment (snd (fst (unit self fuel m w))) = Some a)
  /\ (m_unit_test_infos m = None ->
      m_assignment (snd (fst (unit_test_infos self fuel m w))) = Some a)
  /\ forall m2, grows m1 m2 ->
       forall fuel' (v : World E), assignment self fuel' m2 v = (Returns a, m2, v).
Proof.
  intros Ha.
  assert (Hstored : m_assignment m1 = Some a)
    by (now apply cached_property_returns in Ha).
  assert (Hrest : forall (A : Type) (get : memo -> option A) (store : memo -> A -> memo)
                         (k : Assignment + list Assignment -> P E A),
             (forall m v, m_assignment (store m v) = m_assignment m) ->
             (forall x, keeps (k x)) ->
             get m = None ->
             m_assignment
               (snd (fst (cached_property get store (and_then (assignment self fuel) k) m w)))
             = Some a).
  { intros A get store k Hstore Hk Hget. unfold cached_property. rewrite Hget.
    unfold and_then. rewrite Ha.
    pose proof (Hk a m1 w1) as (HA & _).
    destruct (k a m1 w1) as [[[v|e|] m2] w2]; simpl in *; [rewrite Hstore | |]; now apply HA. }
  split; [| split; [| split]].
  - apply Hrest; [reflexivity |]. intros x.
    apply keeps_and_then; [apply keeps_call | intros o; apply keeps_call].
  - apply Hrest; [reflexivity |]. intros x.
    apply keeps_and_then; [apply keeps_call | intros o; apply keeps_call].
  - apply Hrest; [reflexivity |]. intros x.
    apply keeps_and_then; [apply keeps_call | intros o].
    apply keeps_and_then; [apply keeps_call | intros all].
    apply keeps_and_then; [apply tests_keeps | intros ts].
    destruct all; [apply keeps_call | apply keeps_pure].
  - intros m2 (HA & _) fuel' v. apply cached_property_hit. now apply HA.
Qed.

End Caching.

(** ** The methods on a client and its store *)

Section ClientMethods.
Context {rt : PyRuntime} {E : Type} {remote : Remote E} {catalog : Catalog E}.
Import CachedProperty.

Lemma and_then_call {A B : Type} (c : M E A) (k : A -> P E B) (m : memo) (w : World E) :
  and_then (call c) k m w =
  match c w with
  | (Returns a, w') => k a m w'
  | (Raises e, w') => (Raises e, m, w')
  | (OutOfFuel, w') => (OutOfFuel, m, w')
  end.
Proof. unfold and_then, call. destruct (c w) as [[a|e|] w']; reflexivity. Qed.

Lemma quiet_pure {A : Type} (a : A) : quiet (E:=E) (pure a).
Proof. intros m w. reflexivity. Qed.

Lemma quiet_call {A : Type} (c : M E A) :
  (forall w, posted (log (snd (c w))) = posted (log w)) -> quiet (call c).
Proof. intros Hc m w. unfold call. specialize (Hc w). now destruct (c w) as [o w']. Qed.

Lemma quiet_and_then {A B : Type} (c : P E A) (k : A -> P E B) :
  quiet c -> (forall a, quiet (k a)) -> quiet (and_then c k).
Proof.
  intros Hc Hk m w. unfold and_then. specialize (Hc m w).
  destruct (c m w) as [[[a|e|] m1] w1]; simpl in Hc; try exact Hc.
  now rewrite Hk.
Qed.

Lemma quiet_cached_property {A : Type} (get : memo -> option A)
    (store : memo -> A -> memo) (method : P E A) :
  quiet method -> quiet (cached_property get store method).
Proof.
  intros Hm m w. unfold cached_property. destruct (get m); [reflexivity |].
  specialize (Hm m w). now destruct (method m w) as [[[a|e|] m1] w1].
Qed.

Lemma fetch_is_quiet {A : Type} (self : QARepeater.t)
    (serve : request -> E -> outcome (payload A) * E) (path : string) (all_pages : bool)
    (fuel : nat) (w : World E) :
  posted (log (snd (QARepeater.get_api_objects self serve path all_pages fuel w)))
  = posted (log w).
Proof.
  destruct (QARepeater.get_api_objects self serve path all_pages fuel w) as [r w'] eqn:H.
  apply (posts_only_fetch (fun _ => False)) in H.
  destruct H as (new & Hnew & Hall). destruct new as [|d new].
  - now rewrite app_nil_r in Hnew.
  - inversion Hall as [|? ? []].
Qed.

Lemma lift_is_quiet {A : Type} (o : outcome A) (w : World E) :
  posted (log (snd (lift o w))) = posted (log w).
Proof. reflexivity. Qed.

Lemma assignment_quiet self fuel : quiet (assignment self fuel).
Proof. apply quiet_cached_property, quiet_call. intros w. apply fetch_is_quiet. Qed.

Lemma test_list_quiet self fuel : quiet (test_list self fuel).
Proof.
  apply quiet_cached_property.
  apply quiet_and_then; [apply assignment_quiet | intros a].
  apply quiet_and_then; [apply quiet_call, lift_is_quiet | intros o].
  apply quiet_call. intros w. apply fetch_is_quiet.
Qed.

Lemma tests_quiet self fuel : quiet (tests self fuel).
Proof.
  apply quiet_cached_property.
  apply quiet_and_then; [apply test_list_quiet | intros tl].
  apply quiet_call, lift_is_quiet.
Qed.

Lemma unit_test_infos_quiet self fuel : quiet (unit_test_infos self fuel).
Proof.
  apply quiet_cached_property.
  apply quiet_and_then; [apply assignment_quiet | intros a].
  apply quiet_and_then; [apply quiet_call, lift_is_quiet | intros o].
  apply quiet_and_then; [apply quiet_call; intros w; apply fetch_is_quiet | intros all].
  apply quiet_and_then; [apply tests_quiet | intros ts].
  destruct all; [apply quiet_call; intros w; reflexivity | apply quiet_pure].
Qed.

(** On a store that holds the values of [cache], the methods of the
    client are the functions of [QARepeater] on [cache]. *)
Lemma resolved_tests m cache self fuel (w : World E) :
  Client.resolved m cache -> tests self fuel m w = (Returns (QARepeater.tests cache), m, w).
Proof. intros (_ & H & _). now apply cached_property_hit. Qed.

Lemma resolved_unit_test_infos m cache self fuel (w : World E) :
  Client.resolved m cache ->
  unit_test_infos self fuel m w = (Returns (QARepeater.unit_test_infos cache), m, w).
Proof. intros (_ & _ & H). now apply cached_property_hit. Qed.

Lemma assignment_hit m v self fuel (w : World E) :
  m_assignment m = Some v -> assignment self fuel m w = (Returns v, m, w).
Proof. intros H. now apply cached_property_hit. Qed.

Lemma tests_hit m v self fuel (w : World E) :
  m_tests m = Some v -> tests self fuel m w = (Returns v, m, w).
Proof. intros H. now apply cached_property_hit. Qed.

Lemma resolved_results_from_session m cache self fuel qa_session (w : World E) :
  Client.resolved m cache ->
  Client.results_from_session self fuel qa_session m w
  = (QARepeater.results_from_session cache qa_session, m, w).
Proof.
  intros Hm. unfold Client.results_from_session, and_then.
  rewrite (resolved_tests m cache self fuel w Hm).
  rewrite (resolved_unit_test_infos m cache self fuel w Hm). reflexivity.
Qed.

Lemma cached_perform_session m a cache self fuel tests (w : World E) :
  m_assignment m = Some (inl a) -> as_url a = QARepeater.assignment_url cache ->
  Client.perform_session self fuel tests m w
  = (fst (QARepeater.perform_session self cache tests w), m,
     snd (QARepeater.perform_session self cache tests w)).
Proof.
  intros Ha Hurl. unfold Client.perform_session.
  unfold and_then at 1. rewrite (assignment_hit m (inl a) self fuel w Ha).
  rewrite and_then_call. cbn [lift item]. rewrite Hurl. unfold call.
  change (QARepeater.perform_session self cache tests w)
    with ((work_started <- wall_clock_now ;;
           response <- send serve_post
                         (QARepeater.submission self cache tests work_started) ;;
           if negb (status_code response =? CREATED) then
             let message := QARepeater.response_repr response in
             let message := match json_body response with
                            | Some body => message ++ ": " ++ py_str body
                            | None => message
                            end in
             raise (ValueError ("Failed to repeat session: " ++ message))
           else
             match json_body response with
             | None => raise JSONDecodeError
             | Some (PDict kv) =>
                 match assoc "url" kv with
                 | Some (PStr url) => send serve_session (GET (QARepeater.session self) url)
                 | Some _ => raise (RequestException "Invalid URL")
                 | None => raise (KeyError "url")
                 end
             | Some _ => raise TypeError
             end) w).
  unfold QARepeater.submission.
  match goal with |- (let '(o, w') := ?c in _) = _ => now destruct c end.
Qed.

Lemma resolved_perform_session m cache self fuel tests (w : World E) :
  Client.resolved m cache ->
  Client.perform_session self fuel tests m w
  = (fst (QARepeater.perform_session self cache tests w), m,
     snd (QARepeater.perform_session self cache tests w)).
Proof. intros ((a & Ha & Hurl) & _). now apply (cached_perform_session m a). Qed.

Lemma resolved_generate_results_table m cache self fuel ps pr ns nr (w : World E) :
  Client.resolved m cache ->
  Client.generate_results_table self fuel ps pr ns nr m w
  = (QARepeater.generate_results_table cache ps pr ns nr, m, w).
Proof.
  intros Hm. unfold Client.generate_results_table, and_then.
  rewrite (resolved_tests m cache self fuel w Hm). reflexivity.
Qed.

Lemma resolved_replay m cache self fuel previous_session (w : World E) :
  Client.resolved m cache ->
  Client.replay self (QARepeater.slug_to_test cache) fuel previous_session m w
  = (fst (QARepeater.replay self cache (QARepeater.slug_to_test cache) fuel
            previous_session w), m,
     snd (QARepeater.replay self cache (QARepeater.slug_to_test cache) fuel
            previous_session w)).
Proof.
  intros Hm.
  destruct (QARepeater.replay self cache _ fuel previous_session w) as [o w'] eqn:H.
  cbn [fst snd]. unfold QARepeater.replay in H. unfold Client.replay.
  unfold and_then at 1. rewrite (resolved_results_from_session _ _ _ _ _ _ Hm).
  rewrite bind_lift in H.
  destruct (QARepeater.results_from_session cache previous_session) as [prev|e|];
    try (now injection H as <- <-).
  rewrite and_then_call. rewrite bind_lift in H. cbn [lift].
  destruct (QARepeater.previous_calculated _ prev) as [pc|e|];
    try (now injection H as <- <-).
  unfold and_then at 1. rewrite (resolved_tests m cache self fuel w Hm).
  rewrite and_then_call. unfold bind at 1 in H. unfold QARepeater.test_values in H.
  fold (QARepeater.skipped_by_default cache).
  destruct (mfold _ prev (QARepeater.skipped_by_default cache) w) as [[tv|e|] w1];
    try (now injection H as <- <-).
  unfold and_then at 1. rewrite (resolved_perform_session _ _ _ _ _ _ Hm).
  unfold bind at 1 in H.
  destruct (QARepeater.perform_session self cache tv w1) as [[ns|e|] w2];
    try (now injection H as <- <-).
  cbn [fst snd]. unfold and_then at 1.
  rewrite (resolved_results_from_session _ _ _ _ _ _ Hm). rewrite bind_lift in H.
  destruct (QARepeater.results_from_session cache ns) as [nr|e|];
    try (now injection H as <- <-).
  rewrite (resolved_generate_results_table _ _ _ _ _ _ _ _ _ Hm).
  unfold lift in H. now injection H as <- <-.
Qed.

Lemma resolved_replay_each m cache self fuel sessions results (w : World E) :
  Client.resolved m cache ->
  Client.pfold
    (fun results previous_session =>
       tbl <~ Client.replay self (QARepeater.slug_to_test cache) fuel previous_session ;;
       pure (results ++ [tbl])%list)
    sessions results m w
  = (fst (QARepeater.replay_each self cache (QARepeater.slug_to_test cache) fuel
            sessions results w), m,
     snd (QARepeater.replay_each self cache (QARepeater.slug_to_test cache) fuel
            sessions results w)).
Proof.
  intros Hm.
  destruct (QARepeater.replay_each self cache _ fuel sessions results w) as [o w'] eqn:H.
  cbn [fst snd]. revert results w H. unfold QARepeater.replay_each.
  induction sessions as [|s sessions IH]; intros results w H.
  - simpl in H. unfold ret in H. now injection H as <- <-.
  - cbn [Client.pfold mfold] in H |- *. unfold and_then at 1 2. unfold bind at 1 2 in H.
    rewrite (resolved_replay _ _ _ _ _ _ Hm).
    destruct (QARepeater.replay self cache _ fuel s w) as [[tbl|e|] w2];
      try (now injection H as <- <-).
    cbn [fst snd]. unfold pure at 1. unfold ret at 1 in H. now apply IH.
Qed.

Lemma resolved_repeat_qa m cache self num_sessions fuel (w : World E) :
  Client.resolved m cache ->
  Client.repeat_qa self num_sessions fuel m w
  = (fst (QARepeater.repeat_qa self cache num_sessions fuel w), m,
     snd (QARepeater.repeat_qa self cache num_sessions fuel w)).
Proof.
  intros Hm.
  destruct (QARepeater.repeat_qa self cache num_sessions fuel w) as [o w'] eqn:H.
  cbn [fst snd]. unfold QARepeater.repeat_qa in H. unfold Client.repeat_qa.
  unfold and_then at 1. rewrite (resolved_tests m cache self fuel w Hm).
  rewrite and_then_call. unfold bind at 1 in H.
  fold (QARepeater.slug_to_test cache).
  destruct (QARepeater.previous_sessions self num_sessions fuel w)
    as [[[single | sessions]|e|] w1]; try (now injection H as <- <-).
  rewrite (resolved_replay_each _ _ _ _ _ _ _ Hm). now rewrite H.
Qed.

End ClientMethods.

(** ** Errors of decoding a session *)

Section SessionErrors.
Context {rt : PyRuntime} {E : Type} {remote : Remote E} {catalog : Catalog E}.
Import CachedProperty.

(** The unit-test-infos that a client holds link to tests that it holds,
    when it fetches them now or holds the values of a [cache]. *)
Lemma held_links_are_to_held_tests (self : QARepeater.t) (fuel : nat) (m : memo)
    (w : World E) (ts : list Test) (m1 : memo) (w1 : World E)
    (utis : list UnitTestInfo) (m2 : memo) (w2 : World E) :
  (m_unit_test_infos m = None \/ exists cache, Client.resolved m cache) ->
  tests self fuel m w = (Returns ts, m1, w1) ->
  unit_test_infos self fuel m1 w1 = (Returns utis, m2, w2) ->
  Forall (fun uti => In (uti_test uti) (map t_url ts)) utis.
Proof.
  intros [Hnone | [cache Hres]] Hts Hutis.
  - pose proof (tests_leaves_unit_test_infos self fuel m w) as Hleft.
    rewrite Hts in Hleft. simpl in Hleft. rewrite Hnone in Hleft.
    destruct (unit_test_infos_first_access self fuel m1 w1 utis m2 w2 Hleft Hutis)
      as (a & m3 & w3 & all & w4 & ts' & m4 & Ha & _ & Hts' & -> & _).
    apply cached_property_returns in Hts; [| reflexivity].
    pose proof (assignment_keeps self fuel m1 w1) as Hgrow. rewrite Ha in Hgrow.
    destruct Hgrow as (_ & _ & HC & _). apply HC in Hts. simpl in Hts.
    rewrite (tests_hit m3 ts self fuel w4 Hts) in Hts'. injection Hts' as <- _ _.
    apply Forall_forall. intros uti Hin. apply filter_In in Hin. now apply str_in_iff.
  - rewrite (resolved_tests m cache self fuel w Hres) in Hts. injection Hts as <- <- <-.
    rewrite (resolved_unit_test_infos m cache self fuel w Hres) in Hutis.
    injection Hutis as <- _ _.
    apply Forall_forall. intros uti Hin. apply filter_In in Hin. now apply str_in_iff.
Qed.

(** X4. When [results_from_session] raises, the exception is that of the
    access to [self.tests], or that of the access to
    [self.unit_test_infos], or it is for one instance of the session:
    the [KeyError] of its unit-test-info reference when that is not
    among the unit-test-infos of the client, or otherwise the exception
    that decoding its value raises, for the test of its link.  The lookup
    of the test of a link does not fail, as the unit-test-infos are those
    of the tests of the list. *)
Theorem session_decoding_errors (self : QARepeater.t) (fuel : nat) (qa_session : QASession)
    (m : memo) (w : World E) (e : exn) (m' : memo) (w' : World E) :
  (m_unit_test_infos m = None \/ exists cache, Client.resolved m cache) ->
  Client.results_from_session self fuel qa_session m w = (Raises e, m', w') ->
  tests self fuel m w = (Raises e, m', w')
  \/ exists ts m1 w1,
       tests self fuel m w = (Returns ts, m1, w1)
       /\ (unit_test_infos self fuel m1 w1 = (Raises e, m', w')
           \/ exists utis,
                unit_test_infos self fuel m1 w1 = (Returns utis, m', w')
                /\ exists test_instance,
                     In test_instance (s_test_instances qa_session)
                     /\ ((~ In (ti_unit_test_info test_instance) (map uti_url utis)
                          /\ e = KeyError (ti_unit_test_info test_instance))
                         \/ exists uti test,
                              In uti utis
                              /\ uti_url uti = ti_unit_test_info test_instance
                              /\ In test ts /\ t_url test = uti_test uti
                              /\ get_testinstance_value test test_instance = Raises e)).
Proof.
  intros Hstore H. unfold Client.results_from_session in H.
  unfold and_then at 1 in H.
  destruct (tests self fuel m w) as [[[ts|e0|] m1] w1] eqn:Hts;
    [| injection H as <- <- <-; now left | discriminate].
  right. exists ts, m1, w1. split; [reflexivity |].
  unfold and_then at 1 in H.
  destruct (unit_test_infos self fuel m1 w1) as [[[utis|e0|] m2] w2] eqn:Hutis;
    [| injection H as <- <- <-; now left | discriminate].
  right. exists utis. unfold call, lift in H. injection H as H <- <-.
  split; [reflexivity |].
  pose proof (held_links_are_to_held_tests self fuel m w ts m1 w1 utis m2 w2
                Hstore Hts Hutis) as Hlinked.
  apply ofold_raises_inversion in H. destruct H as (ti & acc & Hin & Hbody).
  exists ti. split; [exact Hin |].
  unfold getitem in Hbody.
  destruct (dict_get (dict_comp uti_url uti_test utis) (ti_unit_test_info ti))
    as [test_url|] eqn:Hlink; cbn [obind] in Hbody.
  - right. apply dict_comp_get in Hlink. destruct Hlink as (uti & Huti & Hurl & <-).
    destruct (dict_get (dict_comp t_url (fun t => t) ts) (uti_test uti))
      as [test|] eqn:Htest; cbn [obind] in Hbody.
    + apply dict_comp_get in Htest. destruct Htest as (t & Ht & Hturl & <-).
      exists uti, t. repeat (split; [assumption |]).
      destruct (get_testinstance_value t ti); [discriminate | | discriminate].
      cbn [obind] in Hbody. now injection Hbody as ->.
    + exfalso. apply dict_get_none in Htest. apply Htest.
      apply dict_comp_keys. rewrite Forall_forall in Hlinked. now apply Hlinked.
  - left. injection Hbody as <-. split; [| reflexivity].
    apply dict_get_none in Hlink. now rewrite dict_comp_keys in Hlink.
Qed.

End SessionErrors.

(** ** Sessions recorded before a test was removed *)

Section RemovedTests.
Context {rt : PyRuntime} {E : Type} {remote : Remote E} {catalog : Catalog E}.
Import CachedProperty.

Lemma decode_finishes (test_url_to_test : dict Test) (unit_test_info_to_test : dict string)
    (results : dict pyval) (test_instance : TestInstance) :
  (let? test_url := getitem unit_test_info_to_test (ti_unit_test_info test_instance) in
   let? test := getitem test_url_to_test test_url in
   let? value := get_testinstance_value test test_instance in
   Returns (dict_set results (t_slug test) value)) <> OutOfFuel.
Proof.
  destruct (getitem _ (ti_unit_test_info test_instance)) as [u| |] eqn:H1; simpl;
    [| discriminate | now apply getitem_finishes in H1].
  destruct (getitem _ u) as [t| |] eqn:H2; simpl;
    [| discriminate | now apply getitem_finishes in H2].
  destruct (get_testinstance_value t test_instance) eqn:H3; simpl;
    [discriminate | discriminate | now apply get_testinstance_value_finishes in H3].
Qed.

Lemma getitem_missing {V : Type} (key : UnitTestInfo -> string) (val : UnitTestInfo -> V)
    (utis : list UnitTestInfo) (k : string) :
  ~ In k (map key utis) -> getitem (dict_comp key val utis) k = Raises (KeyError k).
Proof.
  intros Hk. unfold getitem.
  replace (dict_get (dict_comp key val utis) k) with (@None V); [reflexivity |].
  symmetry. apply dict_get_none. now rewrite dict_comp_keys.
Qed.

(** C6, as the program has it.  When a historical session holds an
    instance whose unit-test-info is not among those of the tests of the
    current test list, decoding the session does not drop the instance
    but raises: a [KeyError] for the reference of that instance once the
    instances before it have decoded.  No mapping is returned, and the
    replay of the session ends with the exception: nothing is posted and
    no table is built.  The test list and the unit-test-infos are those
    that the cached properties of the client hold, or fetch when the
    session is the first one decoded. *)
Theorem C6_removed_test_raises (self : QARepeater.t) (fuel : nat) (qa_session : QASession)
    (before after : list TestInstance) (test_instance : TestInstance)
    (m : memo) (w : World E) (ts : list Test) (m1 : memo) (w1 : World E)
    (utis : list UnitTestInfo) (m2 : memo) (w2 : World E) :
  s_test_instances qa_session = (before ++ test_instance :: after)%list ->
  tests self fuel m w = (Returns ts, m1, w1) ->
  unit_test_infos self fuel m1 w1 = (Returns utis, m2, w2) ->
  ~ In (ti_unit_test_info test_instance) (map uti_url utis) ->
  (exists e,
      Client.results_from_session self fuel qa_session m w = (Raises e, m2, w2)
      /\ (forall slug_to_test : dict Test,
            Client.replay self slug_to_test fuel qa_session m w = (Raises e, m2, w2))
      /\ posted (log w2) = posted (log w))
  /\ (forall results,
        Client.results_from_session self fuel (with_instances qa_session before) m w
          = (Returns results, m2, w2) ->
        Client.results_from_session self fuel qa_session m w
          = (Raises (KeyError (ti_unit_test_info test_instance)), m2, w2)).
Proof.
  intros Hinst Hts Hutis Hmissing.
  assert (Hunfold : forall qa,
    Client.results_from_session self fuel qa m w
    = (ofold (fun results test_instance =>
                let? test_url := getitem (dict_comp uti_url uti_test utis)
                                         (ti_unit_test_info test_instance) in
                let? test := getitem (dict_comp t_url (fun t => t) ts) test_url in
                let? value := get_testinstance_value test test_instance in
                Returns (dict_set results (t_slug test) value))
             (s_test_instances qa) [], m2, w2)).
  { intros qa. unfold Client.results_from_session.
    unfold and_then at 1. rewrite Hts. unfold and_then at 1. rewrite Hutis. reflexivity. }
  split.
  - assert (Hraise : exists e, Client.results_from_session self fuel qa_session m w
                               = (Raises e, m2, w2)).
    { rewrite Hunfold.
      match goal with
      | |- exists e, (ofold ?body ?xs ?acc, _, _) = _ =>
          destruct (ofold_raises_within body xs test_instance acc) as [e He]
      end.
      - intros acc y. apply decode_finishes.
      - intros acc. exists (KeyError (ti_unit_test_info test_instance)).
        now rewrite (getitem_missing uti_url uti_test utis _ Hmissing).
      - rewrite Hinst. apply in_or_app. right. now left.
      - exists e. now rewrite He. }
    destruct Hraise as [e He]. exists e. split; [exact He |]. split.
    + intros slug_to_test. unfold Client.replay. unfold and_then at 1. now rewrite He.
    + pose proof (tests_quiet self fuel m w) as H1. rewrite Hts in H1.
      pose proof (unit_test_infos_quiet self fuel m1 w1) as H2. rewrite Hutis in H2.
      simpl in H1, H2. congruence.
  - intros results Hbefore. rewrite Hunfold in Hbefore |- *.
    injection Hbefore as Hbefore. cbn [with_instances s_test_instances] in Hbefore.
    rewrite Hinst, ofold_app, Hbefore. simpl.
    now rewrite (getitem_missing uti_url uti_test utis _ Hmissing).
Qed.

End RemovedTests.

Section TestListUrl.
Context {rt : PyRuntime} {E : Type} {remote : Remote E} {catalog : Catalog E}.
Import CachedProperty.

(** X18. With the assignment resolved, the test list is fetched from
    [qa/testlists-details/] followed by the object id of the
    assignment's [tests_object], under the root, and stored as fetched. *)
Theorem test_list_is_fetched_by_object_id (self : QARepeater.t) (fuel : nat) (m : memo)
    (a : Assignment) (w : World E) :
  m_test_list m = None ->
  m_assignment m = Some (inl a) ->
  object_id_from_url (as_tests_object a) <> "" ->
  test_list self fuel m w =
  cached_property m_test_list store_test_list
    (call (get_api_objects serve_test_list (QARepeater.session self)
             (urlnorm (QARepeater.root self ++ "qa/testlists-details/"
                       ++ object_id_from_url (as_tests_object a)))
             true fuel)) m w.
Proof.
  intros Hm Ha Hid. unfold test_list, cached_property. rewrite Hm.
  unfold and_then at 1. unfold assignment, cached_property. rewrite Ha.
  unfold and_then, call, lift. cbn [item].
  unfold QARepeater.get_api_objects.
  change ("/qa/testlists-details/" ++ object_id_from_url (as_tests_object a) ++ "/")
    with (chars "/" 1 ++ ("qa/testlists-details/" ++ object_id_from_url (as_tests_object a))
          ++ chars "/" 1).
  rewrite strip_around.
  assert (Hl : lacks "/" (object_id_from_url (as_tests_object a)) = true).
  { unfold object_id_from_url.
    apply (last_forall (fun seg => lacks "/" seg = true)); [reflexivity |].
    apply split_segments_lack. }
  unfold strip.
  replace (lstrip "/" ("qa/testlists-details/" ++ object_id_from_url (as_tests_object a)))
    with ("qa/testlists-details/" ++ object_id_from_url (as_tests_object a))
    by reflexivity.
  rewrite (rstrip_append_lacks "/" _ _ Hid Hl). reflexivity.
Qed.

End TestListUrl.

Section Unthrottled.
Context {rt : PyRuntime} {E : Type} {remote : Remote E}.

(** The POST of [perform_session] is dispatched at once. *)
Lemma perform_session_unthrottled (self : QARepeater.t) (cache : QARepeater.cached)
    (tests : dict entry) (w : World E) :
  let result := QARepeater.perform_session self cache tests w in
  _next_allowed_api_call_time (snd result) = _next_allowed_api_call_time w
  /\ exists rest,
       log (snd result)
       = (log w ++ (clock w, QARepeater.submission self cache tests
                               (now_isoformat (remote_state w))) :: rest)%list
       /\ (List.length rest <= 1)%nat
       /\ Forall (fun ev => exists url, snd ev = GET (QARepeater.session self) url) rest.
Proof.
  cbn zeta.
  unfold QARepeater.perform_session, bind, wall_clock_now, send, raise.
  destruct (serve_post _ (remote_state w)) as [[response|e|] e'];
    cbn [log snd _next_allowed_api_call_time];
    try (split; [reflexivity |]; exists []; repeat split; simpl; try lia; constructor).
  destruct (negb _);
    [split; [reflexivity |]; exists []; repeat split; simpl; try lia; constructor |].
  destruct (json_body response) as [[| | | | | |kv]|];
    try (split; [reflexivity |]; exists []; repeat split; simpl; try lia; constructor).
  destruct (assoc "url" kv) as [[| | | |url| |]|];
    try (split; [reflexivity |]; exists []; repeat split; simpl; try lia; constructor).
  destruct (serve_session _ _) as [r1 e1]. cbn [log snd _next_allowed_api_call_time].
  split; [reflexivity |]. eexists [_]. repeat split.
  - now rewrite <- app_assoc.
  - simpl. lia.
  - constructor; [| constructor]. now exists url.
Qed.

End Unthrottled.

Section ClientRequests.
Context {rt : PyRuntime} {E : Type} {remote : Remote E} {catalog : Catalog E}.
Import CachedProperty.

(** X19. Once the assignment is cached, as it is whenever [repeat_qa]
    calls it, [perform_session] goes around the throttle: the POST is
    dispatched at once, also when the deadline has not come, at most one
    request follows it, a GET, and the deadline and the store are left
    as they were. *)
Theorem perform_session_is_not_throttled (self : QARepeater.t) (fuel : nat)
    (tests : dict entry) (m : memo) (a : Assignment) (w : World E) :
  m_assignment m = Some (inl a) ->
  let result := Client.perform_session self fuel tests m w in
  snd (fst result) = m
  /\ _next_allowed_api_call_time (snd result) = _next_allowed_api_call_time w
  /\ exists rest,
       log (snd result)
       = (log w ++ (clock w,
                    POST (QARepeater.session self)
                         (QARepeater.root self ++ "qa/testlistinstances/")
                         {| pd_unit_test_collection := as_url a;
                            pd_work_started := now_isoformat (remote_state w);
                            pd_comment := "Consistency check";
                            pd_tests := tests |}) :: rest)%list
       /\ (List.length rest <= 1)%nat
       /\ Forall (fun ev => exists url, snd ev = GET (QARepeater.session self) url) rest.
Proof.
  intros Ha. cbn zeta.
  rewrite (cached_perform_session m a
             {| QARepeater.assignment_url := as_url a;
                QARepeater.tests := [];
                QARepeater.all_unit_utis := [] |} self fuel tests w Ha eq_refl).
  cbn [fst snd]. split; [reflexivity |].
  exact (perform_session_unthrottled self
           {| QARepeater.assignment_url := as_url a;
              QARepeater.tests := [];
              QARepeater.all_unit_utis := [] |} tests w).
Qed.

(** X13. On a client whose properties are resolved, as in every replay
    but the first of a new client, and on a test list without upload
    tests, the replay of a session that decodes reads nothing from the
    service before it posts: the mapping it posts depends on the decoded
    session only, the POST is the first request of the replay, at most
    one request follows it, and the store is left as it was. *)
Theorem replay_without_uploads (self : QARepeater.t) (cache : QARepeater.cached)
    (fuel : nat) (previous_session : QASession) (previous_results : dict pyval)
    (m : memo) (w0 : World E) :
  Client.resolved m cache ->
  (forall t, In t (QARepeater.tests cache) -> t_type t <> "upload") ->
  Client.results_from_session self fuel previous_session m w0
    = (Returns previous_results, m, w0) ->
  exists tests,
    forall (w : World E) r m' w',
      Client.replay self (QARepeater.slug_to_test cache) fuel previous_session m w
        = (r, m', w') ->
      m' = m
      /\ exists rest,
           log w' = (log w ++ (clock w, QARepeater.submission self cache tests
                                          (now_isoformat (remote_state w))) :: rest)%list
           /\ (List.length rest <= 1)%nat.
Proof.
  intros Hres Hup Hprev.
  rewrite (resolved_results_from_session _ _ _ _ _ _ Hres) in Hprev.
  injection Hprev as Hprev.
  destruct (replay_without_uploads_cached self cache fuel previous_session previous_results
              Hup Hprev) as (tests & _ & Hreplay).
  exists tests. intros w r m' w' H.
  rewrite (resolved_replay _ _ _ _ _ _ Hres) in H. injection H as <- <- <-.
  split; [reflexivity |].
  apply (Hreplay w (fst (QARepeater.replay self cache (QARepeater.slug_to_test cache) fuel
                           previous_session w))).
  now destruct (QARepeater.replay _ _ _ _ _ _).
Qed.

End ClientRequests.

(** ** A whole run *)

Section WholeRun.
Context {rt : PyRuntime} {E : Type} {remote : Remote E} {catalog : Catalog E}.
Import CachedProperty.

(** X20. Whatever the client has cached, [repeat_qa] first resolves the
    tests, then asks for the previous sessions, and resolves the
    unit-test-infos as it decodes the first of them; from there on the
    store does not change, and the run is the loop over the sessions on
    the values that the store holds.  Without a previous session the
    unit-test-infos are not resolved and nothing is replayed. *)
Theorem repeat_qa_resolves_then_replays (self : QARepeater.t) (num_sessions : Z)
    (fuel : nat) (m : memo) (w : World E) (ts : list Test) (m1 : memo) (w1 : World E)
    (sessions : list QASession) (w2 : World E) :
  tests self fuel m w = (Returns ts, m1, w1) ->
  QARepeater.previous_sessions self num_sessions fuel w1 = (Returns (inr sessions), w2) ->
  (sessions = [] -> Client.repeat_qa self num_sessions fuel m w = (Returns [], m1, w2))
  /\ (sessions <> [] ->
      forall utis m2 w3 cache,
        unit_test_infos self fuel m1 w2 = (Returns utis, m2, w3) ->
        Client.resolved m2 cache ->
        Client.repeat_qa self num_sessions fuel m w
        = (fst (QARepeater.replay_each self cache (QARepeater.slug_to_test cache) fuel
                  sessions [] w3), m2,
           snd (QARepeater.replay_each self cache (QARepeater.slug_to_test cache) fuel
                  sessions [] w3)))
  /\ (sessions <> [] ->
      forall e m2 w3,
        unit_test_infos self fuel m1 w2 = (Raises e, m2, w3) ->
        Client.repeat_qa self num_sessions fuel m w = (Raises e, m2, w3)).
Proof.
  intros Hts Hprev.
  assert (Hstart : Client.repeat_qa self num_sessions fuel m w
                   = Client.pfold
                       (fun results previous_session =>
                          tbl <~ Client.replay self (dict_comp t_slug (fun t => t) ts) fuel
                                   previous_session ;;
                          pure (results ++ [tbl])%list)
                       sessions [] m1 w2).
  { unfold Client.repeat_qa. unfold and_then at 1. rewrite Hts.
    rewrite and_then_call. now rewrite Hprev. }
  assert (Hcached : m_tests m1 = Some ts)
    by (now apply cached_property_returns in Hts).
  rewrite Hstart. split; [| split].
  - intros ->. reflexivity.
  - intros Hsome utis m2 w3 cache Hutis Hres.
    destruct sessions as [|s sessions]; [congruence |].
    assert (Hsame : ts = QARepeater.tests cache).
    { pose proof (unit_test_infos_keeps self fuel m1 w2) as Hgrow.
      rewrite Hutis in Hgrow. destruct Hgrow as (_ & _ & HC & _).
      apply HC in Hcached. destruct Hres as (_ & Htests & _). simpl in Hcached. congruence. }
    subst ts. fold (QARepeater.slug_to_test cache).
    rewrite <- (resolved_replay_each _ _ _ _ _ _ _ Hres).
    cbn [Client.pfold]. unfold and_then at 1 2 5 6. unfold Client.replay.
    unfold and_then at 1 8.
    assert (Hdecode : Client.results_from_session self fuel s m1 w2
                      = Client.results_from_session self fuel s m2 w3).
    { rewrite (resolved_results_from_session _ _ _ _ _ _ Hres).
      unfold Client.results_from_session. unfold and_then at 1.
      rewrite (tests_hit m1 _ self fuel w2 Hcached). unfold and_then at 1.
      rewrite Hutis.
      apply cached_property_returns in Hutis; [| reflexivity].
      destruct Hres as (_ & _ & Hstored). rewrite Hstored in Hutis.
      injection Hutis as <-. reflexivity. }
    now rewrite Hdecode.
  - intros Hsome e m2 w3 Hutis.
    destruct sessions as [|s sessions]; [congruence |].
    cbn [Client.pfold]. unfold and_then at 1 2. unfold Client.replay.
    unfold and_then at 1. unfold Client.results_from_session. unfold and_then at 1.
    rewrite (tests_hit m1 _ self fuel w2 Hcached). unfold and_then at 1.
    now rewrite Hutis.
Qed.

End WholeRun.

(** ** The worked examples *)

Section WorkedExamples.
#[local] Existing Instance Demo.runtime.
#[local] Existing Instance Demo.service.

(** On the worked example: only [temperature] and [pressure] are posted,
    and the table has the row of [ktp]. *)
Lemma C1_worked_example :
  let result := QARepeater.repeat_qa Demo.client Demo.cache 1 5 (Demo.start Demo.service_ok) in
  posts_only
    (fun data =>
       forall t, In t (QARepeater.tests Demo.cache) -> QARepeater.is_calculated t = true ->
                 ~ In (t_slug t) (dict_keys (pd_tests data)))
    (Demo.start Demo.service_ok) (snd result)
  /\ forall tables, fst result = Returns tables ->
       exists sessions w1,
         QARepeater.previous_sessions Demo.client 1 5 (Demo.start Demo.service_ok)
           = (Returns (inr sessions), w1)
         /\ Forall2
              (fun previous_session tbl =>
                 exists previous_results new_session new_results,
                   QARepeater.results_from_session Demo.cache previous_session
                     = Returns previous_results
                   /\ QARepeater.results_from_session Demo.cache new_session
                      = Returns new_results
                   /\ forall t prev_val,
                        In t (QARepeater.tests Demo.cache) ->
                        QARepeater.is_calculated t = true ->
                        dict_get previous_results (t_slug t) = Some prev_val ->
                        In (comparison_row t prev_val (new_value new_results (t_slug t))) tbl)
              sessions tables.
Proof.
  apply C1_calculated_compared_not_submitted.
  repeat constructor; simpl; intuition discriminate.
Defined.

(** After [humidity] was added to the test list, the replay of the older
    session posts it as skipped, and posts the temperature that the
    older session recorded. *)
Lemma C3_added_test_is_skipped :
  exists data,
    posted (log (snd (QARepeater.replay Demo.client Demo.cache_grown
                        (QARepeater.slug_to_test Demo.cache_grown) 5 Demo.historical
                        (Demo.start Demo.service_ok))))
    = (posted (log (Demo.start Demo.service_ok)) ++ [data])%list
    /\ dict_get (pd_tests data) (t_slug Demo.humidity) = Some Skipped
    /\ dict_get (pd_tests data) (t_slug Demo.temperature) = Some (Value (PFloat 22)).
Proof.
  pose (data := {| pd_unit_test_collection := Demo.api ++ "qa/unittestcollections/123/";
                   pd_work_started := "2024-01-08T09:00:00";
                   pd_comment := "Consistency check";
                   pd_tests := [("temperature", Value (PFloat 22));
                                ("pressure", Value (PFloat 750));
                                ("humidity", Skipped)] |}).
  assert (Hposted :
    posted (log (snd (QARepeater.replay Demo.client Demo.cache_grown
                        (QARepeater.slug_to_test Demo.cache_grown) 5 Demo.historical
                        (Demo.start Demo.service_ok))))
    = (posted (log (Demo.start Demo.service_ok)) ++ [data])%list)
    by (vm_compute; reflexivity).
  destruct (C3_submission_defaults_to_skipped Demo.client Demo.cache_grown 5 Demo.historical
       [("temperature", PFloat 22); ("pressure", PFloat 750);
        ("ktp", PFloat 0x1.c666666666666p+5)]
       (Demo.start Demo.service_ok)
       (fst (QARepeater.replay Demo.client Demo.cache_grown
               (QARepeater.slug_to_test Demo.cache_grown) 5 Demo.historical
               (Demo.start Demo.service_ok)))
       (snd (QARepeater.replay Demo.client Demo.cache_grown
               (QARepeater.slug_to_test Demo.cache_grown) 5 Demo.historical
               (Demo.start Demo.service_ok)))
       data)
    as (_ & _ & Hadded & _ & Hfilled).
  - reflexivity.
  - now destruct (QARepeater.replay _ _ _ _ _ _).
  - exact Hposted.
  - exists data. split; [exact Hposted |]. split.
    + apply Hadded; [simpl; tauto | reflexivity | reflexivity].
    + apply (Hfilled "temperature" (PFloat 22) Demo.temperature);
        [reflexivity | reflexivity | reflexivity | reflexivity | discriminate].
Defined.

(** A service that answers the submission with 400: the batch ends with
    the error, which shows the response and its body. *)
Lemma C8_refused_example :
  fst (QARepeater.repeat_qa Demo.client Demo.cache 1 5 (Demo.start Demo.service_refused))
  = Raises (ValueError "Failed to repeat session: <Response [400]>: <dict>").
Proof.
  pose (w0 := Demo.start Demo.service_refused).
  pose (wa := snd (QARepeater.previous_sessions Demo.client 1 5 w0)).
  refine (f_equal fst (proj1 (proj2 (proj2
    (C8_refused_submission_aborts Demo.client Demo.cache 5 Demo.historical
       [("temperature", PFloat 22); ("pressure", PFloat 750);
        ("ktp", PFloat 0x1.c666666666666p+5)]
       [("temperature", Value (PFloat 22)); ("pressure", Value (PFloat 750))]
       wa wa Demo.refused_400 Demo.service_refused _ _ _ _)))
    1 w0 wa [] [] [] _ _)).
  - reflexivity.
  - reflexivity.
  - reflexivity.
  - unfold CREATED. simpl. lia.
  - reflexivity.
  - reflexivity.
Defined.



(** C7 fails on three calls in a row against a service that answers in
    100 ms: the second call sleeps until the deadline but sets the next
    deadline from the reading it made before sleeping, so the third
    request leaves 100 ms after the second. *)
Theorem C7_requests_closer_than_interval :
  let w' := snd (Demo.three_calls (Demo.start Demo.service_ok)) in
  dispatch_times (log w') = [0; 400; 500]
  /\ ~ spaced API_SLEEP_TIME_S (dispatch_times (log w')).
Proof.
  cbn zeta. split; [reflexivity |].
  vm_compute. intros [_ [H _]]. apply H. reflexivity.
Qed.

(** C4 fails on an attachment [report.txt] with the content [QUJD]: the
    entry posted for the upload test holds [ABC], the content decoded
    from base64, under the encoding [base64]; and when the content is not
    base64 text, the replay raises before anything is posted. *)
Theorem C4_upload_posts_decoded_content :
  Demo.d_content Demo.service_upload = "QUJD"
  /\ map pd_tests
         (posted (log (snd (QARepeater.repeat_qa Demo.client Demo.cache_upload 1 5
                              (Demo.start Demo.service_upload)))))
     = [[("temperature", Value (PFloat 22));
         ("report", Upload "ABC" "report.txt" "base64")]]
  /\ (let result := QARepeater.repeat_qa Demo.client Demo.cache_upload 1 5
                      (Demo.start Demo.service_upload_text) in
      fst result = Raises BinasciiError /\ posted (log (snd result)) = []).
Proof.
  split; [reflexivity | split; [reflexivity |]].
  split; reflexivity.
Qed.

(** The constructor accepts the documented URL with or without slashes
    at its end, and refuses a URL that does not end in [/api]. *)
Example init_accepts_any_trailing_slashes :
  fst (QARepeater.__init__ "secret" "https://rm.example/clinic/api" 123 5
         (Demo.start Demo.service_ok))
    = Returns Demo.client
  /\ fst (QARepeater.__init__ "secret" "https://rm.example/clinic/api///" 123 5
            (Demo.start Demo.service_ok))
    = Returns Demo.client
  /\ fst (QARepeater.__init__ "secret" "https://rm.example/clinic/" 123 5
            (Demo.start Demo.service_ok))
    = Raises (ValueError QARepeater.INVALID_URL).
Proof. repeat split; reflexivity. Qed.

(** Decoding on the instances of the worked example. *)
Example decoding_examples :
  get_testinstance_value Demo.temperature (Demo.reading "1" (PFloat 22))
    = Returns (PFloat 22)
  /\ get_testinstance_value Demo.report (Demo.text "5" (PStr "17")) = Returns (PStr "17")
  /\ get_testinstance_value (Demo.test "room" "Room" "ulookup")
       {| ti_unit_test_info := "";
          ti_skipped := PBool false;
          ti_value := PNone;
          ti_string_value := PNone;
          ti_date_value := PNone;
          ti_datetime_value := PNone;
          ti_json_value := PNone;
          ti_unit_lookup_value := PStr "https://rm.example/clinic/api/units/units/7/" |}
     = Returns (PStr "7")
  /\ get_testinstance_value (Demo.test "shape" "Shape" "polygon")
       {| ti_unit_test_info := "";
          ti_skipped := PBool false;
          ti_value := PNone;
          ti_string_value := PNone;
          ti_date_value := PNone;
          ti_datetime_value := PNone;
          ti_json_value := PStr "[1, 2]";
          ti_unit_lookup_value := PNone |}
     = Returns (PStr "[1, 2]")
  /\ get_testinstance_value Demo.ktp
       {| ti_unit_test_info := "";
          ti_skipped := PBool true;
          ti_value := PFloat 1;
          ti_string_value := PNone;
          ti_date_value := PNone;
          ti_datetime_value := PNone;
          ti_json_value := PNone;
          ti_unit_lookup_value := PNone |}
     = Returns PNone.
Proof. repeat split; reflexivity. Qed.

(** The scenario of the design document: the tests [temperature],
    [pressure] (simple) and [ktp] (composite), one historical session
    with temperature = 22, pressure = 750 and ktp = 56.8.  The replay
    posts the two measured values only, and the table compares [ktp]. *)
Example worked_example_run :
  let result := QARepeater.repeat_qa Demo.client Demo.cache 1 5 (Demo.start Demo.service_ok) in
  map pd_tests (posted (log (snd result)))
    = [[("temperature", Value (PFloat 22)); ("pressure", Value (PFloat 750))]]
  /\ exists tbl,
       fst result = Returns [tbl]
       /\ In (comparison_row Demo.ktp (PFloat 0x1.c666666666666p+5)
                             (PFloat 0x1.c666666666666p+5)) tbl.
Proof.
  cbn zeta. split; [reflexivity |].
  eexists. split; [reflexivity |]. simpl. tauto.
Qed.

(** An upload whose instance was skipped, or holds no attachment id, is
    posted as skipped, and no attachment is fetched. *)
Example upload_without_attachment_is_skipped :
  let skipped_upload :=
    {| ti_unit_test_info := ti_unit_test_info (Demo.text "5" PNone);
       ti_skipped := PBool true;
       ti_value := PNone;
       ti_string_value := PStr "17";
       ti_date_value := PNone;
       ti_datetime_value := PNone;
       ti_json_value := PNone;
       ti_unit_lookup_value := PNone |} in
  let run (instance : TestInstance) :=
    QARepeater.replay Demo.client Demo.cache_upload
      (QARepeater.slug_to_test Demo.cache_upload) 5
      (with_instances Demo.with_upload [instance])
      (Demo.start Demo.service_upload) in
  forall instance,
    In instance [skipped_upload; Demo.text "5" PNone; Demo.text "5" (PStr "")] ->
    map pd_tests (posted (log (snd (run instance))))
      = [[("temperature", Skipped); ("report", Skipped)]]
    /\ List.length (log (snd (run instance))) = 2%nat.
Proof.
  cbn zeta. intros instance [<- | [<- | [<- | []]]]; split; reflexivity.
Qed.

(** ** Further worked examples *)

#[local] Existing Instance DemoCatalog.catalog.

(** C6 as the design document has it fails: the session [Demo.stale] was
    recorded when the test list still had [humidity]; on a new client,
    decoding it raises instead of dropping the instance, and [repeat_qa]
    raises with it, without a submission. *)
Lemma C6_removed_test_not_dropped :
  let service :=
    {| Demo.d_sessions := [Demo.stale];
       Demo.d_attachment := Demo.no_attachment;
       Demo.d_content := "";
       Demo.d_response := Demo.created_201;
       Demo.d_created := Demo.created;
       Demo.d_latency := 100 |} in
  let decoded := Client.results_from_session Demo.client 5 Demo.stale CachedProperty.empty
                   (Demo.start service) in
  let result := Client.repeat_qa Demo.client 1 5 CachedProperty.empty (Demo.start service) in
  fst (fst decoded) = Raises (KeyError "https://rm.example/clinic/api/qa/unittestinfos/4/")
  /\ ~ (exists results, fst (fst decoded) = Returns results)
  /\ fst (fst result) = Raises (KeyError "https://rm.example/clinic/api/qa/unittestinfos/4/")
  /\ posted (log (snd result)) = [].
Proof.
  cbn zeta. split; [vm_compute; reflexivity | split; [| split]].
  - intros [results H]. vm_compute in H. discriminate H.
  - vm_compute. reflexivity.
  - vm_compute. reflexivity.
Qed.

(** The same session through the amended statement. *)
Lemma C6_stale_session_raises :
  fst (fst (Client.results_from_session Demo.client 5 Demo.stale CachedProperty.empty
              (Demo.start Demo.service_ok)))
  = Raises (KeyError (ti_unit_test_info (Demo.reading "4" (PFloat 40)))).
Proof.
  pose (w := Demo.start Demo.service_ok).
  pose (r1 := CachedProperty.tests Demo.client 5 CachedProperty.empty w).
  pose (r2 := CachedProperty.unit_test_infos Demo.client 5 (snd (fst r1)) (snd r1)).
  refine (f_equal (fun r => fst (fst r)) (proj2
    (C6_removed_test_raises Demo.client 5 Demo.stale
       [Demo.reading "1" (PFloat 22)] [Demo.reading "2" (PFloat 750)]
       (Demo.reading "4" (PFloat 40))
       CachedProperty.empty w (QARepeater.tests Demo.cache) (snd (fst r1)) (snd r1)
       (QARepeater.unit_test_infos Demo.cache) (snd (fst r2)) (snd r2) _ _ _ _)
    [("temperature", PFloat 22)] _)).
  - reflexivity.
  - vm_compute. reflexivity.
  - vm_compute. reflexivity.
  - simpl. intuition discriminate.
  - vm_compute. reflexivity.
Defined.


(** On a new client, the session with an instance of the removed
    [humidity]: the properties resolve, and the exception is the
    [KeyError] of that instance. *)
Lemma session_decoding_errors_example :
  let w := Demo.start Demo.service_ok in
  let e := KeyError "https://rm.example/clinic/api/qa/unittestinfos/4/" in
  let r := Client.results_from_session Demo.client 5 Demo.stale CachedProperty.empty w in
  CachedProperty.tests Demo.client 5 CachedProperty.empty w = (Raises e, snd (fst r), snd r)
  \/ exists ts m1 w1,
       CachedProperty.tests Demo.client 5 CachedProperty.empty w = (Returns ts, m1, w1)
       /\ (CachedProperty.unit_test_infos Demo.client 5 m1 w1 = (Raises e, snd (fst r), snd r)
           \/ exists utis,
                CachedProperty.unit_test_infos Demo.client 5 m1 w1
                = (Returns utis, snd (fst r), snd r)
                /\ exists test_instance,
                     In test_instance (s_test_instances Demo.stale)
                     /\ ((~ In (ti_unit_test_info test_instance) (map uti_url utis)
                          /\ e = KeyError (ti_unit_test_info test_instance))
                         \/ exists uti test,
                              In uti utis
                              /\ uti_url uti = ti_unit_test_info test_instance
                              /\ In test ts /\ t_url test = uti_test uti
                              /\ get_testinstance_value test test_instance = Raises e)).
Proof.
  cbn zeta.
  apply (session_decoding_errors Demo.client 5 Demo.stale CachedProperty.empty
           (Demo.start Demo.service_ok)).
  - left. reflexivity.
  - vm_compute. reflexivity.
Defined.

(** The keys decoded from the historical session of the worked example. *)
Lemma decoded_keys_example :
  (List.length [("temperature", PFloat 22); ("pressure", PFloat 750);
                ("ktp", PFloat 0x1.c666666666666p+5)]
   <= List.length (s_test_instances Demo.historical))%nat.
Proof.
  refine (proj1 (proj2
    (decoded_keys_are_performed_tests Demo.cache Demo.historical
       [("temperature", PFloat 22); ("pressure", PFloat 750);
        ("ktp", PFloat 0x1.c666666666666p+5)] _))).
  reflexivity.
Defined.

(** [temperature] recorded twice: the second reading is the one decoded. *)
Lemma last_instance_example :
  exists value,
    get_testinstance_value Demo.temperature (Demo.reading "1" (PFloat 22)) = Returns value
    /\ dict_get [("temperature", PFloat 22); ("pressure", PFloat 750)]
                (t_slug Demo.temperature) = Some value.
Proof.
  refine (last_instance_decides Demo.cache DemoCatalog.repeated
            [("temperature", PFloat 22); ("pressure", PFloat 750)]
            [Demo.reading "1" (PFloat 21); Demo.reading "2" (PFloat 750)] []
            (Demo.reading "1" (PFloat 22)) Demo.temperature _ _ _ _).
  - reflexivity.
  - reflexivity.
  - reflexivity.
  - intros other test' [].
Defined.

(** The table of the worked example. *)
Lemma comparison_table_example :
  exists rows,
    QARepeater.generate_results_table Demo.cache Demo.historical
      [("temperature", PFloat 22); ("ktp", PFloat 1)] Demo.created
      [("temperature", PFloat 22)]
    = Returns (table_header Demo.historical Demo.created ++ rows)%list
    /\ Forall2 (fun item row =>
                  exists test,
                    dict_get (QARepeater.slug_to_test Demo.cache) (fst item) = Some test
                    /\ In test (QARepeater.tests Demo.cache)
                    /\ t_slug test = fst item
                    /\ row = comparison_row test (snd item)
                               (new_value [("temperature", PFloat 22)] (fst item)))
               [("temperature", PFloat 22); ("ktp", PFloat 1)] rows.
Proof.
  apply comparison_table_shape.
  simpl. intuition.
Defined.

(** Three units on two pages. *)
Lemma all_pages_example :
  exists w',
    get_api_objects DemoCatalog.two_pages "Token secret"
      "https://rm.example/clinic/api/units/units" true 5 (Demo.start Demo.service_ok)
    = (Returns (inr (List.concat [["TrueBeam 1"; "TrueBeam 2"]; ["Halcyon"]])), w')
    /\ remote_state w' = Demo.service_ok
    /\ List.length (log w') = (List.length (log (Demo.start Demo.service_ok)) + 2)%nat.
Proof.
  refine (all_pages_are_collected DemoCatalog.two_pages "Token secret"
            "https://rm.example/clinic/api/units/units"
            [["TrueBeam 1"; "TrueBeam 2"]; ["Halcyon"]] Demo.service_ok 5
            (Demo.start Demo.service_ok) _ _).
  - eapply pages_more; [discriminate | reflexivity |].
    eapply pages_last; [discriminate | reflexivity | now left].
  - simpl. lia.
Defined.

(** The one request of [previous_sessions] in the worked example. *)
Lemma previous_sessions_example :
  QARepeater.previous_sessions Demo.client 1 5 (Demo.start Demo.service_ok)
  = (Returns (inr [Demo.historical]),
     dispatched
       (GET "Token secret"
            "https://rm.example/clinic/api/qa/testlistinstances/?ordering=-work_completed&unit_test_collection=123&limit=1")
       (throttled (Demo.start Demo.service_ok)) Demo.service_ok).
Proof.
  refine (previous_sessions_asks_once Demo.client 1 5 (Demo.start Demo.service_ok) _ _).
  - vm_compute. discriminate.
  - lia.
Defined.


(** The replay of the historical session by a client that has resolved
    its properties, on the list without uploads. *)
Lemma replay_without_uploads_example :
  exists tests,
    forall (w : World Demo.script) r m' w',
      Client.replay Demo.client (QARepeater.slug_to_test Demo.cache) 5 Demo.historical
        DemoCatalog.store w = (r, m', w') ->
      m' = DemoCatalog.store
      /\ exists rest,
           log w' = (log w ++ (clock w, QARepeater.submission Demo.client Demo.cache tests
                                          (now_isoformat (remote_state w))) :: rest)%list
           /\ (List.length rest <= 1)%nat.
Proof.
  apply (replay_without_uploads Demo.client Demo.cache 5 Demo.historical
           [("temperature", PFloat 22); ("pressure", PFloat 750);
            ("ktp", PFloat 0x1.c666666666666p+5)]
           DemoCatalog.store (Demo.start Demo.service_ok)).
  - split; [exists DemoCatalog.the_assignment; split; reflexivity | split; reflexivity].
  - simpl. intros t [<- | [<- | [<- | []]]]; discriminate.
  - vm_compute. reflexivity.
Defined.

(** One session repeated against the accepting service: one table, one POST. *)
Lemma one_table_example :
  exists sessions w1,
    QARepeater.previous_sessions Demo.client 1 5 (Demo.start Demo.service_ok)
    = (Returns (inr sessions), w1)
    /\ replayed Demo.client Demo.cache 5 w1 sessions
         (returned [] (fst (QARepeater.repeat_qa Demo.client Demo.cache 1 5
                              (Demo.start Demo.service_ok))))
         (snd (QARepeater.repeat_qa Demo.client Demo.cache 1 5 (Demo.start Demo.service_ok)))
    /\ List.length
         (returned [] (fst (QARepeater.repeat_qa Demo.client Demo.cache 1 5
                              (Demo.start Demo.service_ok))))
       = List.length sessions
    /\ List.length
         (posted (log (snd (QARepeater.repeat_qa Demo.client Demo.cache 1 5
                              (Demo.start Demo.service_ok)))))
       = (List.length (posted (log (Demo.start Demo.service_ok))) + List.length sessions)%nat.
Proof.
  apply (one_table_and_one_post_per_session Demo.client Demo.cache 1 5
           (Demo.start Demo.service_ok)).
  vm_compute. reflexivity.
Defined.

(** The first access to [unit_test_infos] against the small catalog. *)
Lemma unit_test_infos_example :
  let w := Demo.start Demo.service_ok in
  let r := CachedProperty.unit_test_infos Demo.client 5 CachedProperty.empty w in
  exists a m1 w1 all w2 ts m2,
    CachedProperty.assignment Demo.client 5 CachedProperty.empty w = (Returns (inl a), m1, w1)
    /\ QARepeater.get_api_objects Demo.client serve_unit_test_infos
         ("/qa/unittestinfos/?unit=" ++ object_id_from_url (as_unit a)) true 5 w1
       = (Returns (inr all), w2)
    /\ CachedProperty.tests Demo.client 5 m1 w2 = (Returns ts, m2, snd r)
    /\ QARepeater.unit_test_infos Demo.cache
       = filter (fun uti => str_in (uti_test uti) (map t_url ts)) all
    /\ snd (fst r)
       = CachedProperty.store_unit_test_infos m2 (QARepeater.unit_test_infos Demo.cache)
    /\ Client.resolved (snd (fst r))
         {| QARepeater.assignment_url := as_url a;
            QARepeater.tests := ts;
            QARepeater.all_unit_utis := all |}
    /\ (forall fuel' (v : World Demo.script),
          CachedProperty.assignment Demo.client fuel' (snd (fst r)) v
          = (Returns (inl a), snd (fst r), v)
          /\ CachedProperty.tests Demo.client fuel' (snd (fst r)) v
             = (Returns ts, snd (fst r), v)
          /\ CachedProperty.unit_test_infos Demo.client fuel' (snd (fst r)) v
             = (Returns (QARepeater.unit_test_infos Demo.cache), snd (fst r), v)).
Proof.
  cbn zeta.
  apply (unit_test_infos_are_filtered Demo.client 5 CachedProperty.empty
           (Demo.start Demo.service_ok)).
  - reflexivity.
  - vm_compute. reflexivity.
Defined.

(** When the test list cannot be fetched, the access to [test_list]
    raises and leaves the assignment cached. *)
Lemma failed_access_example :
  fst (fst (CachedProperty.test_list (catalog := DemoCatalog.broken) Demo.client 5
              CachedProperty.empty (Demo.start Demo.service_ok)))
  = Raises (RequestException "503")
  /\ CachedProperty.m_assignment
       (snd (fst (CachedProperty.test_list (catalog := DemoCatalog.broken) Demo.client 5
                    CachedProperty.empty (Demo.start Demo.service_ok))))
     = Some (inl DemoCatalog.the_assignment).
Proof.
  split; [vm_compute; reflexivity |].
  refine (proj1
    (failed_access_keeps_the_assignment (catalog := DemoCatalog.broken) Demo.client 5
       CachedProperty.empty (Demo.start Demo.service_ok) (inl DemoCatalog.the_assignment)
       (snd (fst (CachedProperty.assignment (catalog := DemoCatalog.broken) Demo.client 5
                    CachedProperty.empty (Demo.start Demo.service_ok))))
       (snd (CachedProperty.assignment (catalog := DemoCatalog.broken) Demo.client 5
               CachedProperty.empty (Demo.start Demo.service_ok)))
       _) _).
  - vm_compute. reflexivity.
  - reflexivity.
Defined.

(** A submission right after a probe, while the deadline of the throttle
    is still ahead: the POST leaves at once. *)
Lemma perform_session_example :
  let w := snd (Demo.probe Demo.client (Demo.start Demo.service_ok)) in
  let result := Client.perform_session Demo.client 5 [("temperature", Value (PFloat 22))]
                  DemoCatalog.store w in
  clock w < _next_allowed_api_call_time w
  /\ snd (fst result) = DemoCatalog.store
  /\ _next_allowed_api_call_time (snd result) = _next_allowed_api_call_time w
  /\ exists rest,
       log (snd result)
       = (log w ++ (clock w,
                    POST (QARepeater.session Demo.client)
                         (QARepeater.root Demo.client ++ "qa/testlistinstances/")
                         {| pd_unit_test_collection := as_url DemoCatalog.the_assignment;
                            pd_work_started := now_isoformat (remote_state w);
                            pd_comment := "Consistency check";
                            pd_tests := [("temperature", Value (PFloat 22))] |}) :: rest)%list
       /\ (List.length rest <= 1)%nat
       /\ Forall (fun ev => exists url, snd ev = GET (QARepeater.session Demo.client) url) rest.
Proof.
  cbn zeta. split; [vm_compute; reflexivity |].
  apply (perform_session_is_not_throttled Demo.client 5 [("temperature", Value (PFloat 22))]
           DemoCatalog.store DemoCatalog.the_assignment).
  reflexivity.
Defined.

(** A new client against the accepting service: the run is the loop on
    the values of the worked example, from the world in which the
    unit-test-infos have been fetched. *)
Lemma whole_run_example :
  let w := Demo.start Demo.service_ok in
  let r1 := CachedProperty.tests Demo.client 5 CachedProperty.empty w in
  let w2 := snd (QARepeater.previous_sessions Demo.client 1 5 (snd r1)) in
  let r3 := CachedProperty.unit_test_infos Demo.client 5 (snd (fst r1)) w2 in
  Client.repeat_qa Demo.client 1 5 CachedProperty.empty w
  = (fst (QARepeater.replay_each Demo.client Demo.cache (QARepeater.slug_to_test Demo.cache) 5
            [Demo.historical] [] (snd r3)),
     snd (fst r3),
     snd (QARepeater.replay_each Demo.client Demo.cache (QARepeater.slug_to_test Demo.cache) 5
            [Demo.historical] [] (snd r3))).
Proof.
  cbn zeta.
  refine (proj1 (proj2
    (repeat_qa_resolves_then_replays Demo.client 1 5 CachedProperty.empty
       (Demo.start Demo.service_ok) (QARepeater.tests Demo.cache) _ _ [Demo.historical] _
       _ _)) _ (QARepeater.unit_test_infos Demo.cache) _ _ Demo.cache _ _).
  - vm_compute. reflexivity.
  - vm_compute. reflexivity.
  - discriminate.
  - vm_compute. reflexivity.
  - split; [exists DemoCatalog.the_assignment; split; reflexivity | split; reflexivity].
Defined.

(** The test list of the small catalog is fetched from [qa/testlists-details/9]. *)
Lemma test_list_url_example :
  CachedProperty.test_list Demo.client 5
    (CachedProperty.store_assignment CachedProperty.empty (inl DemoCatalog.the_assignment))
    (Demo.start Demo.service_ok)
  = CachedProperty.cached_property CachedProperty.m_test_list CachedProperty.store_test_list
      (CachedProperty.call
         (get_api_objects serve_test_list (QARepeater.session Demo.client)
            (urlnorm (QARepeater.root Demo.client ++ "qa/testlists-details/"
                      ++ object_id_from_url (as_tests_object DemoCatalog.the_assignment)))
            true 5))
      (CachedProperty.store_assignment CachedProperty.empty (inl DemoCatalog.the_assignment))
      (Demo.start Demo.service_ok).
Proof.
  apply (test_list_is_fetched_by_object_id Demo.client 5
           (CachedProperty.store_assignment CachedProperty.empty
              (inl DemoCatalog.the_assignment))
           DemoCatalog.the_assignment (Demo.start Demo.service_ok)).
  - reflexivity.
  - reflexivity.
  - vm_compute. discriminate.
Defined.

(** The refused submission: the first replay fails after its one POST. *)
Lemma failed_repeat_example :
  exists done failing rest tables w2,
    [Demo.historical] = (done ++ failing :: rest)%list
    /\ QARepeater.replay_each Demo.client Demo.cache (QARepeater.slug_to_test Demo.cache) 5
         done [] (snd (QARepeater.previous_sessions Demo.client 1 5
                         (Demo.start Demo.service_refused)))
       = (Returns tables, w2)
    /\ QARepeater.replay Demo.client Demo.cache (QARepeater.slug_to_test Demo.cache) 5
         failing w2
       = (Raises (ValueError "Failed to repeat session: <Response [400]>: <dict>"),
          snd (QARepeater.repeat_qa Demo.client Demo.cache 1 5
                 (Demo.start Demo.service_refused)))
    /\ List.length (posted (log w2))
       = (List.length (posted (log (Demo.start Demo.service_refused))) + List.length done)%nat
    /\ (List.length
          (posted (log (snd (QARepeater.repeat_qa Demo.client Demo.cache 1 5
                               (Demo.start Demo.service_refused)))))
        = List.length (posted (log w2))
        \/ List.length
             (posted (log (snd (QARepeater.repeat_qa Demo.client Demo.cache 1 5
                                  (Demo.start Demo.service_refused)))))
           = S (List.length (posted (log w2)))).
Proof.
  apply (failed_repeat_keeps_earlier_posts Demo.client Demo.cache 1 5
           (Demo.start Demo.service_refused)).
  - vm_compute. reflexivity.
  - vm_compute. reflexivity.
Defined.

End WorkedExamples.
